(** * txAdmin core: environment resolution (globalData) and the Translator module

    A shallow embedding of [src/core/modules/Translator.ts] (the Translator
    class, lines 1-116) and of the environment module that follows it in the
    same file (lines 117-408: txEnv, txDevEnv, convars), with the properties
    of the specification settled against it.

    JavaScript strings are sequences of UTF-16 code units; process
    termination ([process.exit]) and exceptions are outcomes of a small
    state-and-error monad over the observable world (file system, console). *)

From Stdlib Require Import ZArith QArith.
From stdpp Require Import base option list gmap strings pretty.

Open Scope Z_scope.
Set Warnings "-register-all".
Set Default Proof Using "Type".

(** ** JavaScript strings *)

Module JS.

(** A JS string is a list of UTF-16 code units. *)
Abbreviation jsstring := (list N).

(** ASCII literals. *)
Definition js (s : string) : jsstring :=
  map Ascii.N_of_ascii (String.list_ascii_of_string s).

Definition strEq (a b : jsstring) : bool := bool_decide (a = b).

(** [String.prototype.startsWith] and [endsWith] (no position argument). *)
Fixpoint startsWith (s p : jsstring) : bool :=
  match p, s with
  | [], _ => true
  | _ :: _, [] => false
  | c :: p', d :: s' => (c =? d)%N && startsWith s' p'
  end.

Definition endsWith (s p : jsstring) : bool :=
  startsWith (reverse s) (reverse p).

(** White space and line terminators removed by [String.prototype.trim]. *)
Definition isWhiteSpace (c : N) : bool :=
  ((9 <=? c) && (c <=? 13) || (c =? 32) || (c =? 160) || (c =? 5760)
   || (8192 <=? c) && (c <=? 8202) || (c =? 8232) || (c =? 8233)
   || (c =? 8239) || (c =? 8287) || (c =? 12288) || (c =? 65279))%N.

Fixpoint trimStart (s : jsstring) : jsstring :=
  match s with
  | c :: s' => if isWhiteSpace c then trimStart s' else s
  | [] => []
  end.

Definition trim (s : jsstring) : jsstring :=
  reverse (trimStart (reverse (trimStart s))).

(** Character predicates used by the regular expressions of the module. *)
Definition isDigit (c : N) : bool := ((48 <=? c) && (c <=? 57))%N.
Definition isLower (c : N) : bool := ((97 <=? c) && (c <=? 122))%N.
Definition isUpper (c : N) : bool := ((65 <=? c) && (c <=? 90))%N.

(** Template literals print numbers in decimal. *)
Definition ofZ (z : Z) : jsstring := js (pretty z).

End JS.
Export JS.

(** ** JavaScript values *)

(** A Number: a finite value, kept as a rational, or an infinity, which is
    what [parseInt] and [JSON.parse] give for a numeral beyond the range of
    a double. *)
Inductive number : Type :=
| Finite (q : Q)
| PosInfinity
| NegInfinity.

(** The values the module handles: [undefined], and what [JSON.parse] and
    [parseInt] produce.  The code only copies numbers and tests them for
    truthiness. *)
Inductive value : Type :=
| VUndefined
| VNull
| VBool (b : bool)
| VNum (n : number)
| VStr (s : jsstring)
| VArr (items : list value)
| VObj (fields : list (jsstring * value)).   (* the keys of an object are distinct *)

Inductive jstype : Type := TUndefined | TObject | TBoolean | TNumber | TString.

Definition typeof (v : value) : jstype :=
  match v with
  | VUndefined => TUndefined
  | VNull | VArr _ | VObj _ => TObject
  | VBool _ => TBoolean
  | VNum _ => TNumber
  | VStr _ => TString
  end.

Definition isString (v : value) : bool :=
  match v with VStr _ => true | _ => false end.

Definition isObjectType (v : value) : bool :=
  match v with VNull | VArr _ | VObj _ => true | _ => false end.

(** ToBoolean. *)
Definition truthy (v : value) : bool :=
  match v with
  | VUndefined | VNull => false
  | VBool b => b
  | VNum (Finite q) => negb (Qnum q =? 0)
  | VNum _ => true
  | VStr s => match s with [] => false | _ => true end
  | VArr _ | VObj _ => true
  end.

(** Own property of an object literal: the entry of that key. *)
Fixpoint lookupField (k : jsstring) (fields : list (jsstring * value)) : value :=
  match fields with
  | [] => VUndefined
  | (k', v) :: rest => if strEq k k' then v else lookupField k rest
  end.

(** Property read [v.k], for the property names this module reads
    ([interface], [defaults], [customer], [name], ...; none of them lives on
    a prototype): a [TypeError] on [undefined] and [null], the own property
    of an object, [undefined] on everything else. *)
Definition getProp (v : value) (k : jsstring) : (jsstring + value)%type :=
  match v with
  | VUndefined =>
      inl (js "Cannot read properties of undefined (reading '" ++ k ++ js "')")
  | VNull =>
      inl (js "Cannot read properties of null (reading '" ++ k ++ js "')")
  | VObj fields => inr (lookupField k fields)
  | _ => inr VUndefined
  end.

(** ** The world and the process monad *)

(** A file-system entry. *)
Inductive node : Type := File (content : jsstring) | Directory.

(** What the console received. *)
Inductive logline : Type :=
| LogError (args : list jsstring)
| LogWarn (text : jsstring)
| LogLog (text : jsstring)
| LogDir (v : value)
| LogDirError (message : jsstring)
| LogVerboseDirError (message : jsstring).

(** The observable world.  [locked] holds the paths the process is not
    allowed to remove (no permission on the directory, a file in use), each
    with the message of the error a removal raises. *)
Record world : Type := World {
  files : gmap jsstring node;
  console : list logline;
  localIps : list value;
  consoleEnvData : option (value * jsstring * bool * bool);
  locked : gmap jsstring jsstring;
}.

(** How a computation ends: normally, by [process.exit(code)], by an
    exception carrying a message, or in the fatal-error handler. *)
Inductive outcome (A : Type) : Type :=
| Done (a : A)
| Exit (code : Z)
| Throw (message : jsstring)
| Fatal (code : Z) (message : jsstring).
Arguments Done {A} a.
Arguments Exit {A} code.
Arguments Throw {A} message.
Arguments Fatal {A} code message.

Definition Proc (A : Type) : Type := world -> outcome A * world.

#[export] Instance proc_ret : MRet Proc := fun A a w => (Done a, w).

#[export] Instance proc_bind : MBind Proc := fun A B f m w =>
  match m w with
  | (Done a, w') => f a w'
  | (Exit c, w') => (Exit c, w')
  | (Throw e, w') => (Throw e, w')
  | (Fatal c e, w') => (Fatal c e, w')
  end.

Definition process_exit {A} (code : Z) : Proc A := fun w => (Exit code, w).
Definition throw {A} (message : jsstring) : Proc A := fun w => (Throw message, w).

(** [try { body } catch (error) { handler(error.message) }]: effects of the
    body before the exception stay. *)
Definition tryCatch {A} (body : Proc A) (handler : jsstring -> Proc A) : Proc A :=
  fun w =>
    match body w with
    | (Throw e, w') => handler e w'
    | r => r
    end.

(** Pure code that may throw: the message, or the result. *)
Definition Except (A : Type) : Type := (jsstring + A)%type.

#[export] Instance except_ret : MRet Except := fun A a => inr a.

#[export] Instance except_bind : MBind Except := fun A B f m =>
  match m with
  | inl e => inl e
  | inr a => f a
  end.

Definition raise {A} (message : jsstring) : Except A := inl message.

Definition liftE {A} (r : Except A) : Proc A :=
  match r with inl e => throw e | inr a => mret a end.

Definition emit (l : logline) : Proc unit :=
  fun w => (Done tt, World (files w) (console w ++ [l]) (localIps w) (consoleEnvData w)
                       (locked w)).

Definition console_error (text : jsstring) : Proc unit := emit (LogError [text]).
Definition console_warn (text : jsstring) : Proc unit := emit (LogWarn text).
Definition console_log (text : jsstring) : Proc unit := emit (LogLog text).

(** *** File system ([node:fs]) *)

Definition existsSync (path : jsstring) : Proc bool :=
  fun w => (Done (bool_decide (is_Some (files w !! path))), w).

Definition readFileSync (path : jsstring) : Proc jsstring :=
  fun w =>
    match files w !! path with
    | Some (File content) => (Done content, w)
    | Some Directory =>
        (Throw (js "EISDIR: illegal operation on a directory, read"), w)
    | None =>
        (Throw (js "ENOENT: no such file or directory, open '" ++ path ++ js "'"), w)
    end.

(** [unlinkSync] removes a file.  It raises on a directory, on a path
    that does not exist, and on a file the process may not remove; the
    file then stays. *)
Definition unlinkSync (path : jsstring) : Proc unit :=
  fun w =>
    match files w !! path with
    | Some (File _) =>
        match locked w !! path with
        | Some message => (Throw message, w)
        | None =>
            (Done tt, World (delete path (files w)) (console w) (localIps w)
                        (consoleEnvData w) (locked w))
        end
    | Some Directory =>
        (Throw (js "EPERM: operation not permitted, unlink '" ++ path ++ js "'"), w)
    | None =>
        (Throw (js "ENOENT: no such file or directory, unlink '" ++ path ++ js "'"), w)
    end.

(** ** The host runtime

    Library and runtime functions the module calls and whose code is not
    part of it. *)
Inductive fxsVersion : Type :=
| FxsValid (build : Z) (branch : jsstring)
| FxsInvalid.

Class Runtime : Type := {
  (** [path.normalize], [path.join] of [node:path] and the [slash] package *)
  path_normalize : jsstring -> jsstring;
  path_join : list jsstring -> jsstring;
  slash : jsstring -> jsstring;
  (** [JSON.parse]: the value, or the message of the [SyntaxError] *)
  JSON_parse : jsstring -> jsstring + value;
  (** [parseFxserverVersion] of [lib/fxserver/fxsVersionParser] *)
  parseFxserverVersion : value -> fxsVersion;
  (** [Intl.getCanonicalLocales(tag)[0]], [None] for its [RangeError] *)
  getCanonicalLocale : jsstring -> option jsstring;
  (** the built-in catalogs of [shared/localeMap] *)
  localeMap : jsstring -> value;
  (** node-polyglot: flattening of a phrase tree into dotted keys, and
      interpolation of a phrase with the options *)
  polyglot_extend : value -> gmap jsstring value;
  polyglot_transformPhrase : jsstring -> value -> jsstring + jsstring;
}.

(** ** Regular expressions of the environment module *)

Module Regex.

(** An unanchored [test]: the pattern matches at some position. *)
Fixpoint testAnywhere (matchAt : jsstring -> bool) (s : jsstring) : bool :=
  matchAt s ||
  match s with
  | [] => false
  | _ :: s' => testAnywhere matchAt s'
  end.

(** An ASCII letter of a pattern under the [i] flag. *)
Definition ciChar (lower c : N) : bool := ((c =? lower) || (c =? lower - 32))%N.

Fixpoint matchCI (pat s : jsstring) : option jsstring :=
  match pat, s with
  | [], _ => Some s
  | _ :: _, [] => None
  | p :: pat', c :: s' => if ciChar p c then matchCI pat' s' else None
  end.

Fixpoint skipWhile (f : N -> bool) (s : jsstring) : jsstring :=
  match s with
  | c :: s' => if f c then skipWhile f s' else s
  | [] => []
  end.

Definition isSlash (c : N) : bool := ((c =? 92) || (c =? 47))%N.

(** [/Temp[\\/]+Rar\$/i] *)
Definition winRarTemp_at (s : jsstring) : bool :=
  match matchCI (js "temp") s with
  | Some (c :: rest) =>
      isSlash c &&
      match matchCI (js "rar") (skipWhile isSlash rest) with
      | Some (d :: _) => (d =? 36)%N
      | _ => false
      end
  | _ => false
  end.

Definition winRarTempRegex_test : jsstring -> bool := testAnywhere winRarTemp_at.

(** [/[^\x00-\x80]+/]: one or more code units outside [\x00-\x80]. *)
Definition nonASCII_at (s : jsstring) : bool :=
  match s with
  | c :: _ => negb ((0 <=? c) && (c <=? 128))%N
  | [] => false
  end.

Definition nonASCIIRegex_test : jsstring -> bool := testAnywhere nonASCII_at.

(** The class [[a-z0-9._-]] under the [i] flag. *)
Definition profileChar (c : N) : bool :=
  (isLower c || isUpper c || isDigit c || (c =? 46) || (c =? 95) || (c =? 45))%N.

(** [.replace(/[^a-z0-9._-]/gi, '')] *)
Definition stripProfile (s : jsstring) : jsstring := filter (fun c => Is_true (profileChar c)) s.

(** [/^\d+$/] *)
Definition digitsRegex_test (s : jsstring) : bool :=
  match s with
  | [] => false
  | _ => forallb isDigit s
  end.

(** [\d{1,3}], greedy; what follows it is never a digit in the pattern. *)
Fixpoint skipDigits (n : nat) (s : jsstring) : jsstring :=
  match n, s with
  | S n', c :: s' => if isDigit c then skipDigits n' s' else s
  | _, _ => s
  end.

Definition octet (s : jsstring) : option jsstring :=
  match s with
  | c :: s' => if isDigit c then Some (skipDigits 2 s') else None
  | [] => None
  end.

Definition dot (s : jsstring) : option jsstring :=
  match s with
  | c :: s' => if (c =? 46)%N then Some s' else None
  | [] => None
  end.

(** [/^\d{1,3}\.\d{1,3}\.\d{1,3}\.\d{1,3}$/] *)
Definition ipv4Regex_test (s : jsstring) : bool :=
  let r : option jsstring :=
    s1 ← octet s; s2 ← dot s1; s3 ← octet s2; s4 ← dot s3;
    s5 ← octet s4; s6 ← dot s5; octet s6 in
  match r with
  | Some [] => true
  | _ => false
  end.

(** [.replace(/_/g, '-')] *)
Definition underscoresToHyphens (s : jsstring) : jsstring :=
  map (fun c => if (c =? 95)%N then 45%N else c) s.

End Regex.
Export Regex.

(** ** The environment module (txEnv, txDevEnv, convars) *)

(** Result of [parseTxDevEnv] of [shared/txDevEnv]. *)
Record TxDevEnvType : Type := {
  ENABLED : bool;
  SRC_PATH : value;
  VITE_URL : value;
  VERBOSE : bool;
}.

(** What the module reads from the host at load time. *)
Record host : Type := {
  os_type : jsstring;                       (* os.type() *)
  convarStore : gmap jsstring jsstring;     (* GetConvar *)
  resourceVersion : value;                  (* GetResourceMetadata(resourceName, 'version', 0) *)
  resourcePath : value;                     (* GetResourcePath(resourceName) *)
  env_TXADMIN_ENABLE : option jsstring;     (* process.env?.TXADMIN_ENABLE *)
  txDevEnvSrc : TxDevEnvType;               (* parseTxDevEnv() *)
}.

Record txEnvT : Type := {
  osType : jsstring;
  isWindows : bool;
  fxServerVersion : Z;
  txAdminVersion : jsstring;
  txAdminResourcePath : jsstring;
  fxServerPath : jsstring;
  dataPath : jsstring;
  profile : jsstring;
  profilePath : jsstring;
}.

Record convarsT : Type := {
  isPterodactyl : bool;
  isZapHosting : bool;
  forceInterface : value;
  forceFXServerPort : value;
  txAdminPort : value;
  loginPageLogo : value;
  defaultMasterAccount : option (jsstring * jsstring);   (* false | { name, password_hash } *)
  deployerDefaults : value;
}.

Record snapshot : Type := {
  txDevEnv : TxDevEnvType;
  txEnv : txEnvT;
  convars : convarsT;
}.

Definition minFXServerVersion : Z := 5894.

(** The integer a string of digits denotes. *)
Definition decimalValue (s : jsstring) : Z :=
  fold_left (fun acc c => 10 * acc + (Z.of_N c - 48)) s 0.

(** The Number value of a non-negative integer: the nearest double, ties
    to the even significand of 53 bits, and infinity once that reaches
    2^1024. *)
Definition roundToDouble (n : Z) : number :=
  let e := Z.log2 n - 52 in
  if e <=? 0 then Finite (inject_Z n)
  else
    let q := Z.shiftr n e in
    let r := Z.land n (Z.ones e) in
    let half := Z.shiftl 1 (e - 1) in
    let m := if (half <? r) || ((r =? half) && Z.odd q) then q + 1 else q in
    if 2 ^ 1024 <=? Z.shiftl m e then PosInfinity
    else Finite (inject_Z (Z.shiftl m e)).

(** [parseInt] of a string of digits, in base ten: the Number value of the
    integer it denotes (correctly rounded, as V8 does it). *)
Definition parseInt (s : jsstring) : number := roundToDouble (decimalValue s).

Section Env.
Context `{R : Runtime}.

(** *** Helpers *)

Definition cleanPath (x : jsstring) : jsstring := slash (path_normalize x).

Definition GetConvar (h : host) (convarName def : jsstring) : jsstring :=
  default def (convarStore h !! convarName).

Definition getConvarString (h : host) (convarName : jsstring) : value :=
  let cvar := trim (GetConvar h convarName (js "false")) in
  if strEq cvar (js "false") then VBool false else VStr cvar.

(** *** OS type *)
Definition getOsType (h : host) : Proc (jsstring * bool) :=
  let osTypeVar := os_type h in
  if strEq osTypeVar (js "Windows_NT") then mret (js "windows", true)
  else if strEq osTypeVar (js "Linux") then mret (js "linux", false)
  else
    console_error (js "OS type not supported: " ++ osTypeVar);;
    process_exit 100.

(** *** FXServer version *)
Definition getFxServerVersion (h : host) : Proc Z :=
  let fxsVerParsed := parseFxserverVersion (getConvarString h (js "version")) in
  let fxServerVersion :=
    match fxsVerParsed with FxsValid build _ => build | FxsInvalid => 99999 end in
  match fxsVerParsed with
  | FxsInvalid =>
      console_error (js "It looks like you are running a custom build of fxserver.");;
      console_error (js "And because of that, there is no guarantee that txAdmin will work properly.");;
      mret fxServerVersion
  | FxsValid build branch =>
      if build <? minFXServerVersion then
        console_error (js "This version of FXServer is too outdated and NOT compatible with txAdmin, please update to artifact/build "
                         ++ ofZ minFXServerVersion ++ js " or newer!");;
        process_exit 102
      else if negb (strEq branch (js "master")) then
        console_warn (js "You are running a custom branch of FXServer: " ++ branch);;
        mret fxServerVersion
      else mret fxServerVersion
  end.

(** *** txAdmin version and resource path *)
Definition getTxAdminVersion (h : host) : Proc jsstring :=
  match resourceVersion h with
  | VStr txAdminVersion =>
      if strEq txAdminVersion (js "null") then
        console_error (js "txAdmin version not set or in the wrong format");;
        process_exit 103
      else mret txAdminVersion
  | _ =>
      console_error (js "txAdmin version not set or in the wrong format");;
      process_exit 103
  end.

Definition getTxAdminResourcePath (h : host) : Proc jsstring :=
  match resourcePath h with
  | VStr txAdminResourcePathConvar =>
      if strEq txAdminResourcePathConvar (js "null") then
        console_error (js "Could not resolve txAdmin resource path");;
        process_exit 104
      else mret (cleanPath txAdminResourcePathConvar)
  | _ =>
      console_error (js "Could not resolve txAdmin resource path");;
      process_exit 104
  end.

(** *** Citizen root, WinRAR guard, data path *)
Definition getFxServerPath (h : host) : Proc jsstring :=
  match getConvarString h (js "citizen_root") with
  | VStr (c :: rest) => mret (cleanPath (c :: rest))
  | _ =>
      console_error (js "citizen_root convar not set");;
      process_exit 105
  end.

Definition winRarGuard (isWindows : bool) (fxServerPath : jsstring) : Proc unit :=
  if isWindows && winRarTempRegex_test fxServerPath then
    console_error (js "It looks like you ran FXServer inside WinRAR without extracting it first.");;
    console_error (js "Please extract the server files to a proper folder before running it.");;
    process_exit 112
  else mret tt.

Definition getDataPath (h : host) (isWindows : bool) (fxServerPath : jsstring) : jsstring :=
  match getConvarString h (js "txDataPath") with
  | VStr (c :: rest) => cleanPath (c :: rest)
  | _ =>
      let dataPathSuffix := if isWindows then js ".." else js "../../../" in
      cleanPath (path_join [fxServerPath; dataPathSuffix; js "txData"])
  end.

(** *** Non-ASCII check of the paths *)

(** The sample characters of the error message, as code units. *)
Definition nonASCIIExamples : jsstring :=
  [231; 226; 253; 229; 44; 32; 961; 941; 952; 44; 32; 241; 228; 233; 44; 32; 275; 316; 230; 44; 32; 1075; 1083; 1078; 44; 32; 3648; 3595; 3636; 3619; 3660; 44; 32; 35686; 21578; 46]%N.

Definition checkNonASCII (fxServerVersion : Z) (fxServerPath dataPath : jsstring) : Proc unit :=
  if nonASCIIRegex_test fxServerPath || nonASCIIRegex_test dataPath then
    console_error (js "Due to environmental restrictions, your paths CANNOT contain non-ASCII characters.");;
    console_error (js "Example of non-ASCII characters: " ++ nonASCIIExamples);;
    console_error (js "Please make sure FXServer is not in a path contaning those characters.");;
    console_error (js "If on windows, we suggest you moving the artifact to " ++ [34%N]
                     ++ js "C:/fivemserver/" ++ ofZ fxServerVersion ++ js "/" ++ [34%N] ++ js ".");;
    console_log (js "FXServer path: " ++ fxServerPath);;
    console_log (js "txData path: " ++ dataPath);;
    process_exit 107
  else mret tt.

(** *** Profile *)
Definition getProfile (h : host) : Proc jsstring :=
  let profile := trim (stripProfile (GetConvar h (js "serverProfile") (js "default"))) in
  if endsWith profile (js ".base") then
    console_error (js "Looks like the folder named '" ++ profile
                     ++ js "' is actually a deployed base instead of a profile.");;
    process_exit 113
  else if (length profile =? 0)%nat then
    console_error (js "Invalid server profile name. Are you using Google Translator on the instructions page? Make sure there are no additional spaces in your command.");;
    process_exit 114
  else mret profile.

(** *** txAdmin Dev Env *)
Definition getTxDevEnv (h : host) : Proc TxDevEnvType :=
  let txDevEnvSrc := txDevEnvSrc h in
  if ENABLED txDevEnvSrc then
    console_log (js "Starting txAdmin in DEV mode.");;
    if negb (truthy (SRC_PATH txDevEnvSrc)) || negb (truthy (VITE_URL txDevEnvSrc)) then
      console_error (js "Missing TXDEV_VITE_URL and/or TXDEV_SRC_PATH env variables.");;
      process_exit 108
    else mret txDevEnvSrc
  else
    mret {| ENABLED := ENABLED txDevEnvSrc;
            SRC_PATH := VUndefined;
            VITE_URL := VUndefined;
            VERBOSE := VERBOSE txDevEnvSrc |}.

(** *** Host type check *)

(** The [customer] block of the ZAP configuration. *)
Definition readCustomer (customer : value) : Except (option (jsstring * jsstring)) :=
  if truthy customer then
    name ← getProp customer (js "name");
    match name with
    | VStr name =>
        if (length name <? 3)%nat then raise (js "customer.name too short.")
        else
          password_hash ← getProp customer (js "password_hash");
          match password_hash with
          | VStr password_hash =>
              if negb (startsWith password_hash (js "$2y$")) then
                raise (js "customer.password_hash is not a bcrypt hash.")
              else mret (Some (name, password_hash))
          | _ => raise (js "customer.password_hash is not a string.")
          end
    | _ => raise (js "customer.name is not a string.")
    end
  else mret None.

(** The assignments of the [try] block, from the parsed file;
    [isZapHosting] and [isPterodactyl] are decided before it. *)
Definition readZapConfig (zapCfgData : value) (isPterodactyl isZapHosting : bool)
    : Except convarsT :=
  forceInterface ← getProp zapCfgData (js "interface");
  forceFXServerPort ← getProp zapCfgData (js "fxServerPort");
  txAdminPort ← getProp zapCfgData (js "txAdminPort");
  loginPageLogo ← getProp zapCfgData (js "loginPageLogo");
  defaults ← getProp zapCfgData (js "defaults");
  license ← getProp defaults (js "license");
  maxClients ← getProp defaults (js "maxClients");
  mysqlHost ← getProp defaults (js "mysqlHost");
  mysqlPort ← getProp defaults (js "mysqlPort");
  mysqlUser ← getProp defaults (js "mysqlUser");
  mysqlPassword ← getProp defaults (js "mysqlPassword");
  mysqlDatabase ← getProp defaults (js "mysqlDatabase");
  let deployerDefaults :=
    VObj [(js "license", license); (js "maxClients", maxClients);
          (js "mysqlHost", mysqlHost); (js "mysqlPort", mysqlPort);
          (js "mysqlUser", mysqlUser); (js "mysqlPassword", mysqlPassword);
          (js "mysqlDatabase", mysqlDatabase)] in
  customer ← getProp zapCfgData (js "customer");
  defaultMasterAccount ← readCustomer customer;
  mret {| isPterodactyl := isPterodactyl;
          isZapHosting := isZapHosting;
          forceInterface := forceInterface;
          forceFXServerPort := forceFXServerPort;
          txAdminPort := txAdminPort;
          loginPageLogo := loginPageLogo;
          defaultMasterAccount := defaultMasterAccount;
          deployerDefaults := deployerDefaults |}.

(** The body of the [try] block. *)
Definition loadZapConfig (zapCfgFile : jsstring) (_txDevEnv : TxDevEnvType)
    (isPterodactyl isZapHosting : bool) : Proc convarsT :=
  text ← readFileSync zapCfgFile;
  zapCfgData ← liftE (JSON_parse text);
  cv ← liftE (readZapConfig zapCfgData isPterodactyl isZapHosting);
  (if negb (ENABLED _txDevEnv) then unlinkSync zapCfgFile else mret tt);;
  mret cv.

(** The [else] branch: no ZAP configuration file. *)
Definition loadConvarConfig (h : host) (isPterodactyl : bool) : Proc convarsT :=
  let txAdminPortConvar := trim (GetConvar h (js "txAdminPort") (js "40120")) in
  if negb (digitsRegex_test txAdminPortConvar) then
    console_error (js "txAdminPort is not valid.");;
    process_exit 110
  else
    let txAdminPort := parseInt txAdminPortConvar in
    let txAdminInterfaceConvar := getConvarString h (js "txAdminInterface") in
    forceInterface ←
      match txAdminInterfaceConvar with
      | VStr (c :: rest) =>
          if negb (ipv4Regex_test (c :: rest)) then
            console_error (js "txAdminInterface is not valid.");;
            process_exit 111
          else mret (VStr (c :: rest))
      | _ => mret (VBool false)
      end;
    mret {| isPterodactyl := isPterodactyl;
            isZapHosting := false;
            forceInterface := forceInterface;
            forceFXServerPort := VBool false;
            txAdminPort := VNum txAdminPort;
            loginPageLogo := VBool false;
            defaultMasterAccount := None;
            deployerDefaults := VBool false |}.

Definition zapCfgFileOf (dataPath : jsstring) : jsstring :=
  path_join [dataPath; js "txAdminZapConfig.json"].

Definition hostTypeCheck (h : host) (isWindows : bool) (dataPath : jsstring)
    (_txDevEnv : TxDevEnvType) : Proc convarsT :=
  let zapCfgFile := zapCfgFileOf dataPath in
  let isPterodactyl :=
    negb isWindows && bool_decide (env_TXADMIN_ENABLE h = Some (js "1")) in
  found ← existsSync zapCfgFile;
  if (found : bool) then
    let isZapHosting := negb isPterodactyl in
    console_log (js "Loading ZAP-Hosting configuration file.");;
    tryCatch (loadZapConfig zapCfgFile _txDevEnv isPterodactyl isZapHosting)
      (fun message =>
         console_error (js "Failed to load with ZAP-Hosting configuration error: " ++ message);;
         process_exit 109)
  else loadConvarConfig h isPterodactyl.

(** Modelled from the spec: [addLocalIpAddress] of
    [lib/host/isIpAddressLocal] and [setConsoleEnvData] of [lib/console] are
    not in the sources; the forced interface is registered with the local
    address list and the console is told the resolved facts, so both only
    record their arguments. *)
Definition addLocalIpAddress (ip : value) : Proc unit :=
  fun w => (Done tt, World (files w) (console w) (localIps w ++ [ip]) (consoleEnvData w)
                       (locked w)).

Definition setConsoleEnvData (version : value) (resPath : jsstring) (dev verbose : bool) : Proc unit :=
  fun w => (Done tt, World (files w) (console w) (localIps w)
                       (Some (version, resPath, dev, verbose)) (locked w)).

Definition boolObj (k : string) (b : bool) : jsstring * value := (js k, VBool b).

(** *** The module body, in source order *)

(** Everything up to and including the data path. *)
Record baseT : Type := {
  b_osType : jsstring;
  b_isWindows : bool;
  b_fxServerVersion : Z;
  b_txAdminVersion : jsstring;
  b_txAdminResourcePath : jsstring;
  b_fxServerPath : jsstring;
  b_dataPath : jsstring;
}.

Definition resolveBase (h : host) : Proc baseT :=
  '(osType, isWindows) ← getOsType h;
  fxServerVersion ← getFxServerVersion h;
  txAdminVersion ← getTxAdminVersion h;
  txAdminResourcePath ← getTxAdminResourcePath h;
  fxServerPath ← getFxServerPath h;
  winRarGuard isWindows fxServerPath;;
  let dataPath := getDataPath h isWindows fxServerPath in
  mret {| b_osType := osType; b_isWindows := isWindows;
          b_fxServerVersion := fxServerVersion;
          b_txAdminVersion := txAdminVersion;
          b_txAdminResourcePath := txAdminResourcePath;
          b_fxServerPath := fxServerPath; b_dataPath := dataPath |}.

(** The end of the module: local address, verbose dump, console data,
    exports. *)
Definition publish (b : baseT) (profile : jsstring) (_txDevEnv : TxDevEnvType)
    (cv : convarsT) : Proc snapshot :=
  let profilePath := cleanPath (path_join [b_dataPath b; profile]) in
  (if truthy (forceInterface cv) then addLocalIpAddress (forceInterface cv) else mret tt);;
  (if VERBOSE _txDevEnv then
     emit (LogDir (VObj [boolObj "isPterodactyl" (isPterodactyl cv);
                         boolObj "isZapHosting" (isZapHosting cv);
                         (js "forceInterface", forceInterface cv);
                         (js "forceFXServerPort", forceFXServerPort cv);
                         (js "txAdminPort", txAdminPort cv);
                         (js "loginPageLogo", loginPageLogo cv);
                         (js "deployerDefaults", deployerDefaults cv)]))
   else mret tt);;
  setConsoleEnvData (VStr (b_txAdminVersion b)) (b_txAdminResourcePath b)
    (ENABLED _txDevEnv) (VERBOSE _txDevEnv);;
  mret {| txDevEnv := _txDevEnv;
          txEnv := {| osType := b_osType b; isWindows := b_isWindows b;
                      fxServerVersion := b_fxServerVersion b;
                      txAdminVersion := b_txAdminVersion b;
                      txAdminResourcePath := b_txAdminResourcePath b;
                      fxServerPath := b_fxServerPath b;
                      dataPath := b_dataPath b;
                      profile := profile; profilePath := profilePath |};
          convars := cv |}.

Definition globalData (h : host) : Proc snapshot :=
  b ← resolveBase h;
  checkNonASCII (b_fxServerVersion b) (b_fxServerPath b) (b_dataPath b);;
  profile ← getProfile h;
  _txDevEnv ← getTxDevEnv h;
  cv ← hostTypeCheck h (b_isWindows b) (b_dataPath b) _txDevEnv;
  publish b profile _txDevEnv cv.

End Env.

(** ** node-polyglot, as far as the Translator relies on it

    An instance keeps the flattened phrases and the [onMissingKey] callback
    it was built with ([allowMissing] is false).  [t] takes the phrase of
    the key when it is a string, else the default phrase [options._] when
    that is a string, else the result of [onMissingKey]; a phrase goes
    through interpolation. *)
Module Polyglot.
Section Polyglot.
Context `{R : Runtime}.

Record instance : Type := {
  phrases : gmap jsstring value;
  onMissingKey : jsstring -> Proc jsstring;
}.

Definition new (phrasesOpt : value) (onMissingKeyOpt : jsstring -> Proc jsstring) : instance :=
  {| phrases := polyglot_extend phrasesOpt; onMissingKey := onMissingKeyOpt |}.

Definition defaultPhrase (options : value) : value :=
  match options with
  | VObj fields => lookupField (js "_") fields
  | _ => VUndefined
  end.

Definition t (p : instance) (key : jsstring) (options : value) : Proc jsstring :=
  match phrases p !! key with
  | Some (VStr phrase) => liftE (polyglot_transformPhrase phrase options)
  | _ =>
      match defaultPhrase options with
      | VStr phrase => liftE (polyglot_transformPhrase phrase options)
      | _ => onMissingKey p key
      end
  end.

End Polyglot.
End Polyglot.

(** ** The Translator class *)

Module Translator.
Section Translator.
Context `{R : Runtime}.

Record Translator : Type := {
  canonical : jsstring;
  customLocalePath : jsstring;
  polyglot : option Polyglot.instance;      (* #polyglot *)
}.

(** Modelled from the spec: [fatalError.Translator] of [lib/fatalError],
    which is not in the sources; a catalog-load failure during the very
    first configuration is fatal for the whole process. *)
Definition fatalError_Translator {A} (code : Z) (msg : jsstring) (error : jsstring) : Proc A :=
  fun w => (Fatal code (msg ++ js ": " ++ error), w).

(** Loads a language file or throws. *)
Definition getLanguagePhrases (this : Translator) (lang : jsstring) : Proc value :=
  if isObjectType (localeMap lang) then
    mret (localeMap lang)
  else if strEq lang (js "custom") then
    tryCatch
      (text ← readFileSync (customLocalePath this);
       liftE (JSON_parse text))
      (fun message =>
         throw (js "Failed to load '" ++ customLocalePath this ++ js "'. ("
                  ++ message ++ js ")"))
  else
    throw (js "Language '" ++ lang ++ js "' not found.").

(** The [onMissingKey] option given to Polyglot. *)
Definition missingKeyHandler (key : jsstring) : Proc jsstring :=
  emit (LogError [js "Missing key '" ++ key ++ js "' from translation file."; js "Translator"]);;
  mret key.

(** The first [try] of [setupTranslator]. *)
Definition canonicalOf (language : jsstring) : jsstring :=
  match getCanonicalLocale (underscoresToHyphens language) with
  | Some tag => tag
  | None => js "en-GB"
  end.

(** [setupTranslator(isFirstTime)]; [language] is [txConfig.general.language]. *)
Definition setupTranslator (language : jsstring) (isFirstTime : bool)
    (this : Translator) : Proc Translator :=
  let this := {| canonical := canonicalOf language;
                 customLocalePath := customLocalePath this;
                 polyglot := polyglot this |} in
  tryCatch
    (phrases ← getLanguagePhrases this language;
     mret {| canonical := canonical this;
             customLocalePath := customLocalePath this;
             polyglot := Some (Polyglot.new phrases missingKeyHandler) |})
    (fun error =>
       if isFirstTime then
         fatalError_Translator 0 (js "Failed to load initial language file") error
       else
         emit (LogDirError error);;
         mret this).

(** [new Translator()]. *)
Definition constructor (dataPath language : jsstring) : Proc Translator :=
  setupTranslator language true
    {| canonical := js "en-GB";
       customLocalePath := path_join [dataPath; js "locale.json"];
       polyglot := None |}.

(** [refreshConfig()]; [resetConvars] is [txCore.fxRunner.resetConvars]. *)
Definition refreshConfig (language : jsstring) (resetConvars : Proc unit)
    (this : Translator) : Proc Translator :=
  this ← setupTranslator language false this;
  tryCatch resetConvars (fun error => emit (LogVerboseDirError error));;
  mret this.

(** [t(key, options = {})] *)
Definition t (this : Translator) (key : jsstring) (options : value) : Proc jsstring :=
  let options := match options with VUndefined => VObj [] | _ => options end in
  match polyglot this with
  | None => throw (js "polyglot not yet loaded")
  | Some polyglot =>
      tryCatch (Polyglot.t polyglot key options)
        (fun _ =>
           console_error (js "Error performing a translation with key '" ++ key ++ js "'");;
           mret key)
  end.

(** A history of configuration calls applied to a Translator, and whether
    one of them loaded its catalog. *)
Fixpoint runSetups (calls : list (jsstring * bool)) (this : Translator) : Proc Translator :=
  match calls with
  | [] => mret this
  | (language, isFirstTime) :: calls' =>
      this' ← setupTranslator language isFirstTime this;
      runSetups calls' this'
  end.

End Translator.
End Translator.

(** ** A concrete runtime, to run the module on examples

    POSIX-style joining without normalisation, a JSON parser that knows the
    documents of a given list (by their serialisation), the version line
    [FXServer-<branch> SERVER v1.0.0.<build> <platform>], locale tags taken
    as they are when their first subtag is well formed, one built-in
    catalog, and phrases without interpolation. *)
Module Demo.

Definition quoted (s : jsstring) : jsstring := [34%N] ++ s ++ [34%N].

Definition joinWith (sep : jsstring) (parts : list jsstring) : jsstring :=
  match parts with
  | [] => []
  | p :: ps => fold_left (fun acc x => acc ++ sep ++ x) ps p
  end.

(** Serialisation of a document (strings without escapes, integers). *)
Fixpoint stringify (v : value) : jsstring :=
  match v with
  | VUndefined => js "undefined"
  | VNull => js "null"
  | VBool true => js "true"
  | VBool false => js "false"
  | VNum (Finite q) => ofZ (Qnum q)
  | VNum _ => js "null"
  | VStr s => quoted s
  | VArr items => js "[" ++ joinWith (js ",") (map stringify items) ++ js "]"
  | VObj fields =>
      js "{" ++
      joinWith (js ",")
        ((fix go (l : list (jsstring * value)) : list jsstring :=
            match l with
            | [] => []
            | (k, x) :: l' => (quoted k ++ js ":" ++ stringify x) :: go l'
            end) fields)
      ++ js "}"
  end.

Definition parseKnown (known : list value) (text : jsstring) : jsstring + value :=
  match List.find (fun v => strEq (stringify v) text) known with
  | Some v => inr v
  | None => inl (js "Unexpected token in JSON")
  end.

Definition backslashesToSlashes (s : jsstring) : jsstring :=
  map (fun c => if (c =? 92)%N then 47%N else c) s.

Fixpoint splitAt (sep : N) (s : jsstring) : jsstring * option jsstring :=
  match s with
  | [] => ([], None)
  | c :: s' =>
      if (c =? sep)%N then ([], Some s')
      else let '(a, b) := splitAt sep s' in (c :: a, b)
  end.

Definition parseVersionLine (v : value) : fxsVersion :=
  match v with
  | VStr s =>
      if startsWith s (js "FXServer-") then
        match splitAt 32 (drop 9 s) with
        | (branch, Some rest) =>
            match splitAt 32 rest with
            | (_, Some ver) =>
                if startsWith ver (js "v1.0.0.") then
                  match splitAt 32 (drop 7 ver) with
                  | (build, Some _) =>
                      if digitsRegex_test build then FxsValid (decimalValue build) branch
                      else FxsInvalid
                  | _ => FxsInvalid
                  end
                else FxsInvalid
            | _ => FxsInvalid
            end
        | _ => FxsInvalid
        end
      else FxsInvalid
  | _ => FxsInvalid
  end.

Definition isAlpha (c : N) : bool := isLower c || isUpper c.

Definition localeTag (tag : jsstring) : option jsstring :=
  let '(lang, _) := splitAt 45 tag in
  let n := length lang in
  if forallb isAlpha lang && (((2 <=? n) && (n <=? 3)) || ((5 <=? n) && (n <=? 8)))%nat
  then Some tag else None.

Definition english : value :=
  VObj [(js "restarter", VObj [(js "server_unhealthy_kick_reason", VStr (js "the server needs to be restarted"))]);
        (js "kick_messages", VObj [(js "everyone", VStr (js "All players kicked"))])].

Definition locales (lang : jsstring) : value :=
  if strEq lang (js "en") then english else VUndefined.

(** Nested objects become dotted keys; other entries are kept as they are. *)
Fixpoint flatten (pre : jsstring) (v : value) (acc : gmap jsstring value) : gmap jsstring value :=
  match v with
  | VObj fields =>
      (fix go (l : list (jsstring * value)) (acc : gmap jsstring value) : gmap jsstring value :=
         match l with
         | [] => acc
         | (k, x) :: l' =>
             let key := match pre with [] => k | _ => pre ++ js "." ++ k end in
             go l' (match x with
                    | VObj _ => flatten key x acc
                    | _ => <[key := x]> acc
                    end)
         end) fields acc
  | _ => acc
  end.

Definition runtime (known : list value) : Runtime := {|
  path_normalize := fun x => x;
  path_join := joinWith (js "/");
  slash := backslashesToSlashes;
  JSON_parse := parseKnown known;
  parseFxserverVersion := parseVersionLine;
  getCanonicalLocale := localeTag;
  localeMap := locales;
  polyglot_extend := fun v => flatten [] v ∅;
  polyglot_transformPhrase := fun phrase _ => inr phrase;
|}.

Definition emptyWorld : world :=
  {| files := ∅; console := []; localIps := []; consoleEnvData := None; locked := ∅ |}.

Definition worldWith (fs : list (jsstring * node)) : world :=
  {| files := list_to_map fs; console := []; localIps := []; consoleEnvData := None;
     locked := ∅ |}.

Definition devOff : TxDevEnvType :=
  {| ENABLED := false; SRC_PATH := VUndefined; VITE_URL := VUndefined; VERBOSE := false |}.

Definition devOn : TxDevEnvType :=
  {| ENABLED := true; SRC_PATH := VStr (js "/home/dev/txAdmin");
     VITE_URL := VStr (js "http://localhost:40122"); VERBOSE := false |}.

(** A Linux host with the given convars. *)
Definition linuxHost (cv : list (string * jsstring)) (enable : option jsstring)
    (dev : TxDevEnvType) : host :=
  {| os_type := js "Linux";
     convarStore := list_to_map (map (fun '(k, v) => (js k, v)) cv);
     resourceVersion := VStr (js "7.3.2");
     resourcePath := VStr (js "/opt/fx/alpine/opt/cfx-server/citizen/system_resources/monitor");
     env_TXADMIN_ENABLE := enable;
     txDevEnvSrc := dev |}.

Definition stdConvars : list (string * jsstring) :=
  [("version", js "FXServer-master SERVER v1.0.0.7290 linux");
   ("citizen_root", js "/opt/fx/alpine/opt/cfx-server/citizen/");
   ("txDataPath", js "/opt/fx/txData")].

Definition zapDescriptor : value :=
  VObj [(js "interface", VStr (js "10.0.0.5"));
        (js "fxServerPort", VNum (Finite 30120));
        (js "txAdminPort", VNum (Finite 40120));
        (js "loginPageLogo", VBool false);
        (js "defaults", VObj [(js "license", VStr (js "cfxk_abc"));
                              (js "maxClients", VNum (Finite 48))]);
        (js "customer", VObj [(js "name", VStr (js "zapadmin"));
                              (js "password_hash", VStr (js "$2y$10$abcdefghijklmnopqrstuv"))])].

Definition zapFile : jsstring := js "/opt/fx/txData/txAdminZapConfig.json".

Definition zapWorld (d : value) : world := worldWith [(zapFile, File (stringify d))].

End Demo.

(** * Specification vocabulary *)

(** A world after more console lines. *)
Definition logged (w : world) (l : list logline) : world :=
  World (files w) (console w ++ l) (localIps w) (consoleEnvData w) (locked w).

(** A computation that only writes to the console. *)
Definition extendsLog (w w' : world) : Prop :=
  files w' = files w /\ localIps w' = localIps w /\
  consoleEnvData w' = consoleEnvData w /\
  exists l, console w' = console w ++ l.

Definition logOnly {A} (m : Proc A) : Prop := forall w, extendsLog w (m w).2.

Definition supportedOs (h : host) : Prop :=
  os_type h = js "Windows_NT" \/ os_type h = js "Linux".

(** A code unit outside [\x00-\x80], and one outside ASCII. *)
Definition above80 (c : N) : bool := (128 <? c)%N.
Definition aboveASCII (c : N) : bool := (127 <? c)%N.

Section Vocabulary.
Context `{R : Runtime}.

(** The module from the profile on, from the developer environment on, and
    from the host type check on. *)
Definition afterDevEnv (h : host) (b : baseT) (profile : jsstring)
    (dev : TxDevEnvType) : Proc snapshot :=
  cv ← hostTypeCheck h (b_isWindows b) (b_dataPath b) dev;
  publish b profile dev cv.

Definition afterProfile (h : host) (b : baseT) (profile : jsstring) : Proc snapshot :=
  dev ← getTxDevEnv h;
  afterDevEnv h b profile dev.

Definition afterPaths (h : host) (b : baseT) : Proc snapshot :=
  profile ← getProfile h;
  afterProfile h b profile.

(** The run of the module on [h] from [w] reaches the profile, the
    developer environment, the host type check. *)
Definition reachesProfile (h : host) (w : world) (b : baseT) (w2 : world) : Prop :=
  exists w1, resolveBase h w = (Done b, w1) /\
    checkNonASCII (b_fxServerVersion b) (b_fxServerPath b) (b_dataPath b) w1 = (Done tt, w2).

Definition reachesDevEnv (h : host) (w : world) (b : baseT) (profile : jsstring)
    (w3 : world) : Prop :=
  exists w2, reachesProfile h w b w2 /\ getProfile h w2 = (Done profile, w3).

Definition reachesHostCheck (h : host) (w : world) (b : baseT) (profile : jsstring)
    (dev : TxDevEnvType) (w4 : world) : Prop :=
  exists w3, reachesDevEnv h w b profile w3 /\ getTxDevEnv h w3 = (Done dev, w4).

(** The version the gate lets through. *)
Definition fxServerVersionOf (h : host) : Z :=
  match parseFxserverVersion (getConvarString h (js "version")) with
  | FxsValid build _ => build
  | FxsInvalid => 99999
  end.

(** The Pterodactyl marker: not Windows, and [TXADMIN_ENABLE] is ['1']. *)
Definition pteroMarker (h : host) (isWindows : bool) : bool :=
  negb isWindows && bool_decide (env_TXADMIN_ENABLE h = Some (js "1")).

(** A ZAP configuration file exists under the data path. *)
Definition zapFilePresent (w : world) (dataPath : jsstring) : bool :=
  bool_decide (is_Some (files w !! zapCfgFileOf dataPath)).

Definition zapLoadingLine : logline :=
  LogLog (js "Loading ZAP-Hosting configuration file.").

(** The world once the ZAP configuration file is removed. *)
Definition unlinked (w : world) (path : jsstring) : world :=
  World (delete path (files w)) (console w) (localIps w) (consoleEnvData w) (locked w).

(** A customer record as the specification wants it: the name is a string
    of length at least 3 and the password hash a string starting with
    [$2y$]. *)
Definition validAccount (customer : value) : option (jsstring * jsstring) :=
  match getProp customer (js "name"), getProp customer (js "password_hash") with
  | inr (VStr name), inr (VStr password_hash) =>
      if (3 <=? length name)%nat && startsWith password_hash (js "$2y$")
      then Some (name, password_hash) else None
  | _, _ => None
  end.

End Vocabulary.

(** Hosts and worlds of the examples. *)
Module Sample.
Import Demo.

(** The same descriptor with a password hash that is not bcrypt-shaped. *)
Definition plainHashDescriptor : value :=
  VObj [(js "interface", VStr (js "10.0.0.5"));
        (js "txAdminPort", VNum (Finite 40120));
        (js "defaults", VObj [(js "license", VStr (js "cfxk_abc"))]);
        (js "customer", VObj [(js "name", VStr (js "zapadmin"));
                              (js "password_hash", VStr (js "hunter2"))])].

Definition rt : Runtime := runtime [zapDescriptor; plainHashDescriptor].

Definition txData : jsstring := js "/opt/fx/txData".

(** What the first stages resolve on a host with [stdConvars]. *)
Definition base : baseT :=
  {| b_osType := js "linux"; b_isWindows := false; b_fxServerVersion := 7290;
     b_txAdminVersion := js "7.3.2";
     b_txAdminResourcePath :=
       js "/opt/fx/alpine/opt/cfx-server/citizen/system_resources/monitor";
     b_fxServerPath := js "/opt/fx/alpine/opt/cfx-server/citizen/";
     b_dataPath := txData |}.

(** A host with both the Pterodactyl marker and (in [zapWorld]) the ZAP
    configuration file. *)
Definition pteroHost : host := linuxHost stdConvars (Some (js "1")) devOff.
Definition plainHost : host := linuxHost stdConvars None devOff.

Definition withVersion (line : string) : host :=
  linuxHost [("version", js line);
             ("citizen_root", js "/opt/fx/alpine/opt/cfx-server/citizen/");
             ("txDataPath", js "/opt/fx/txData")] None devOff.

Definition oldHost : host := withVersion "FXServer-master SERVER v1.0.0.5000 linux".
Definition newHost : host := withVersion "FXServer-master SERVER v1.0.0.7290 linux".
Definition customHost : host := withVersion "my own build".

(** A host whose server path holds the code unit U+0080. *)
Definition u0080Path : jsstring := js "/opt/fx" ++ [128%N] ++ js "/citizen/".

Definition u0080Host : host :=
  linuxHost [("version", js "FXServer-master SERVER v1.0.0.7290 linux");
             ("citizen_root", u0080Path);
             ("txDataPath", js "/opt/fx/txData")] None devOff.

Definition withDev (dev : TxDevEnvType) : host := linuxHost stdConvars None dev.

Definition devOnlySrc : TxDevEnvType :=
  {| ENABLED := true; SRC_PATH := VStr (js "/home/dev/txAdmin");
     VITE_URL := VUndefined; VERBOSE := false |}.

(** Disabled, though both paths are given. *)
Definition devOffWithPaths : TxDevEnvType :=
  {| ENABLED := false; SRC_PATH := VStr (js "/home/dev/txAdmin");
     VITE_URL := VStr (js "http://localhost:40122"); VERBOSE := true |}.

Definition withProfile (name : jsstring) : host :=
  linuxHost (stdConvars ++ [("serverProfile", name)]) None devOff.

End Sample.

(** Vocabulary for the Translator. *)
Module TranslatorSpec.
Import Translator.
Section TranslatorSpec.
Context `{R : Runtime}.

(** The state a [new Translator()] starts from, before its first
    [setupTranslator]. *)
Definition initial (dataPath : jsstring) : Translator :=
  {| canonical := js "en-GB";
     customLocalePath := path_join [dataPath; js "locale.json"];
     polyglot := None |}.

(** The engine of [this] was built by [setupTranslator] from the phrase
    tree [tree]. *)
Definition loaded (this : Translator) (tree : value) : Prop :=
  polyglot this = Some (Polyglot.new tree missingKeyHandler).

(** Loading the catalog of [language] succeeds. *)
Definition loads (this : Translator) (language : jsstring) (w : world) : bool :=
  match (getLanguagePhrases this language w).1 with
  | Done _ => true
  | _ => false
  end.

(** Some call of the history loaded its catalog. *)
Fixpoint everLoaded (calls : list (jsstring * bool)) (this : Translator)
    (w : world) : bool :=
  match calls with
  | [] => false
  | (language, isFirstTime) :: calls' =>
      loads this language w ||
      match setupTranslator language isFirstTime this w with
      | (Done this', w') => everLoaded calls' this' w'
      | _ => false
      end
  end.

(** The console line of the missing-key policy. *)
Definition missingKeyLine (key : jsstring) : logline :=
  LogError [js "Missing key '" ++ key ++ js "' from translation file."; js "Translator"].

(** [setupTranslator] after a failed load: only the canonical locale is new. *)
Definition recanonized (language : jsstring) (this : Translator) : Translator :=
  {| canonical := canonicalOf language;
     customLocalePath := customLocalePath this;
     polyglot := polyglot this |}.

End TranslatorSpec.
End TranslatorSpec.

(** A Translator of the examples: English loaded, then a broken custom
    catalog on disk. *)
Module SampleTranslator.
Import Demo Translator.

Definition rt : Runtime := runtime [].

Definition localeFile : jsstring := js "/opt/fx/txData/locale.json".

Definition brokenWorld : world := worldWith [(localeFile, File (js "{ not json"))].

Definition loadError : jsstring :=
  js "Failed to load '" ++ localeFile ++ js "'. (Unexpected token in JSON)".

Definition english : Translator :=
  {| canonical := js "en";
     customLocalePath := localeFile;
     polyglot := Some (Polyglot.new (R := rt) Demo.english missingKeyHandler) |}.

End SampleTranslator.

(** * Vocabulary for the module as a whole *)

(** The exit codes of the environment module. *)
Definition moduleExitCodes : list Z :=
  [100; 102; 103; 104; 105; 107; 108; 109; 110; 111; 112; 113; 114].

Definition isErrorLine (l : logline) : bool :=
  match l with LogError _ => true | _ => false end.

(** Only the console differs, and an error line was added to it. *)
Definition diagnosed (w w' : world) : Prop :=
  files w' = files w /\ localIps w' = localIps w /\
  consoleEnvData w' = consoleEnvData w /\
  exists l, console w' = console w ++ l /\ existsb isErrorLine l = true.

(** A stage that only writes to the console and ends normally or by an
    exit whose code satisfies [P], after an error line. *)
Definition failsLoudly {A} (P : Z -> Prop) (m : Proc A) : Prop :=
  forall w, match m w with
            | (Done _, w') => extendsLog w w'
            | (Exit c, w') => P c /\ diagnosed w w'
            | _ => False
            end.

(** The same for what follows an error line. *)
Definition failsAfterError {A} (P : Z -> Prop) (m : Proc A) : Prop :=
  forall w, match m w with
            | (Done _, w') => extendsLog w w'
            | (Exit c, w') => P c /\ extendsLog w w'
            | _ => False
            end.


(** * Vocabulary for strings *)

(** Made of white space only. *)
Definition blank (s : jsstring) : Prop :=
  Forall (fun c => isWhiteSpace c = true) s.

(** Neither the first nor the last code unit is white space. *)
Definition edgesClean (s : jsstring) : Prop :=
  (forall c r, s = c :: r -> isWhiteSpace c = false) /\
  (forall c r, s = r ++ [c] -> isWhiteSpace c = false).

(** More hosts of the examples. *)
Module Sample2.
Import Demo.

Definition withOs (os : string) (cv : list (string * jsstring)) : host :=
  {| os_type := js os;
     convarStore := list_to_map (map (fun '(k, v) => (js k, v)) cv);
     resourceVersion := VStr (js "7.3.2");
     resourcePath := VStr (js "C:\fx\citizen\system_resources\monitor");
     env_TXADMIN_ENABLE := Some (js "1");
     txDevEnvSrc := devOff |}.

Definition macHost : host := withOs "Darwin" stdConvars.

Definition windowsConvars : list (string * jsstring) :=
  [("version", js "FXServer-feature/x SERVER v1.0.0.7290 win32");
   ("citizen_root", js "C:\fx\citizen\")].

Definition windowsHost : host := withOs "Windows_NT" windowsConvars.

Definition winRarHost : host :=
  withOs "Windows_NT"
    [("version", js "FXServer-master SERVER v1.0.0.7290 win32");
     ("citizen_root", js "C:\Users\me\AppData\Local\Temp\Rar$EXa12\fx\citizen\")].

Definition noRootHost : host :=
  linuxHost [("version", js "FXServer-master SERVER v1.0.0.7290 linux");
             ("citizen_root", js "   ")] None devOff.

Definition nullVersionHost : host :=
  {| os_type := js "Linux";
     convarStore := list_to_map (map (fun '(k, v) => (js k, v)) stdConvars);
     resourceVersion := VStr (js "null");
     resourcePath := VStr (js "/opt/fx/monitor");
     env_TXADMIN_ENABLE := None;
     txDevEnvSrc := devOff |}.

Definition noPathHost : host :=
  {| os_type := js "Linux";
     convarStore := list_to_map (map (fun '(k, v) => (js k, v)) stdConvars);
     resourceVersion := VStr (js "7.3.2");
     resourcePath := VNull;
     env_TXADMIN_ENABLE := None;
     txDevEnvSrc := devOff |}.

End Sample2.

(** * Vocabulary for the patterns *)

(** [t] is [lit] up to the case of ASCII letters ([lit] in lower case). *)
Definition sameLetters (t lit : jsstring) : Prop :=
  Forall2 (fun c l => ciChar l c = true) t lit.

(** A run of one or more slashes or backslashes. *)
Definition slashes (s : jsstring) : Prop :=
  s <> [] /\ Forall (fun c => isSlash c = true) s.

(** The path holds [Temp], slashes, [Rar$], whatever the case of the
    letters. *)
Definition insideWinRarTemp (path : jsstring) : Prop :=
  exists pre t seps r post,
    path = pre ++ t ++ seps ++ r ++ [36%N] ++ post /\
    sameLetters t (js "temp") /\ slashes seps /\ sameLetters r (js "rar").

(** One to three decimal digits. *)
Definition digits13 (s : jsstring) : Prop :=
  (1 <= length s <= 3)%nat /\ Forall (fun c => isDigit c = true) s.

Definition dottedQuad (s : jsstring) : Prop :=
  exists a b c d,
    s = a ++ [46%N] ++ b ++ [46%N] ++ c ++ [46%N] ++ d /\
    digits13 a /\ digits13 b /\ digits13 c /\ digits13 d.

(** Hosts without a ZAP configuration file. *)
Module Sample3.
Import Demo.

Definition withPort (port : string) : host :=
  linuxHost (stdConvars ++ [("txAdminPort", js port)]) None devOff.

Definition withInterface (ip : string) : host :=
  linuxHost (stdConvars ++ [("txAdminInterface", js ip)]) None devOff.

(** A descriptor without [defaults], and one without [customer]. *)
Definition noDefaultsDescriptor : value :=
  VObj [(js "interface", VStr (js "10.0.0.5")); (js "txAdminPort", VNum (Finite 40120))].

Definition noCustomerDescriptor : value :=
  VObj [(js "txAdminPort", VStr (js "forty"));
        (js "defaults", VObj [(js "license", VStr (js "cfxk_abc"))])].

Definition rt : Runtime := runtime [noDefaultsDescriptor; noCustomerDescriptor].

Definition verboseDev : TxDevEnvType :=
  {| ENABLED := false; SRC_PATH := VUndefined; VITE_URL := VUndefined; VERBOSE := true |}.

End Sample3.

(** What the convars give when there is no ZAP configuration file. *)
Definition standardConvars (p : bool) (port : jsstring) (forceInterface : value) : convarsT :=
  {| isPterodactyl := p; isZapHosting := false;
     forceInterface := forceInterface;
     forceFXServerPort := VBool false;
     txAdminPort := VNum (parseInt port);
     loginPageLogo := VBool false;
     defaultMasterAccount := None;
     deployerDefaults := VBool false |}.

(** The console line of a rejected ZAP configuration file. *)
Definition zapFailureLine (message : jsstring) : logline :=
  LogError [js "Failed to load with ZAP-Hosting configuration error: " ++ message].

(** The [deployerDefaults] built from a [defaults] block. *)
Definition deployerDefaultsOf (defaults : list (jsstring * value)) : value :=
  VObj [(js "license", lookupField (js "license") defaults);
        (js "maxClients", lookupField (js "maxClients") defaults);
        (js "mysqlHost", lookupField (js "mysqlHost") defaults);
        (js "mysqlPort", lookupField (js "mysqlPort") defaults);
        (js "mysqlUser", lookupField (js "mysqlUser") defaults);
        (js "mysqlPassword", lookupField (js "mysqlPassword") defaults);
        (js "mysqlDatabase", lookupField (js "mysqlDatabase") defaults)].

(** The line of the verbose dump: seven of the resolved values. *)
Definition verboseDump (cv : convarsT) : logline :=
  LogDir (VObj [(js "isPterodactyl", VBool (isPterodactyl cv));
                (js "isZapHosting", VBool (isZapHosting cv));
                (js "forceInterface", forceInterface cv);
                (js "forceFXServerPort", forceFXServerPort cv);
                (js "txAdminPort", txAdminPort cv);
                (js "loginPageLogo", loginPageLogo cv);
                (js "deployerDefaults", deployerDefaults cv)]).

(** More vocabulary for the Translator. *)
Module TranslatorSpec2.
Import Translator TranslatorSpec.
Section TranslatorSpec2.
Context `{R : Runtime}.

(** A history of [refreshConfig] calls, each with the language configured
    at that moment and the [resetConvars] of that moment. *)
Fixpoint runRefreshes (calls : list (jsstring * Proc unit)) (this : Translator)
    : Proc Translator :=
  match calls with
  | [] => mret this
  | (language, resetConvars) :: calls' =>
      this' ← refreshConfig language resetConvars this;
      runRefreshes calls' this'
  end.

(** The console line of the [catch] in [t]. *)
Definition translationErrorLine (key : jsstring) : logline :=
  LogError [js "Error performing a translation with key '" ++ key ++ js "'"].

(** The message [getLanguagePhrases] throws for a custom catalog. *)
Definition customLoadError (this : Translator) (reason : jsstring) : jsstring :=
  js "Failed to load '" ++ customLocalePath this ++ js "'. (" ++ reason ++ js ")".

(** The Translator a successful [setupTranslator] leaves. *)
Definition reloaded (language : jsstring) (this : Translator) (tree : value) : Translator :=
  {| canonical := canonicalOf language;
     customLocalePath := customLocalePath this;
     polyglot := Some (Polyglot.new tree missingKeyHandler) |}.

End TranslatorSpec2.
End TranslatorSpec2.

(** A runtime whose interpolation fails on one phrase, and a Translator
    with a custom catalog on disk. *)
Module SampleTranslator2.
Import Demo Translator.

Definition customCatalog : value :=
  VObj [(js "greeting", VStr (js "hello"));
        (js "broken", VStr (js "%{"))].

Definition rt : Runtime := {|
  path_normalize := fun x => x;
  path_join := joinWith (js "/");
  slash := backslashesToSlashes;
  JSON_parse := parseKnown [customCatalog];
  parseFxserverVersion := parseVersionLine;
  getCanonicalLocale := localeTag;
  localeMap := locales;
  polyglot_extend := fun v => flatten [] v ∅;
  polyglot_transformPhrase := fun phrase _ =>
    if strEq phrase (js "%{") then inl (js "unterminated token") else inr phrase;
|}.

Definition customWorld : world :=
  worldWith [(js "/opt/fx/txData/locale.json", File (stringify customCatalog))].

End SampleTranslator2.

(** * Vocabulary for the ZAP configuration file *)

(** The host type check gave the file up for the reason [e]. *)
Definition zapRejected (w : world) (e : jsstring) : outcome convarsT * world :=
  (Exit 109, logged w [zapLoadingLine; zapFailureLine e]).

(** The descriptor has a [defaults] block. *)
Definition hasDefaults (d : value) : Prop :=
  exists defaults,
    getProp d (js "defaults") = inr defaults /\
    defaults <> VUndefined /\ defaults <> VNull.

(** The file is kept, as the developer environment has it, or the process
    may remove it. *)
Definition zapFileSettled `{R : Runtime} (w : world) (dev : TxDevEnvType)
    (dataPath : jsstring) : Prop :=
  ENABLED dev = true \/ locked w !! zapCfgFileOf dataPath = None.

(** A descriptor whose customer record passes and that has nothing else,
    and the world of [zapWorld] when the file may not be removed. *)
Module Sample4.
Import Demo.

Definition customerOnlyDescriptor : value :=
  VObj [(js "customer", VObj [(js "name", VStr (js "zapadmin"));
                              (js "password_hash", VStr (js "$2y$10$abcdefghijklmnopqrstuv"))])].

Definition rt : Runtime := runtime [zapDescriptor; customerOnlyDescriptor].

Definition unlinkError : jsstring :=
  js "EPERM: operation not permitted, unlink '/opt/fx/txData/txAdminZapConfig.json'".

Definition lockedZapWorld (d : value) : world :=
  {| files := list_to_map [(zapFile, File (stringify d))];
     console := []; localIps := []; consoleEnvData := None;
     locked := {[ zapFile := unlinkError ]} |}.

End Sample4.

(** * Properties *)

(** ** Sanity checks of the string and pattern helpers *)

Example js_literal : js "$2y$" = [36; 50; 121; 36]%N.
Proof. reflexivity. Qed.

Example ofZ_minimum : ofZ minFXServerVersion = js "5894".
Proof. vm_compute. reflexivity. Qed.

Example trim_spaces : trim (js "  false ") = js "false".
Proof. reflexivity. Qed.

Example winRar_inside :
  winRarTempRegex_test (js "C:/Users/x/AppData/Local/Temp/Rar$EXa1/server") = true.
Proof. reflexivity. Qed.

Example winRar_outside : winRarTempRegex_test (js "C:/fivemserver/7290") = false.
Proof. reflexivity. Qed.

Example ipv4_accepts : ipv4Regex_test (js "192.168.0.1") = true.
Proof. reflexivity. Qed.

Example ipv4_rejects_four_digits : ipv4Regex_test (js "1924.168.0.1") = false.
Proof. reflexivity. Qed.

Example port_rejects_sign : digitsRegex_test (js "-40120") = false.
Proof. reflexivity. Qed.

Example parseInt_port : parseInt (js "40120") = Finite 40120.
Proof. reflexivity. Qed.

Example parseInt_rounds_above_2_53 :
  parseInt (js "9007199254740993") = Finite 9007199254740992.
Proof. reflexivity. Qed.

Example roundToDouble_tie_to_even :
  roundToDouble (2 ^ 53 + 3) = Finite (inject_Z (2 ^ 53 + 4)).
Proof. reflexivity. Qed.

Example roundToDouble_largest :
  roundToDouble (2 ^ 1024 - 2 ^ 970 - 1) = Finite (inject_Z (2 ^ 1024 - 2 ^ 971)) /\
  roundToDouble (2 ^ 1024 - 2 ^ 970) = PosInfinity.
Proof. split; vm_compute; reflexivity. Qed.

Example nonASCII_accepts_0x80 : nonASCIIRegex_test [47; 128]%N = false.
Proof. reflexivity. Qed.

Example nonASCII_rejects_0x81 : nonASCIIRegex_test [47; 129]%N = true.
Proof. reflexivity. Qed.

Example version_line :
  Demo.parseVersionLine (VStr (js "FXServer-master SERVER v1.0.0.7290 linux"))
  = FxsValid 7290 (js "master").
Proof. vm_compute. reflexivity. Qed.

(** ** The process monad *)

Section Monad.

Lemma bind_done {A B} (m : Proc A) (f : A -> Proc B) w a w' :
  m w = (Done a, w') -> (m ≫= f) w = f a w'.
Proof. intros E. unfold mbind, proc_bind. by rewrite E. Qed.

Lemma bind_exit {A B} (m : Proc A) (f : A -> Proc B) w c w' :
  m w = (Exit c, w') -> (m ≫= f) w = (Exit c, w').
Proof. intros E. unfold mbind, proc_bind. by rewrite E. Qed.

Lemma bind_throw {A B} (m : Proc A) (f : A -> Proc B) w e w' :
  m w = (Throw e, w') -> (m ≫= f) w = (Throw e, w').
Proof. intros E. unfold mbind, proc_bind. by rewrite E. Qed.

Lemma bind_inv_done {A B} (m : Proc A) (f : A -> Proc B) w b w2 :
  (m ≫= f) w = (Done b, w2) ->
  exists a w1, m w = (Done a, w1) /\ f a w1 = (Done b, w2).
Proof.
  unfold mbind, proc_bind. destruct (m w) as [[a| | |] w1]; try discriminate.
  intros E. by exists a, w1.
Qed.

Lemma extendsLog_refl w : extendsLog w w.
Proof. repeat split. exists []. by rewrite app_nil_r. Qed.

Lemma extendsLog_trans w1 w2 w3 :
  extendsLog w1 w2 -> extendsLog w2 w3 -> extendsLog w1 w3.
Proof.
  intros (F1 & I1 & C1 & l1 & L1) (F2 & I2 & C2 & l2 & L2).
  repeat split; try congruence.
  exists (l1 ++ l2). by rewrite L2, L1, app_assoc.
Qed.

Lemma logOnly_ret {A} (a : A) : logOnly (mret a).
Proof. intros w. apply extendsLog_refl. Qed.

Lemma logOnly_exit {A} c : logOnly (@process_exit A c).
Proof. intros w. apply extendsLog_refl. Qed.

Lemma logOnly_emit l : logOnly (emit l).
Proof. intros w. repeat split. by exists [l]. Qed.

Lemma logOnly_bind {A B} (m : Proc A) (f : A -> Proc B) :
  logOnly m -> (forall a, logOnly (f a)) -> logOnly (m ≫= f).
Proof.
  intros Hm Hf w. specialize (Hm w). unfold mbind, proc_bind.
  destruct (m w) as [[a| | |] w1]; simpl in *; try done.
  eapply extendsLog_trans; [exact Hm | apply Hf].
Qed.

Lemma logOnly_run {A} (m : Proc A) w r w' :
  logOnly m -> m w = (r, w') -> extendsLog w w'.
Proof. intros Hm E. specialize (Hm w). by rewrite E in Hm. Qed.

Lemma logged_logged w l1 l2 : logged (logged w l1) l2 = logged w (l1 ++ l2).
Proof. unfold logged. simpl. by rewrite app_assoc. Qed.

Lemma emit_logged l w : emit l w = (Done tt, logged w [l]).
Proof. reflexivity. Qed.

End Monad.

Ltac log_only :=
  repeat match goal with
    | |- logOnly (mbind _ _) => apply logOnly_bind; [| intros ?]
    | |- logOnly (mret _) => apply logOnly_ret
    | |- logOnly (process_exit _) => apply logOnly_exit
    | |- logOnly (emit _) => apply logOnly_emit
    | |- logOnly (console_error _) => apply logOnly_emit
    | |- logOnly (console_warn _) => apply logOnly_emit
    | |- logOnly (console_log _) => apply logOnly_emit
    | |- logOnly _ => case_match
    end.

Tactic Notation "inv_bind" hyp(H) ident(a) ident(w) ident(E) :=
  apply bind_inv_done in H; destruct H as (a & w & E & H).

(** ** The stages before the host type check only write to the console *)

Section Stages.
Context `{R : Runtime}.

Lemma getOsType_logOnly h : logOnly (getOsType h).
Proof. unfold getOsType. log_only. Qed.

Lemma getFxServerVersion_logOnly h : logOnly (getFxServerVersion h).
Proof. unfold getFxServerVersion. log_only. Qed.

Lemma getTxAdminVersion_logOnly h : logOnly (getTxAdminVersion h).
Proof. unfold getTxAdminVersion. log_only. Qed.

Lemma getTxAdminResourcePath_logOnly h : logOnly (getTxAdminResourcePath h).
Proof. unfold getTxAdminResourcePath. log_only. Qed.

Lemma getFxServerPath_logOnly h : logOnly (getFxServerPath h).
Proof. unfold getFxServerPath. log_only. Qed.

Lemma winRarGuard_logOnly b p : logOnly (winRarGuard b p).
Proof. unfold winRarGuard. log_only. Qed.

Lemma checkNonASCII_logOnly v p d : logOnly (checkNonASCII v p d).
Proof. unfold checkNonASCII. log_only. Qed.

Lemma getProfile_logOnly h : logOnly (getProfile h).
Proof. unfold getProfile. log_only. Qed.

Lemma getTxDevEnv_logOnly h : logOnly (getTxDevEnv h).
Proof. unfold getTxDevEnv. log_only. Qed.

Lemma resolveBase_logOnly h : logOnly (resolveBase h).
Proof.
  unfold resolveBase.
  apply logOnly_bind; [apply getOsType_logOnly | intros [osType isWindows]].
  apply logOnly_bind; [apply getFxServerVersion_logOnly | intros v].
  apply logOnly_bind; [apply getTxAdminVersion_logOnly | intros tv].
  apply logOnly_bind; [apply getTxAdminResourcePath_logOnly | intros rp].
  apply logOnly_bind; [apply getFxServerPath_logOnly | intros fp].
  apply logOnly_bind; [apply winRarGuard_logOnly | intros _].
  apply logOnly_ret.
Qed.

(** *** Reaching a stage *)

Lemma globalData_afterPaths h w b w2 :
  reachesProfile h w b w2 -> globalData h w = afterPaths h b w2.
Proof.
  intros (w1 & E1 & E2). unfold globalData.
  rewrite (bind_done _ _ _ _ _ E1). by rewrite (bind_done _ _ _ _ _ E2).
Qed.

Lemma globalData_afterProfile h w b profile w3 :
  reachesDevEnv h w b profile w3 -> globalData h w = afterProfile h b profile w3.
Proof.
  intros (w2 & Hr & E). rewrite (globalData_afterPaths _ _ _ _ Hr).
  unfold afterPaths. by rewrite (bind_done _ _ _ _ _ E).
Qed.

Lemma globalData_afterDevEnv h w b profile dev w4 :
  reachesHostCheck h w b profile dev w4 ->
  globalData h w = afterDevEnv h b profile dev w4.
Proof.
  intros (w3 & Hr & E). rewrite (globalData_afterProfile _ _ _ _ _ Hr).
  unfold afterProfile. by rewrite (bind_done _ _ _ _ _ E).
Qed.

Lemma reachesProfile_log h w b w2 : reachesProfile h w b w2 -> extendsLog w w2.
Proof.
  intros (w1 & E1 & E2).
  eapply extendsLog_trans.
  - eapply logOnly_run; [apply resolveBase_logOnly | exact E1].
  - eapply logOnly_run; [apply checkNonASCII_logOnly | exact E2].
Qed.

Lemma reachesDevEnv_log h w b p w3 : reachesDevEnv h w b p w3 -> extendsLog w w3.
Proof.
  intros (w2 & Hr & E).
  eapply extendsLog_trans; [eapply reachesProfile_log; exact Hr |].
  eapply logOnly_run; [apply getProfile_logOnly | exact E].
Qed.

Lemma reachesHostCheck_log h w b p d w4 :
  reachesHostCheck h w b p d w4 -> extendsLog w w4.
Proof.
  intros (w3 & Hr & E).
  eapply extendsLog_trans; [eapply reachesDevEnv_log; exact Hr |].
  eapply logOnly_run; [apply getTxDevEnv_logOnly | exact E].
Qed.

(** *** What a published snapshot holds *)

Lemma publish_done b profile dev cv w :
  exists w',
    publish b profile dev cv w =
      (Done {| txDevEnv := dev;
               txEnv := {| osType := b_osType b; isWindows := b_isWindows b;
                           fxServerVersion := b_fxServerVersion b;
                           txAdminVersion := b_txAdminVersion b;
                           txAdminResourcePath := b_txAdminResourcePath b;
                           fxServerPath := b_fxServerPath b;
                           dataPath := b_dataPath b;
                           profile := profile;
                           profilePath := cleanPath (path_join [b_dataPath b; profile]) |};
               convars := cv |}, w') /\
    files w' = files w.
Proof.
  unfold publish.
  destruct (truthy (forceInterface cv)), (VERBOSE dev); eexists; split; reflexivity.
Qed.

Lemma globalData_done_inv h w s w' :
  globalData h w = (Done s, w') ->
  exists b profile dev w4 cv w5,
    reachesHostCheck h w b profile dev w4 /\
    hostTypeCheck h (b_isWindows b) (b_dataPath b) dev w4 = (Done cv, w5) /\
    publish b profile dev cv w5 = (Done s, w').
Proof.
  intros E. unfold globalData in E.
  inv_bind E b w1 E1. inv_bind E u w2 E2. destruct u.
  inv_bind E profile w3 E3. inv_bind E dev w4 E4. inv_bind E cv w5 E5.
  exists b, profile, dev, w4, cv, w5. split; [| done].
  exists w3. split; [| done]. exists w2. split; [| done]. by exists w1.
Qed.

Lemma globalData_done_txEnv h w s w' :
  globalData h w = (Done s, w') ->
  exists b w1, resolveBase h w = (Done b, w1) /\
    fxServerVersion (txEnv s) = b_fxServerVersion b /\
    dataPath (txEnv s) = b_dataPath b /\
    fxServerPath (txEnv s) = b_fxServerPath b /\
    isWindows (txEnv s) = b_isWindows b.
Proof.
  intros E. apply globalData_done_inv in E.
  destruct E as (b & profile & dev & w4 & cv & w5 & Hr & _ & Hp).
  destruct Hr as (w3 & (w2 & (w1 & E1 & _) & _) & _).
  destruct (publish_done b profile dev cv w5) as (w6 & Hp' & _).
  rewrite Hp' in Hp. inversion Hp; subst. by exists b, w1.
Qed.

End Stages.

(** ** The FXServer version gate *)

Section VersionGate.
Context `{R : Runtime}.

Lemma getFxServerVersion_value h w v w' :
  getFxServerVersion h w = (Done v, w') -> v = fxServerVersionOf h.
Proof.
  unfold getFxServerVersion, fxServerVersionOf.
  destruct (parseFxserverVersion _) as [build branch|].
  - destruct (build <? minFXServerVersion); [discriminate |].
    destruct (negb _); intros E; by inversion E.
  - intros E; by inversion E.
Qed.

Lemma getOsType_supported h w :
  supportedOs h -> exists r, getOsType h w = (Done r, w).
Proof.
  unfold getOsType, strEq. intros [E | E]; rewrite E.
  - by eexists.
  - by eexists.
Qed.

Lemma resolveBase_version h w b w1 :
  resolveBase h w = (Done b, w1) -> b_fxServerVersion b = fxServerVersionOf h.
Proof.
  intros E. unfold resolveBase in E.
  inv_bind E r w0 E0. destruct r as [osType isWindows].
  inv_bind E v w0' Ev. apply getFxServerVersion_value in Ev.
  inv_bind E tv wa Ea. inv_bind E rp wb Eb. inv_bind E fp wc Ec.
  inv_bind E u wd Ed. inversion E; subst. reflexivity.
Qed.

Lemma globalData_version h w s w' :
  globalData h w = (Done s, w') -> fxServerVersion (txEnv s) = fxServerVersionOf h.
Proof.
  intros E. apply globalData_done_txEnv in E.
  destruct E as (b & w1 & Eb & -> & _). by eapply resolveBase_version.
Qed.

(** C3. A version that parses with a build below 5894 ends the process
    with exit code 102; one that parses with a build at or above 5894 passes
    the gate and the exported [fxServerVersion] is the parsed build; a
    version that does not parse is taken as build 99999 and passes the gate,
    the only effect being two diagnostic lines on the console. *)
Theorem version_gate (h : host) (w : world) :
  minFXServerVersion = 5894 /\
  match parseFxserverVersion (getConvarString h (js "version")) with
  | FxsValid build branch =>
      if build <? 5894 then
        (getFxServerVersion h w).1 = Exit 102 /\
        (supportedOs h -> (globalData h w).1 = Exit 102)
      else
        (getFxServerVersion h w).1 = Done build /\
        (forall s w', globalData h w = (Done s, w') ->
                      fxServerVersion (txEnv s) = build)
  | FxsInvalid =>
      getFxServerVersion h w =
        (Done 99999,
         logged w
           [LogError [js "It looks like you are running a custom build of fxserver."];
            LogError [js "And because of that, there is no guarantee that txAdmin will work properly."]]) /\
      (forall s w', globalData h w = (Done s, w') ->
                    fxServerVersion (txEnv s) = 99999)
  end.
Proof.
  split; [reflexivity |].
  pose proof (globalData_version h w) as Hs.
  unfold fxServerVersionOf in Hs.
  destruct (parseFxserverVersion (getConvarString h (js "version")))
    as [build branch|] eqn:Ep.
  - destruct (build <? 5894) eqn:Eb.
    + assert (Eg : exists w1, getFxServerVersion h w = (Exit 102, w1)).
      { unfold getFxServerVersion. rewrite Ep. unfold minFXServerVersion.
        rewrite Eb. by eexists. }
      destruct Eg as (w1 & Eg). split; [by rewrite Eg |].
      intros Hos. destruct (getOsType_supported h w Hos) as ([o i] & Eo).
      unfold globalData, resolveBase.
      rewrite (bind_exit _ _ w 102 w1); [done |].
      rewrite (bind_done _ _ _ _ _ Eo).
      by rewrite (bind_exit _ _ w 102 w1).
    + split; [| exact Hs].
      unfold getFxServerVersion. rewrite Ep. unfold minFXServerVersion.
      rewrite Eb. by destruct (negb _).
  - split; [| exact Hs].
    unfold getFxServerVersion. rewrite Ep.
    unfold console_error, mbind, proc_bind, mret, proc_ret, emit, logged. simpl.
    by rewrite <- app_assoc.
Qed.

End VersionGate.

(** ** The non-ASCII check *)

Section NonASCII.
Context `{R : Runtime}.

Lemma nonASCIIRegex_test_existsb s : nonASCIIRegex_test s = existsb above80 s.
Proof.
  unfold nonASCIIRegex_test. induction s as [| c s IH]; [reflexivity |].
  simpl. rewrite IH. f_equal. unfold above80.
  rewrite N.ltb_antisym. destruct (N.leb_spec 0 c); [reflexivity | lia].
Qed.

(** The check ends the process exactly when a code unit above U+0080
    occurs in one of the two paths. *)
Lemma checkNonASCII_spec v p d w :
  (checkNonASCII v p d w).1 = if existsb above80 (p ++ d) then Exit 107 else Done tt.
Proof.
  unfold checkNonASCII. rewrite existsb_app, !nonASCIIRegex_test_existsb.
  by destruct (existsb above80 p || existsb above80 d).
Qed.

Lemma above80_aboveASCII s :
  existsb aboveASCII s = false -> existsb above80 s = false.
Proof.
  induction s as [| c s IH]; [done |]. simpl.
  intros E. apply orb_false_iff in E as [E1 E2].
  rewrite (IH E2), orb_false_r. unfold above80, aboveASCII in *.
  apply N.ltb_ge. apply N.ltb_ge in E1. lia.
Qed.

(** Paths within ASCII pass the check, and nothing is written. *)
Lemma checkNonASCII_ascii v p d w :
  existsb aboveASCII (p ++ d) = false -> checkNonASCII v p d w = (Done tt, w).
Proof.
  intros E. apply above80_aboveASCII in E. rewrite existsb_app in E.
  unfold checkNonASCII. rewrite !nonASCIIRegex_test_existsb. by rewrite E.
Qed.

(** A code unit above U+0080 in a path ends the process with code 107. *)
Lemma checkNonASCII_above80 v p d w :
  existsb above80 (p ++ d) = true -> (checkNonASCII v p d w).1 = Exit 107.
Proof. intros E. by rewrite checkNonASCII_spec, E. Qed.

End NonASCII.

(** C2. The code unit U+0080 is outside ASCII, and a server path that
    holds it passes the check: nothing is written, the module runs to its
    end and exports the path. *)
Theorem nonascii_u0080_passes :
  existsb aboveASCII Sample.u0080Path = true /\
  (forall (R : Runtime) v w,
     checkNonASCII v Sample.u0080Path Sample.txData w = (Done tt, w)) /\
  match (globalData (R := Sample.rt) Sample.u0080Host Demo.emptyWorld).1 with
  | Done s => fxServerPath (txEnv s) = Sample.u0080Path
  | _ => False
  end.
Proof.
  split; [reflexivity |]. split.
  - intros R v w. unfold checkNonASCII.
    rewrite !nonASCIIRegex_test_existsb. reflexivity.
  - vm_compute. reflexivity.
Qed.

(** ** The developer environment *)

Section DevEnv.
Context `{R : Runtime}.

(** C8. An enabled developer environment with exactly one of [SRC_PATH]
    and [VITE_URL] missing or empty ends the process with exit code 108; an
    enabled one with both set is exported as it is, enabled and with both
    values; a disabled one is exported disabled, with both fields
    [undefined].  On the whole module: once the run reaches this stage, the
    exit code is the module's, and a published snapshot carries the
    resolved developer environment. *)
Theorem dev_env_all_or_nothing (h : host) (w : world) :
  let src := txDevEnvSrc h in
  (ENABLED src = true ->
   xorb (truthy (SRC_PATH src)) (truthy (VITE_URL src)) = true ->
   (getTxDevEnv h w).1 = Exit 108 /\
   forall w0 b profile, reachesDevEnv h w0 b profile w ->
                        (globalData h w0).1 = Exit 108) /\
  (ENABLED src = true ->
   truthy (SRC_PATH src) = true -> truthy (VITE_URL src) = true ->
   (getTxDevEnv h w).1 = Done src /\
   forall s w', globalData h w = (Done s, w') ->
                txDevEnv s = src /\ ENABLED (txDevEnv s) = true /\
                SRC_PATH (txDevEnv s) = SRC_PATH src /\
                VITE_URL (txDevEnv s) = VITE_URL src) /\
  (ENABLED src = false ->
   getTxDevEnv h w =
     (Done {| ENABLED := false; SRC_PATH := VUndefined; VITE_URL := VUndefined;
              VERBOSE := VERBOSE src |}, w) /\
   forall s w', globalData h w = (Done s, w') ->
                ENABLED (txDevEnv s) = false /\
                SRC_PATH (txDevEnv s) = VUndefined /\
                VITE_URL (txDevEnv s) = VUndefined).
Proof.
  intros src. subst src.
  assert (Hsnap : forall s w', globalData h w = (Done s, w') ->
            exists w3 w4, getTxDevEnv h w3 = (Done (txDevEnv s), w4)).
  { intros s w' E. apply globalData_done_inv in E.
    destruct E as (b & profile & dev & w4 & cv & w5 & Hr & _ & Hp).
    destruct Hr as (w3 & _ & Ed).
    destruct (publish_done b profile dev cv w5) as (w6 & Hp' & _).
    rewrite Hp' in Hp. inversion Hp; subst. simpl. by exists w3, w4. }
  split; [| split].
  - intros En Hx.
    assert (Eg : forall w1, exists w2, getTxDevEnv h w1 = (Exit 108, w2)).
    { intros w1. unfold getTxDevEnv. rewrite En.
      destruct (truthy (SRC_PATH _)), (truthy (VITE_URL _)); try discriminate;
        by eexists. }
    split.
    + destruct (Eg w) as (w2 & ->). done.
    + intros w0 b profile Hr. rewrite (globalData_afterProfile _ _ _ _ _ Hr).
      unfold afterProfile. destruct (Eg w) as (w2 & E2).
      by rewrite (bind_exit _ _ _ _ _ E2).
  - intros En Hs Hv.
    assert (Eg : forall w1, (getTxDevEnv h w1).1 = Done (txDevEnvSrc h)).
    { intros w1. unfold getTxDevEnv. rewrite En, Hs, Hv. reflexivity. }
    split; [apply Eg |].
    intros s w' E. destruct (Hsnap s w' E) as (w3 & w4 & Ed).
    specialize (Eg w3). rewrite Ed in Eg. simpl in Eg. injection Eg as Es.
    rewrite Es. by repeat split.
  - intros En.
    assert (Eg : forall w1, getTxDevEnv h w1 =
              (Done {| ENABLED := false; SRC_PATH := VUndefined;
                       VITE_URL := VUndefined;
                       VERBOSE := VERBOSE (txDevEnvSrc h) |}, w1)).
    { intros w1. unfold getTxDevEnv. by rewrite En. }
    split; [apply Eg |].
    intros s w' E. destruct (Hsnap s w' E) as (w3 & w4 & Ed).
    rewrite Eg in Ed. injection Ed as Es Ew. by rewrite <- Es.
Qed.

End DevEnv.

(** ** The profile name *)

Section Profile.
Context `{R : Runtime}.

Lemma startsWith_app p s : startsWith (p ++ s) p = true.
Proof. induction p as [| c p IH]; [by destruct s |]. simpl. by rewrite N.eqb_refl. Qed.

Lemma endsWith_app s p : endsWith (s ++ p) p = true.
Proof. unfold endsWith. rewrite reverse_app. apply startsWith_app. Qed.

Lemma trimStart_clean s :
  Forall (fun c => isWhiteSpace c = false) s -> trimStart s = s.
Proof. destruct 1 as [| c s Hc _]; [done |]. simpl. by rewrite Hc. Qed.

Lemma trim_clean s :
  Forall (fun c => isWhiteSpace c = false) s -> trim s = s.
Proof.
  intros Hs. unfold trim. rewrite (trimStart_clean s Hs).
  rewrite trimStart_clean; [apply reverse_involutive |].
  by apply Forall_reverse.
Qed.

Lemma profileChar_not_space c : profileChar c = true -> isWhiteSpace c = false.
Proof.
  unfold profileChar, isWhiteSpace, isLower, isUpper, isDigit. intros Hc.
  apply not_true_iff_false. intros Hw.
  repeat rewrite ?orb_true_iff, ?andb_true_iff, ?N.leb_le, ?N.eqb_eq in Hc.
  repeat rewrite ?orb_true_iff, ?andb_true_iff, ?N.leb_le, ?N.eqb_eq in Hw.
  lia.
Qed.

Lemma trim_stripProfile s : trim (stripProfile s) = stripProfile s.
Proof.
  apply trim_clean. apply Forall_forall. intros c Hc.
  apply list_elem_of_filter in Hc as [Hc _].
  apply profileChar_not_space. by apply Is_true_true.
Qed.

Lemma stripProfile_app s1 s2 :
  stripProfile (s1 ++ s2) = stripProfile s1 ++ stripProfile s2.
Proof. apply filter_app. Qed.

Lemma getProfile_spec h w :
  let name := stripProfile (GetConvar h (js "serverProfile") (js "default")) in
  if endsWith name (js ".base") then (getProfile h w).1 = Exit 113
  else match name with
       | [] => (getProfile h w).1 = Exit 114
       | _ => getProfile h w = (Done name, w)
       end.
Proof.
  intros name. unfold getProfile. rewrite trim_stripProfile. fold name.
  destruct (endsWith name (js ".base")); [done |].
  by destruct name.
Qed.

Lemma getProfile_done h w p w' :
  getProfile h w = (Done p, w') ->
  p = stripProfile (GetConvar h (js "serverProfile") (js "default")) /\ w' = w.
Proof.
  intros E. pose proof (getProfile_spec h w) as Hs. simpl in Hs.
  destruct (endsWith _ _); [by rewrite E in Hs |].
  destruct (stripProfile _); [by rewrite E in Hs |].
  rewrite E in Hs. by inversion Hs.
Qed.

(** C7. The profile is the raw [serverProfile] value with every
    character outside [a-zA-Z0-9._-] removed.  A sanitized name ending in
    [.base] ends the process with exit code 113, an empty one with exit
    code 114; any other is accepted, and the profile path is the data path
    joined with it.  In particular [default] is accepted as it is, a raw
    name ending in [.base] is rejected, and [My Server!] becomes
    [MyServer]. *)
Theorem profile_resolution (h : host) (w : world) :
  let raw := GetConvar h (js "serverProfile") (js "default") in
  let name := stripProfile raw in
  (forall c, c ∈ name <-> profileChar c = true /\ c ∈ raw) /\
  (endsWith name (js ".base") = true ->
   (getProfile h w).1 = Exit 113 /\
   forall w0 b, reachesProfile h w0 b w -> (globalData h w0).1 = Exit 113) /\
  (name = [] ->
   (getProfile h w).1 = Exit 114 /\
   forall w0 b, reachesProfile h w0 b w -> (globalData h w0).1 = Exit 114) /\
  (endsWith name (js ".base") = false -> name <> [] ->
   getProfile h w = (Done name, w) /\
   forall s w', globalData h w = (Done s, w') ->
     profile (txEnv s) = name /\
     profilePath (txEnv s) = cleanPath (path_join [dataPath (txEnv s); name])) /\
  (forall x, raw = x ++ js ".base" -> endsWith name (js ".base") = true) /\
  (raw = js "default" ->
   name = js "default" /\ getProfile h w = (Done (js "default"), w)) /\
  (raw = js "My Server!" ->
   name = js "MyServer" /\ getProfile h w = (Done (js "MyServer"), w)).
Proof.
  intros raw name.
  pose proof (getProfile_spec h w) as Hs. simpl in Hs. fold raw name in Hs.
  assert (Hexit : forall c, (getProfile h w).1 = Exit c ->
            forall w0 b, reachesProfile h w0 b w -> (globalData h w0).1 = Exit c).
  { intros c E w0 b Hr. rewrite (globalData_afterPaths _ _ _ _ Hr).
    unfold afterPaths, mbind, proc_bind.
    destruct (getProfile h w) as [[p| | |] w1]; simpl in E; try discriminate.
    by injection E as ->. }
  assert (Hsnap : forall s w', globalData h w = (Done s, w') ->
            profile (txEnv s) = name /\
            profilePath (txEnv s) = cleanPath (path_join [dataPath (txEnv s); name])).
  { intros s w' Eg. apply globalData_done_inv in Eg.
    destruct Eg as (b & p & dev & w4 & cv & w5 & Hr & _ & Hp).
    destruct Hr as (w3 & (w2 & _ & Ep) & _).
    apply getProfile_done in Ep as [Ep _].
    destruct (publish_done b p dev cv w5) as (w6 & Hp' & _).
    rewrite Hp' in Hp. injection Hp as <- _. simpl. by rewrite Ep. }
  split; [| split; [| split; [| split; [| split; [| split]]]]].
  - intros c. unfold name, stripProfile. rewrite list_elem_of_filter.
    by rewrite Is_true_true.
  - intros E. rewrite E in Hs. split; [done | by apply Hexit].
  - intros E. rewrite E in Hs. simpl in Hs. split; [done | by apply Hexit].
  - intros E Hne. rewrite E in Hs. split; [| exact Hsnap].
    clearbody name. by destruct name.
  - intros x E. unfold name. rewrite E, stripProfile_app.
    change (stripProfile (js ".base")) with (js ".base"). apply endsWith_app.
  - intros E. unfold name in *. rewrite E in Hs. rewrite E.
    change (stripProfile (js "default")) with (js "default") in *.
    split; [reflexivity | exact Hs].
  - intros E. unfold name in *. rewrite E in Hs. rewrite E.
    change (stripProfile (js "My Server!")) with (js "MyServer") in *.
    split; [reflexivity | exact Hs].
Qed.

End Profile.

(** ** The host type check *)

Section HostType.
Context `{R : Runtime}.

(** With a ZAP configuration file: the values of the file, or exit 109,
    also when the file cannot be removed. *)
Lemma hostTypeCheck_file h isw dp dev w text :
  files w !! zapCfgFileOf dp = Some (File text) ->
  hostTypeCheck h isw dp dev w =
    let w1 := logged w [zapLoadingLine] in
    let failed e :=
      (Exit 109,
       logged w1 [LogError [js "Failed to load with ZAP-Hosting configuration error: " ++ e]]) in
    match d ← JSON_parse text;
          readZapConfig d (pteroMarker h isw) (negb (pteroMarker h isw)) with
    | inl e => failed e
    | inr cv =>
        if ENABLED dev then (Done cv, w1)
        else match locked w !! zapCfgFileOf dp with
             | None => (Done cv, unlinked w1 (zapCfgFileOf dp))
             | Some e => failed e
             end
    end.
Proof.
  intros Ef. unfold hostTypeCheck, existsSync, mbind at 1, proc_bind at 1.
  rewrite Ef. rewrite bool_decide_eq_true_2 by (by eexists).
  fold (pteroMarker h isw).
  unfold console_log, mbind at 1, proc_bind at 1. rewrite emit_logged.
  fold zapLoadingLine. simpl.
  set (w1 := logged w [zapLoadingLine]).
  assert (Ef1 : files w1 !! zapCfgFileOf dp = Some (File text)) by exact Ef.
  unfold tryCatch, loadZapConfig, readFileSync, mbind at 1, proc_bind at 1.
  rewrite Ef1.
  unfold mbind at 1, proc_bind at 1.
  destruct (JSON_parse text) as [e | d]; [reflexivity |]. simpl.
  unfold mbind at 1, proc_bind at 1.
  destruct (readZapConfig d _ _) as [e | cv]; [reflexivity |]. simpl.
  unfold mbind at 1, proc_bind at 1.
  destruct (ENABLED dev); simpl; [reflexivity |].
  assert (El : locked w1 = locked w) by reflexivity.
  unfold unlinkSync. rewrite Ef1, El.
  by destruct (locked w !! zapCfgFileOf dp).
Qed.

Lemma hostTypeCheck_file_outcome h isw dp dev w text :
  files w !! zapCfgFileOf dp = Some (File text) ->
  hostTypeCheck h isw dp dev w =
    match d ← JSON_parse text;
          readZapConfig d (pteroMarker h isw) (negb (pteroMarker h isw)) with
    | inl e => zapRejected w e
    | inr cv =>
        if ENABLED dev then (Done cv, logged w [zapLoadingLine])
        else match locked w !! zapCfgFileOf dp with
             | None => (Done cv, unlinked (logged w [zapLoadingLine]) (zapCfgFileOf dp))
             | Some e => zapRejected w e
             end
    end.
Proof.
  intros Ef. rewrite (hostTypeCheck_file _ _ _ _ _ _ Ef). simpl.
  unfold zapRejected, zapFailureLine.
  destruct (_ ≫= _); [by rewrite logged_logged |].
  destruct (ENABLED dev); [reflexivity |].
  destruct (locked w !! zapCfgFileOf dp); [by rewrite logged_logged | reflexivity].
Qed.

Lemma hostTypeCheck_directory h isw dp dev w :
  files w !! zapCfgFileOf dp = Some Directory ->
  (hostTypeCheck h isw dp dev w).1 = Exit 109.
Proof.
  intros Ef. unfold hostTypeCheck, existsSync, mbind at 1, proc_bind at 1.
  rewrite Ef. rewrite bool_decide_eq_true_2 by (by eexists).
  unfold console_log, mbind at 1, proc_bind at 1. rewrite emit_logged.
  unfold tryCatch, loadZapConfig, readFileSync, mbind at 1, proc_bind at 1.
  assert (Ef1 : files (logged w [LogLog (js "Loading ZAP-Hosting configuration file.")])
                  !! zapCfgFileOf dp = Some Directory) by exact Ef.
  by rewrite Ef1.
Qed.

Lemma hostTypeCheck_nofile h isw dp dev w :
  files w !! zapCfgFileOf dp = None ->
  hostTypeCheck h isw dp dev w = loadConvarConfig h (pteroMarker h isw) w.
Proof.
  intros Ef. unfold hostTypeCheck, existsSync, mbind at 1, proc_bind at 1.
  rewrite Ef. rewrite bool_decide_eq_false_2; [done |]. by intros [x Hx].
Qed.

Lemma readZapConfig_flags d p z cv :
  readZapConfig d p z = inr cv -> isPterodactyl cv = p /\ isZapHosting cv = z.
Proof.
  unfold readZapConfig, mbind, except_bind.
  repeat (match goal with
          | |- context [match ?x with inl _ => _ | inr _ => _ end] =>
              destruct x; try discriminate
          end).
  intros E. injection E as <-. by split.
Qed.

Lemma hostTypeCheck_done_cases h isw dp dev w cv w' :
  hostTypeCheck h isw dp dev w = (Done cv, w') ->
  (files w !! zapCfgFileOf dp = None /\
   loadConvarConfig h (pteroMarker h isw) w = (Done cv, w')) \/
  (exists text d,
     files w !! zapCfgFileOf dp = Some (File text) /\
     JSON_parse text = inr d /\
     readZapConfig d (pteroMarker h isw) (negb (pteroMarker h isw)) = inr cv /\
     (ENABLED dev = false -> locked w !! zapCfgFileOf dp = None) /\
     w' = if ENABLED dev then logged w [zapLoadingLine]
          else unlinked (logged w [zapLoadingLine]) (zapCfgFileOf dp)).
Proof.
  intros E. destruct (files w !! zapCfgFileOf dp) as [[text|]|] eqn:Ef.
  - right. rewrite (hostTypeCheck_file _ _ _ _ _ _ Ef) in E. simpl in E.
    unfold mbind, except_bind in E.
    destruct (JSON_parse text) as [e|d] eqn:Ep; [discriminate |].
    destruct (readZapConfig d _ _) as [e|cv0] eqn:Ez; [discriminate |].
    destruct (ENABLED dev).
    + injection E as <- <-. by exists text, d.
    + destruct (locked w !! zapCfgFileOf dp); [discriminate |].
      injection E as <- <-. by exists text, d.
  - pose proof (hostTypeCheck_directory h isw dp dev w Ef) as Hd.
    by rewrite E in Hd.
  - left. split; [done |]. by rewrite <- (hostTypeCheck_nofile h isw dp dev w Ef).
Qed.

Lemma loadConvarConfig_flags h p cv w w' :
  loadConvarConfig h p w = (Done cv, w') ->
  isPterodactyl cv = p /\ isZapHosting cv = false /\ files w' = files w.
Proof.
  unfold loadConvarConfig.
  destruct (negb (digitsRegex_test _)); [discriminate |].
  destruct (getConvarString h (js "txAdminInterface")) as [| | | |[|c rest]| |];
    try (intros E; injection E as <- <-; by repeat split).
  unfold mbind, proc_bind.
  destruct (negb (ipv4Regex_test _)); [discriminate |].
  intros E; injection E as <- <-; by repeat split.
Qed.

End HostType.

Section HostingMode.
Context `{R : Runtime}.

Lemma zapFilePresent_log w w' dp :
  extendsLog w w' -> zapFilePresent w' dp = zapFilePresent w dp.
Proof. intros (F & _). unfold zapFilePresent. by rewrite F. Qed.

Lemma hostTypeCheck_mode h isw dp dev w cv w' :
  hostTypeCheck h isw dp dev w = (Done cv, w') ->
  isPterodactyl cv = pteroMarker h isw /\
  isZapHosting cv = zapFilePresent w dp && negb (pteroMarker h isw).
Proof.
  intros E. unfold zapFilePresent.
  destruct (hostTypeCheck_done_cases _ _ _ _ _ _ _ E)
    as [[Ef El] | (text & d & Ef & Ep & Ez & _)]; rewrite Ef.
  - apply loadConvarConfig_flags in El as (-> & -> & _).
    rewrite bool_decide_eq_false_2; [done |]. by intros [x Hx].
  - apply readZapConfig_flags in Ez as [-> ->].
    rewrite bool_decide_eq_true_2; [done |]. by eexists.
Qed.

(** C1, as the code has it.  The two hosting flags are never both set.
    [isPterodactyl] is the environment marker alone; [isZapHosting] holds
    when the ZAP configuration file exists and the marker is absent.  With
    both the file and the marker present, the mode is Pterodactyl
    ([isZapHosting] false), and the forced values are still those read from
    the file. *)
Theorem hosting_mode_flags (h : host) (w : world) :
  (forall isw dp dev cv w',
     hostTypeCheck h isw dp dev w = (Done cv, w') ->
     isZapHosting cv && isPterodactyl cv = false /\
     isPterodactyl cv = pteroMarker h isw /\
     isZapHosting cv = zapFilePresent w dp && negb (pteroMarker h isw) /\
     (zapFilePresent w dp = true -> pteroMarker h isw = true ->
      isPterodactyl cv = true /\ isZapHosting cv = false /\
      exists text d,
        files w !! zapCfgFileOf dp = Some (File text) /\
        JSON_parse text = inr d /\
        readZapConfig d true false = inr cv)) /\
  (forall s w',
     globalData h w = (Done s, w') ->
     let cv := convars s in
     let marker := pteroMarker h (isWindows (txEnv s)) in
     isZapHosting cv && isPterodactyl cv = false /\
     isPterodactyl cv = marker /\
     isZapHosting cv = zapFilePresent w (dataPath (txEnv s)) && negb marker).
Proof.
  split.
  - intros isw dp dev cv w' E.
    destruct (hostTypeCheck_mode _ _ _ _ _ _ _ E) as [Hp Hz].
    split; [| split; [done | split; [done |]]].
    + rewrite Hz, Hp. by destruct (zapFilePresent w dp), (pteroMarker h isw).
    + intros Hf Hm. rewrite Hz, Hp, Hf, Hm. split; [done | split; [done |]].
      destruct (hostTypeCheck_done_cases _ _ _ _ _ _ _ E)
        as [[Ef _] | (text & d & Ef & Ep & Ez & _)].
      * unfold zapFilePresent in Hf. rewrite Ef in Hf.
        rewrite bool_decide_eq_false_2 in Hf; [done |]. by intros [x Hx].
      * rewrite Hm in Ez. by exists text, d.
  - intros s w' E. apply globalData_done_inv in E.
    destruct E as (b & profile & dev & w4 & cv & w5 & Hr & Eh & Hp).
    destruct (publish_done b profile dev cv w5) as (w6 & Hp' & _).
    rewrite Hp' in Hp. injection Hp as <- _. simpl.
    destruct (hostTypeCheck_mode _ _ _ _ _ _ _ Eh) as [Hpt Hz].
    rewrite (zapFilePresent_log w w4) in Hz by (by eapply reachesHostCheck_log).
    split; [| by split].
    rewrite Hz, Hpt.
    by destruct (zapFilePresent w _), (pteroMarker h _).
Qed.

End HostingMode.

(** ** The customer record of the ZAP configuration *)

Section Customer.
Context `{R : Runtime}.

Lemma readCustomer_valid customer :
  truthy customer = true ->
  match validAccount customer with
  | Some acct => readCustomer customer = inr (Some acct)
  | None => exists e, readCustomer customer = inl e
  end.
Proof.
  intros Ht. unfold validAccount, readCustomer. rewrite Ht.
  unfold mbind, except_bind, raise, mret, except_ret.
  destruct (getProp customer (js "name")) as [e | name]; [by eexists |].
  destruct name as [| | | |name| |];
    try (by destruct (getProp customer (js "password_hash")) as [? | []]; eexists).
  destruct (Nat.ltb_spec (length name) 3) as [Hl | Hl].
  - rewrite (proj2 (Nat.leb_gt 3 (length name))) by lia. simpl.
    destruct (getProp customer (js "password_hash")) as [? | []]; by eexists.
  - rewrite (proj2 (Nat.leb_le 3 (length name))) by lia. simpl.
    destruct (getProp customer (js "password_hash")) as [e | hash]; [by eexists |].
    destruct hash as [| | | |hash| |]; try by eexists.
    destruct (startsWith hash (js "$2y$")); simpl; [done | by eexists].
Qed.

(** A value with a truthy [customer] property is an object. *)
Lemma customer_object d customer :
  getProp d (js "customer") = inr customer -> truthy customer = true ->
  exists fields, d = VObj fields.
Proof.
  destruct d; simpl; intros E Ht; try discriminate;
    try (injection E as <-; discriminate).
  by eexists.
Qed.

Lemma getProp_defined v k :
  v <> VUndefined -> v <> VNull -> exists x, getProp v k = inr x.
Proof. destruct v; intros H1 H2; try done; by eexists. Qed.

(** The checks of the [customer] block, in the order of the code. *)
Lemma readCustomer_cases customer name hash :
  truthy customer = true ->
  getProp customer (js "name") = inr name ->
  getProp customer (js "password_hash") = inr hash ->
  readCustomer customer =
    match name with
    | VStr n =>
        if (length n <? 3)%nat then inl (js "customer.name too short.")
        else match hash with
             | VStr p =>
                 if startsWith p (js "$2y$") then inr (Some (n, p))
                 else inl (js "customer.password_hash is not a bcrypt hash.")
             | _ => inl (js "customer.password_hash is not a string.")
             end
    | _ => inl (js "customer.name is not a string.")
    end.
Proof.
  intros Ht En Eh. unfold readCustomer. rewrite Ht.
  unfold mbind, except_bind, raise, mret, except_ret. rewrite En.
  destruct name as [| | | |n| |]; try reflexivity.
  destruct (length n <? 3)%nat; [reflexivity |]. rewrite Eh.
  destruct hash as [| | | |p| |]; try reflexivity.
  by destruct (startsWith p (js "$2y$")).
Qed.

(** Without a [defaults] block the descriptor fails on its first read. *)
Lemma readZapConfig_unreadable fields p z e :
  getProp (lookupField (js "defaults") fields) (js "license") = inl e ->
  readZapConfig (VObj fields) p z = inl e.
Proof.
  intros E. unfold readZapConfig, mbind, except_bind. simpl. by rewrite E.
Qed.

(** With one, the customer record decides. *)
Lemma readZapConfig_readable fields p z :
  lookupField (js "defaults") fields <> VUndefined ->
  lookupField (js "defaults") fields <> VNull ->
  exists cvOf,
    (forall acct, defaultMasterAccount (cvOf acct) = acct) /\
    readZapConfig (VObj fields) p z =
      match readCustomer (lookupField (js "customer") fields) with
      | inl e => inl e
      | inr acct => inr (cvOf acct)
      end.
Proof.
  intros H1 H2. set (defaults := lookupField (js "defaults") fields) in *.
  unfold readZapConfig, mbind, except_bind. simpl. fold defaults.
  destruct (getProp_defined defaults (js "license") H1 H2) as (x1 & ->).
  destruct (getProp_defined defaults (js "maxClients") H1 H2) as (x2 & ->).
  destruct (getProp_defined defaults (js "mysqlHost") H1 H2) as (x3 & ->).
  destruct (getProp_defined defaults (js "mysqlPort") H1 H2) as (x4 & ->).
  destruct (getProp_defined defaults (js "mysqlUser") H1 H2) as (x5 & ->).
  destruct (getProp_defined defaults (js "mysqlPassword") H1 H2) as (x6 & ->).
  destruct (getProp_defined defaults (js "mysqlDatabase") H1 H2) as (x7 & ->).
  eexists (fun acct => {| defaultMasterAccount := acct |}).
  split; [reflexivity |].
  by destruct (readCustomer _).
Qed.

(** C6, as the code has it.  For a ZAP configuration file whose [customer]
    is present (truthy, as every record is).  A record whose name is not a
    string of length at least 3, or whose password hash is not a string
    starting with [$2y$], ends the process with exit code 109 after one
    error line; when the file has a [defaults] block the line carries the
    descriptive reason, the first that applies of: the name is not a
    string, the name is too short, the hash is not a string, the hash is
    not a bcrypt hash.  A record that passes gives a [defaultMasterAccount]
    of exactly that name and hash when the file has a [defaults] block and
    is kept or can be removed; without the block, or when the removal
    fails, the process ends with exit code 109 and the reason of that.
    The module ends as the host type check does. *)
Theorem zap_customer_validation (h : host) (isw : bool) (dp : jsstring)
    (dev : TxDevEnvType) (w : world) (text : jsstring) (d customer name hash : value) :
  files w !! zapCfgFileOf dp = Some (File text) ->
  JSON_parse text = inr d ->
  getProp d (js "customer") = inr customer ->
  truthy customer = true ->
  getProp customer (js "name") = inr name ->
  getProp customer (js "password_hash") = inr hash ->
  let check := hostTypeCheck h isw dp dev w in
  (validAccount customer = None ->
   (exists e, check = zapRejected w e) /\
   (hasDefaults d ->
    (isString name = false ->
     check = zapRejected w (js "customer.name is not a string.")) /\
    (forall n, name = VStr n -> (length n < 3)%nat ->
     check = zapRejected w (js "customer.name too short.")) /\
    (forall n, name = VStr n -> (3 <= length n)%nat -> isString hash = false ->
     check = zapRejected w (js "customer.password_hash is not a string.")) /\
    (forall n p, name = VStr n -> (3 <= length n)%nat -> hash = VStr p ->
     startsWith p (js "$2y$") = false ->
     check = zapRejected w (js "customer.password_hash is not a bcrypt hash.")))) /\
  (forall n p,
     validAccount customer = Some (n, p) ->
     name = VStr n /\ hash = VStr p /\
     (hasDefaults d -> zapFileSettled w dev dp ->
      exists cv w', check = (Done cv, w') /\ defaultMasterAccount cv = Some (n, p)) /\
     (hasDefaults d -> forall e,
        ENABLED dev = false -> locked w !! zapCfgFileOf dp = Some e ->
        check = zapRejected w e)) /\
  (forall defaults e,
     getProp d (js "defaults") = inr defaults ->
     getProp defaults (js "license") = inl e ->
     check = zapRejected w e) /\
  (forall w0 b profile,
     reachesHostCheck h w0 b profile dev w ->
     b_isWindows b = isw -> b_dataPath b = dp ->
     (forall c w', check = (Exit c, w') -> globalData h w0 = (Exit c, w')) /\
     (forall cv w', check = (Done cv, w') ->
        exists s w'', globalData h w0 = (Done s, w'') /\ convars s = cv)).
Proof.
  intros Ef Ep Ec Ht En Eh check.
  pose proof (hostTypeCheck_file_outcome h isw dp dev w text Ef) as Hh.
  unfold mbind at 1, except_bind at 1 in Hh. rewrite Ep in Hh. fold check in Hh.
  destruct (customer_object d customer Ec Ht) as (fields & ->).
  simpl in Ec. injection Ec as Ec.
  pose proof (readCustomer_cases customer name hash Ht En Eh) as Hc.
  set (p0 := pteroMarker h isw) in *.
  assert (Hv : validAccount customer =
               match name, hash with
               | VStr n, VStr p =>
                   if (3 <=? length n)%nat && startsWith p (js "$2y$")
                   then Some (n, p) else None
               | _, _ => None
               end).
  { unfold validAccount. by rewrite En, Eh. }
  assert (Hd : hasDefaults (VObj fields) ->
               exists cvOf,
                 (forall acct, defaultMasterAccount (cvOf acct) = acct) /\
                 readZapConfig (VObj fields) p0 (negb p0) =
                   match readCustomer customer with
                   | inl e => inl e
                   | inr acct => inr (cvOf acct)
                   end).
  { intros (defaults & Ed & H1 & H2). simpl in Ed. injection Ed as <-.
    destruct (readZapConfig_readable fields p0 (negb p0) H1 H2) as (cvOf & Ha & Ez).
    exists cvOf. by rewrite <- Ec. }
  assert (Hu : forall defaults e,
            getProp (VObj fields) (js "defaults") = inr defaults ->
            getProp defaults (js "license") = inl e ->
            check = zapRejected w e).
  { intros defaults e Ed El. simpl in Ed. injection Ed as <-.
    by rewrite Hh, (readZapConfig_unreadable fields p0 (negb p0) e El). }
  assert (Hr : forall e, readCustomer customer = inl e -> exists e', check = zapRejected w e').
  { intros e Er.
    destruct (lookupField (js "defaults") fields) as [| | b | q | str | items | defaults] eqn:Ed;
      try (eexists; by apply (Hu _ _ (f_equal inr Ed) eq_refl)).
    all: destruct (Hd ltac:(eexists; split; [exact (f_equal inr Ed) | by split]))
           as (cvOf & _ & Ez);
      rewrite Er in Ez; rewrite Hh, Ez; by eexists. }
  assert (Hx : forall e, hasDefaults (VObj fields) -> readCustomer customer = inl e ->
                         check = zapRejected w e).
  { intros e Hdf Er. destruct (Hd Hdf) as (cvOf & _ & Ez).
    rewrite Er in Ez. by rewrite Hh, Ez. }
  split; [| split; [| split]].
  - intros Hn. split.
    + rewrite Hv in Hn.
      destruct name as [| | | |n| |]; try (by eapply Hr).
      destruct (Nat.ltb_spec (length n) 3) as [Hl | Hl]; [by eapply Hr |].
      destruct hash as [| | | |p| |]; try (by eapply Hr).
      rewrite (proj2 (Nat.leb_le 3 (length n))) in Hn by lia. simpl in Hn.
      destruct (startsWith p (js "$2y$")); [discriminate | by eapply Hr].
    + intros Hdf. split; [| split; [| split]].
      * intros Hs. apply Hx; [done |]. rewrite Hc. by destruct name.
      * intros n -> Hl. apply Hx; [done |].
        by rewrite Hc, (proj2 (Nat.ltb_lt (length n) 3)) by lia.
      * intros n -> Hl Hs. apply Hx; [done |].
        rewrite Hc, (proj2 (Nat.ltb_ge (length n) 3)) by lia. by destruct hash.
      * intros n p -> Hl -> Hs. apply Hx; [done |].
        by rewrite Hc, (proj2 (Nat.ltb_ge (length n) 3)), Hs by lia.
  - intros n p Hs. rewrite Hv in Hs.
    destruct name as [| | | |n'| |]; try discriminate.
    destruct hash as [| | | |p'| |]; try discriminate.
    destruct (Nat.leb_spec 3 (length n')) as [Hl | Hl]; [| discriminate].
    simpl in Hs. destruct (startsWith p' (js "$2y$")) eqn:Hb; [| discriminate].
    injection Hs as <- <-.
    rewrite (proj2 (Nat.ltb_ge (length n') 3)) in Hc by lia.
    split; [done |]. split; [done |]. split.
    + intros Hdf Hz. destruct (Hd Hdf) as (cvOf & Ha & Ez).
      rewrite Hc in Ez. rewrite Ez in Hh.
      destruct Hz as [Hz | Hz]; rewrite Hz in Hh.
      * eexists _, _. split; [exact Hh | apply Ha].
      * destruct (ENABLED dev); eexists _, _; (split; [exact Hh | apply Ha]).
    + intros Hdf e He Hl'. destruct (Hd Hdf) as (cvOf & Ha & Ez).
      rewrite Hc in Ez. by rewrite Hh, Ez, He, Hl'.
  - exact Hu.
  - intros w0 b profile Hreach <- <-.
    rewrite (globalData_afterDevEnv _ _ _ _ _ _ Hreach). unfold afterDevEnv.
    fold check. split.
    + intros c w' E. by rewrite (bind_exit _ _ _ _ _ E).
    + intros cv w' E. rewrite (bind_done _ _ _ _ _ E).
      destruct (publish_done b profile dev cv w') as (w6 & -> & _).
      by eexists _, _.
Qed.

End Customer.

(** ** Deleting the ZAP configuration file *)

Section Deletion.
Context `{R : Runtime}.

Lemma hostTypeCheck_present h isw dp dev w cv w' :
  zapFilePresent w dp = true ->
  hostTypeCheck h isw dp dev w = (Done cv, w') ->
  exists text d,
    files w !! zapCfgFileOf dp = Some (File text) /\
    JSON_parse text = inr d /\
    readZapConfig d (pteroMarker h isw) (negb (pteroMarker h isw)) = inr cv /\
    (ENABLED dev = false -> locked w !! zapCfgFileOf dp = None) /\
    w' = if ENABLED dev then logged w [zapLoadingLine]
         else unlinked (logged w [zapLoadingLine]) (zapCfgFileOf dp).
Proof.
  intros Hf E.
  destruct (hostTypeCheck_done_cases _ _ _ _ _ _ _ E) as [[Ef _] | Hc]; [| done].
  unfold zapFilePresent in Hf. rewrite Ef in Hf.
  rewrite bool_decide_eq_false_2 in Hf; [done |]. by intros [x Hx].
Qed.

(** C9, as the code has it.  After the ZAP configuration file is parsed
    and validated, the developer environment decides: when it is enabled
    the file is left in place; when it is not, the file is removed, and if
    the removal fails the process ends with exit code 109, with the error
    of the removal as the reason, and the file stays.  Whenever the host
    type check succeeds, the file is gone exactly when the developer
    environment is not enabled, no other file is touched, and the resolved
    values, the console and the rest of the world are the same for every
    developer environment under which the file is kept or can be removed.
    On the whole module: the files after a run that found the file are
    those before it, less the configuration file unless the exported
    developer environment is enabled; a run that cannot remove the file
    ends with exit code 109 and leaves the files as they were. *)
Theorem zap_file_deletion (h : host) (w : world) :
  (forall isw dp dev text d cv,
     files w !! zapCfgFileOf dp = Some (File text) ->
     JSON_parse text = inr d ->
     readZapConfig d (pteroMarker h isw) (negb (pteroMarker h isw)) = inr cv ->
     let check := hostTypeCheck h isw dp dev w in
     (ENABLED dev = true -> check = (Done cv, logged w [zapLoadingLine])) /\
     (ENABLED dev = false -> locked w !! zapCfgFileOf dp = None ->
      check = (Done cv, unlinked (logged w [zapLoadingLine]) (zapCfgFileOf dp))) /\
     (forall e, ENABLED dev = false -> locked w !! zapCfgFileOf dp = Some e ->
      check = zapRejected w e /\
      forall w0 b profile,
        reachesHostCheck h w0 b profile dev w ->
        b_isWindows b = isw -> b_dataPath b = dp ->
        (globalData h w0).1 = Exit 109 /\ files (globalData h w0).2 = files w)) /\
  (forall isw dp dev cv w',
     zapFilePresent w dp = true ->
     hostTypeCheck h isw dp dev w = (Done cv, w') ->
     files w' = (if ENABLED dev then files w
                 else delete (zapCfgFileOf dp) (files w)) /\
     (files w' !! zapCfgFileOf dp = None <-> ENABLED dev = false) /\
     (forall p, p <> zapCfgFileOf dp -> files w' !! p = files w !! p) /\
     zapFileSettled w dev dp /\
     forall dev', zapFileSettled w dev' dp ->
       exists w'',
         hostTypeCheck h isw dp dev' w = (Done cv, w'') /\
         console w'' = console w' /\ localIps w'' = localIps w' /\
         consoleEnvData w'' = consoleEnvData w' /\ locked w'' = locked w' /\
         forall p, p <> zapCfgFileOf dp -> files w'' !! p = files w' !! p) /\
  (forall s w',
     globalData h w = (Done s, w') ->
     zapFilePresent w (dataPath (txEnv s)) = true ->
     files w' = (if ENABLED (txDevEnv s) then files w
                 else delete (zapCfgFileOf (dataPath (txEnv s))) (files w))).
Proof.
  assert (Hfile : forall isw dp dev text d cv,
            files w !! zapCfgFileOf dp = Some (File text) ->
            JSON_parse text = inr d ->
            readZapConfig d (pteroMarker h isw) (negb (pteroMarker h isw)) = inr cv ->
            hostTypeCheck h isw dp dev w =
              if ENABLED dev then (Done cv, logged w [zapLoadingLine])
              else match locked w !! zapCfgFileOf dp with
                   | None => (Done cv, unlinked (logged w [zapLoadingLine]) (zapCfgFileOf dp))
                   | Some e => zapRejected w e
                   end).
  { intros isw dp dev text d cv Ef Ep Ez.
    rewrite (hostTypeCheck_file_outcome h isw dp dev w text Ef).
    unfold mbind at 1, except_bind at 1. by rewrite Ep, Ez. }
  split; [| split].
  - intros isw dp dev text d cv Ef Ep Ez check.
    pose proof (Hfile isw dp dev text d cv Ef Ep Ez) as Hh. fold check in Hh.
    split; [| split].
    + intros He. by rewrite Hh, He.
    + intros He Hl. by rewrite Hh, He, Hl.
    + intros e He Hl. rewrite He, Hl in Hh. split; [exact Hh |].
      intros w0 b profile Hr <- <-.
      rewrite (globalData_afterDevEnv _ _ _ _ _ _ Hr). unfold afterDevEnv.
      fold check. by rewrite (bind_exit _ _ _ _ _ Hh).
  - intros isw dp dev cv w' Hf E.
    destruct (hostTypeCheck_present _ _ _ _ _ _ _ Hf E)
      as (text & d & Ef & Ep & Ez & Hu & ->).
    split; [by destruct (ENABLED dev) |].
    split; [| split; [| split]].
    + destruct (ENABLED dev); simpl.
      * rewrite Ef. split; discriminate.
      * by rewrite lookup_delete_eq.
    + intros p Hp. destruct (ENABLED dev); simpl; [done |].
      by rewrite lookup_delete_ne.
    + unfold zapFileSettled. destruct (ENABLED dev); [by left | right; by apply Hu].
    + intros dev' Hs.
      pose proof (Hfile isw dp dev' text d cv Ef Ep Ez) as Hh.
      assert (Hh' : hostTypeCheck h isw dp dev' w =
                    (Done cv, if ENABLED dev' then logged w [zapLoadingLine]
                              else unlinked (logged w [zapLoadingLine]) (zapCfgFileOf dp))).
      { rewrite Hh. destruct Hs as [Hs | Hs]; rewrite Hs; [done |].
        by destruct (ENABLED dev'). }
      eexists. split; [exact Hh' |].
      destruct (ENABLED dev), (ENABLED dev'); simpl; repeat split; try done;
        intros p Hp; by rewrite ?lookup_delete_ne.
  - intros s w' E Hf. apply globalData_done_inv in E.
    destruct E as (b & profile & dev & w4 & cv & w5 & Hr & Eh & Hp).
    destruct (publish_done b profile dev cv w5) as (w6 & Hp' & Hfiles).
    rewrite Hp' in Hp. injection Hp as <- <-. simpl in *.
    pose proof (reachesHostCheck_log _ _ _ _ _ _ Hr) as Hl.
    rewrite <- (zapFilePresent_log w w4 _ Hl) in Hf.
    destruct (hostTypeCheck_present _ _ _ _ _ _ _ Hf Eh)
      as (text & d & Ef & Ep & Ez & _ & ->).
    rewrite Hfiles. destruct Hl as (F & _).
    destruct (ENABLED dev); simpl; by rewrite F.
Qed.

End Deletion.

(** ** The Translator *)

Section TranslatorProps.
Import Translator TranslatorSpec.
Context `{R : Runtime}.

Lemma getLanguagePhrases_cases this language w :
  (exists tree, getLanguagePhrases this language w = (Done tree, w)) \/
  (exists e, getLanguagePhrases this language w = (Throw e, w)).
Proof.
  unfold getLanguagePhrases.
  destruct (isObjectType (localeMap language)); [left; by eexists |].
  destruct (strEq language (js "custom")); [| right; by eexists].
  unfold tryCatch, readFileSync, mbind, proc_bind.
  destruct (files w !! customLocalePath this) as [[text|]|];
    try (right; by eexists).
  destruct (JSON_parse text); [right | left]; by eexists.
Qed.

(** The catalog load does not look at the canonical locale or the engine. *)
Lemma getLanguagePhrases_path this this' language w :
  customLocalePath this' = customLocalePath this ->
  getLanguagePhrases this' language w = getLanguagePhrases this language w.
Proof. intros E. unfold getLanguagePhrases. by rewrite E. Qed.

Lemma setupTranslator_loaded language isFirstTime this w tree :
  getLanguagePhrases this language w = (Done tree, w) ->
  setupTranslator language isFirstTime this w =
    (Done {| canonical := canonicalOf language;
             customLocalePath := customLocalePath this;
             polyglot := Some (Polyglot.new tree missingKeyHandler) |}, w).
Proof.
  intros E. unfold setupTranslator, tryCatch, mbind, proc_bind.
  rewrite (getLanguagePhrases_path this) by reflexivity. by rewrite E.
Qed.

Lemma setupTranslator_failed language this w e :
  getLanguagePhrases this language w = (Throw e, w) ->
  setupTranslator language true this w =
    (Fatal 0 (js "Failed to load initial language file" ++ js ": " ++ e), w) /\
  setupTranslator language false this w =
    (Done (recanonized language this), logged w [LogDirError e]).
Proof.
  intros E. unfold setupTranslator, tryCatch, mbind, proc_bind.
  rewrite (getLanguagePhrases_path this) by reflexivity. by rewrite E.
Qed.

Lemma loads_true this language w :
  loads this language w = true <->
  exists tree, getLanguagePhrases this language w = (Done tree, w).
Proof.
  unfold loads. destruct (getLanguagePhrases_cases this language w)
    as [(tree & E) | (e & E)]; rewrite E; simpl.
  - split; [by eexists | done].
  - split; [done | by intros (tree & ?)].
Qed.

Lemma defaultPhrase_default options :
  Polyglot.defaultPhrase
    (match options with VUndefined => VObj [] | _ => options end)
  = Polyglot.defaultPhrase options.
Proof. by destruct options. Qed.

(** With an engine, [t] ends normally, whatever Polyglot does. *)
Lemma t_loaded this tree key options w :
  loaded this tree -> exists s w', t this key options w = (Done s, w').
Proof.
  intros Hl. unfold t. rewrite Hl.
  unfold tryCatch, Polyglot.t. simpl.
  set (opts := match options with VUndefined => VObj [] | _ => options end).
  assert (Hi : forall phrase,
            exists s w', (match liftE (polyglot_transformPhrase phrase opts) w with
                          | (Throw _, w'0) =>
                              (console_error (js "Error performing a translation with key '"
                                                ++ key ++ js "'");; mret key) w'0
                          | r => r
                          end) = (Done s, w')).
  { intros phrase. unfold liftE.
    destruct (polyglot_transformPhrase phrase opts); by eexists _, _. }
  destruct (polyglot_extend tree !! key) as [[| | | |phrase| |]|];
    try apply Hi;
    (destruct (Polyglot.defaultPhrase opts); try apply Hi; by eexists _, _).
Qed.

Lemma t_unloaded this key options w :
  polyglot this = None ->
  t this key options w = (Throw (js "polyglot not yet loaded"), w).
Proof. intros E. unfold t. by rewrite E. Qed.

Lemma setupTranslator_engine language isFirstTime this w this' w' :
  setupTranslator language isFirstTime this w = (Done this', w') ->
  (loads this language w = true -> exists tree, loaded this' tree) /\
  (loads this language w = false -> polyglot this' = polyglot this).
Proof.
  intros E.
  destruct (getLanguagePhrases_cases this language w) as [(tree & Eg) | (e & Eg)].
  - rewrite (setupTranslator_loaded _ _ _ _ _ Eg) in E. injection E as <- <-.
    assert (Hl : loads this language w = true) by (apply loads_true; by eexists).
    rewrite Hl. split; [intros _; by exists tree | done].
  - assert (Hl : loads this language w = false).
    { unfold loads. by rewrite Eg. }
    rewrite Hl. destruct (setupTranslator_failed language this w e Eg) as [E1 E2].
    destruct isFirstTime; [by rewrite E1 in E |].
    rewrite E2 in E. injection E as <- <-. by split.
Qed.

Lemma runSetups_loaded calls : forall this w this' w',
  (exists tree, loaded this tree) ->
  runSetups calls this w = (Done this', w') ->
  exists tree, loaded this' tree.
Proof.
  induction calls as [| [language isFirstTime] calls IH]; intros this w this' w' Hl E.
  - injection E as <- _. exact Hl.
  - simpl in E. inv_bind E this1 w1 E1.
    destruct (setupTranslator_engine _ _ _ _ _ _ E1) as (H1 & H2).
    apply (IH this1 w1 this' w'); [| exact E].
    destruct (loads this language w); [by apply H1 |].
    destruct Hl as (tree & Hl). exists tree. unfold loaded in *.
    by rewrite H2.
Qed.

Lemma runSetups_everLoaded calls : forall this w this' w',
  polyglot this = None ->
  runSetups calls this w = (Done this', w') ->
  (polyglot this' = None <-> everLoaded calls this w = false) /\
  (everLoaded calls this w = true -> exists tree, loaded this' tree).
Proof.
  induction calls as [| [language isFirstTime] calls IH]; intros this w this' w' Hn E.
  - injection E as <- _. simpl. by split.
  - simpl in E. inv_bind E this1 w1 E1. simpl. rewrite E1.
    destruct (setupTranslator_engine _ _ _ _ _ _ E1) as (H1 & H2).
    destruct (loads this language w); simpl.
    + destruct (runSetups_loaded calls this1 w1 this' w' (H1 eq_refl) E)
        as (tree & Hl).
      split; [| intros _; by exists tree].
      unfold loaded in Hl. rewrite Hl. split; discriminate.
    + apply (IH this1 w1 this' w'); [| exact E]. by rewrite H2.
Qed.

End TranslatorProps.

Section TranslatorClaims.
Import Translator TranslatorSpec.
Context `{R : Runtime}.

(** C4, as the code has it.  When a reconfiguration
    ([setupTranslator(false)]) fails to load the phrase catalog, the failure
    is logged and the phrase catalog ([#polyglot]) is the previous one, so
    [t] answers as before, and without raising once a catalog was loaded;
    the canonical locale is the one of the newly configured language. *)
Theorem reconfigure_keeps_catalog (language : jsstring) (this : Translator)
    (w : world) (e : jsstring) :
  (getLanguagePhrases this language w).1 = Throw e ->
  let this' := recanonized language this in
  setupTranslator language false this w = (Done this', logged w [LogDirError e]) /\
  polyglot this' = polyglot this /\
  canonical this' = canonicalOf language /\
  (forall key options w2, t this' key options w2 = t this key options w2) /\
  (forall tree, loaded this tree ->
     forall key options w2, exists s w3, t this' key options w2 = (Done s, w3)).
Proof.
  intros E this'.
  destruct (getLanguagePhrases_cases this language w) as [(tree & Eg) | (e' & Eg)];
    rewrite Eg in E; [discriminate |]. injection E as ->.
  split; [apply (setupTranslator_failed language this w e Eg) |].
  split; [reflexivity |]. split; [reflexivity |]. split; [reflexivity |].
  intros tree Hl key options w2. by apply (t_loaded this' tree).
Qed.

(** C5, as the code has it.  Once a catalog is loaded, for a key absent
    from it and options that carry no default phrase, [t] returns the key
    itself, writes exactly one error line that names the key, and does not
    raise. *)
Theorem missing_key_fallback (this : Translator) (tree : value)
    (key : jsstring) (options : value) (w : world) :
  loaded this tree ->
  polyglot_extend tree !! key = None ->
  (forall s, Polyglot.defaultPhrase options <> VStr s) ->
  t this key options w = (Done key, logged w [missingKeyLine key]).
Proof.
  intros Hl Hk Hd. unfold t. rewrite Hl.
  unfold tryCatch, Polyglot.t. simpl. rewrite Hk, defaultPhrase_default.
  destruct (Polyglot.defaultPhrase options) as [| | | |s| |]; try reflexivity.
  by destruct (Hd s).
Qed.

(** C10. [t] raises [polyglot not yet loaded] when the engine is null
    and ends normally with a string when it is not.  A [setupTranslator]
    that loads its catalog leaves an engine, and after any history of calls
    on a new Translator the engine is null exactly when no call loaded its
    catalog: [t] raises in that case and in no other. *)
Theorem t_raises_iff_never_loaded :
  (forall this key options w,
     polyglot this = None ->
     t this key options w = (Throw (js "polyglot not yet loaded"), w)) /\
  (forall this tree key options w,
     loaded this tree -> exists s w', t this key options w = (Done s, w')) /\
  (forall language isFirstTime this w this' w',
     setupTranslator language isFirstTime this w = (Done this', w') ->
     loads this language w = true ->
     forall key options w2, exists s w3, t this' key options w2 = (Done s, w3)) /\
  (forall calls dataPath w this w',
     runSetups calls (initial dataPath) w = (Done this, w') ->
     (polyglot this = None <-> everLoaded calls (initial dataPath) w = false) /\
     forall key options w2,
       if everLoaded calls (initial dataPath) w
       then exists s w3, t this key options w2 = (Done s, w3)
       else t this key options w2 = (Throw (js "polyglot not yet loaded"), w2)).
Proof.
  split; [exact t_unloaded |]. split; [exact t_loaded |]. split.
  - intros language isFirstTime this w this' w' E Hl key options w2.
    destruct (setupTranslator_engine _ _ _ _ _ _ E) as (H1 & _).
    destruct (H1 Hl) as (tree & Ht). by apply (t_loaded this' tree).
  - intros calls dataPath w this w' E.
    destruct (runSetups_everLoaded calls (initial dataPath) w this w' eq_refl E)
      as [Hn Hl].
    split; [exact Hn |]. intros key options w2.
    destruct (everLoaded calls (initial dataPath) w).
    + destruct (Hl eq_refl) as (tree & Ht). by apply (t_loaded this tree).
    + apply t_unloaded. by apply Hn.
Qed.

End TranslatorClaims.

(** * The theorems at concrete inputs *)

Ltac evaluated E :=
  match goal with
  | |- match ?m with _ => _ end =>
      let H := fresh in
      assert (H : exists a w, m = (Done a, w))
        by (vm_compute; eexists _, _; reflexivity);
      destruct H as (? & ? & E); rewrite E
  end.

Lemma version_gate_witness :
  (supportedOs Sample.oldHost /\
   (globalData (R := Sample.rt) Sample.oldHost Demo.emptyWorld).1 = Exit 102) /\
  match globalData (R := Sample.rt) Sample.newHost Demo.emptyWorld with
  | (Done s, _) => fxServerVersion (txEnv s) = 7290
  | _ => False
  end /\
  match globalData (R := Sample.rt) Sample.customHost Demo.emptyWorld with
  | (Done s, _) => fxServerVersion (txEnv s) = 99999
  | _ => False
  end.
Proof.
  split; [| split].
  - assert (Hos : supportedOs Sample.oldHost) by (right; reflexivity).
    split; [exact Hos |].
    destruct (version_gate (R := Sample.rt) Sample.oldHost Demo.emptyWorld) as [_ P].
    assert (Ep : parseFxserverVersion (Runtime := Sample.rt)
                   (getConvarString Sample.oldHost (js "version"))
                 = FxsValid 5000 (js "master")) by (vm_compute; reflexivity).
    rewrite Ep in P. exact (proj2 P Hos).
  - evaluated E.
    destruct (version_gate (R := Sample.rt) Sample.newHost Demo.emptyWorld) as [_ P].
    assert (Ep : parseFxserverVersion (Runtime := Sample.rt)
                   (getConvarString Sample.newHost (js "version"))
                 = FxsValid 7290 (js "master")) by (vm_compute; reflexivity).
    rewrite Ep in P. exact (proj2 P _ _ E).
  - evaluated E.
    destruct (version_gate (R := Sample.rt) Sample.customHost Demo.emptyWorld) as [_ P].
    assert (Ep : parseFxserverVersion (Runtime := Sample.rt)
                   (getConvarString Sample.customHost (js "version"))
                 = FxsInvalid) by (vm_compute; reflexivity).
    rewrite Ep in P. exact (proj2 P _ _ E).
Defined.

Lemma sample_reachesProfile h :
  resolveBase (R := Sample.rt) h Demo.emptyWorld = (Done Sample.base, Demo.emptyWorld) ->
  reachesProfile (R := Sample.rt) h Demo.emptyWorld Sample.base Demo.emptyWorld.
Proof. intros E. exists Demo.emptyWorld. split; [exact E | vm_compute; reflexivity]. Qed.

Lemma dev_env_all_or_nothing_witness :
  (ENABLED Sample.devOnlySrc = true /\
   xorb (truthy (SRC_PATH Sample.devOnlySrc)) (truthy (VITE_URL Sample.devOnlySrc)) = true /\
   (globalData (R := Sample.rt) (Sample.withDev Sample.devOnlySrc) Demo.emptyWorld).1
     = Exit 108) /\
  match globalData (R := Sample.rt) (Sample.withDev Demo.devOn) Demo.emptyWorld with
  | (Done s, _) =>
      ENABLED (txDevEnv s) = true /\
      SRC_PATH (txDevEnv s) = VStr (js "/home/dev/txAdmin") /\
      VITE_URL (txDevEnv s) = VStr (js "http://localhost:40122")
  | _ => False
  end /\
  match globalData (R := Sample.rt) (Sample.withDev Sample.devOffWithPaths) Demo.emptyWorld with
  | (Done s, _) =>
      ENABLED (txDevEnv s) = false /\
      SRC_PATH (txDevEnv s) = VUndefined /\ VITE_URL (txDevEnv s) = VUndefined
  | _ => False
  end.
Proof.
  split; [| split].
  - split; [reflexivity |]. split; [reflexivity |].
    destruct (dev_env_all_or_nothing (R := Sample.rt)
                (Sample.withDev Sample.devOnlySrc) Demo.emptyWorld) as (P & _).
    apply (proj2 (P eq_refl eq_refl) Demo.emptyWorld Sample.base (js "default")).
    exists Demo.emptyWorld. split; [| vm_compute; reflexivity].
    apply sample_reachesProfile. vm_compute. reflexivity.
  - evaluated E.
    destruct (dev_env_all_or_nothing (R := Sample.rt)
                (Sample.withDev Demo.devOn) Demo.emptyWorld) as (_ & P & _).
    destruct (proj2 (P eq_refl eq_refl eq_refl) _ _ E) as (_ & H1 & H2 & H3).
    split; [exact H1 |]. split; [exact H2 | exact H3].
  - evaluated E.
    destruct (dev_env_all_or_nothing (R := Sample.rt)
                (Sample.withDev Sample.devOffWithPaths) Demo.emptyWorld) as (_ & _ & P).
    exact (proj2 (P eq_refl) _ _ E).
Defined.

Lemma profile_resolution_witness :
  (globalData (R := Sample.rt) (Sample.withProfile (js "myserver.base")) Demo.emptyWorld).1
    = Exit 113 /\
  (globalData (R := Sample.rt) (Sample.withProfile (js " !! ")) Demo.emptyWorld).1
    = Exit 114 /\
  getProfile (Sample.withProfile (js "My Server!")) Demo.emptyWorld
    = (Done (js "MyServer"), Demo.emptyWorld) /\
  match globalData (R := Sample.rt) (Sample.withProfile (js "default")) Demo.emptyWorld with
  | (Done s, _) =>
      profile (txEnv s) = js "default" /\
      profilePath (txEnv s) = js "/opt/fx/txData/default"
  | _ => False
  end.
Proof.
  split; [| split; [| split]].
  - destruct (profile_resolution (R := Sample.rt)
                (Sample.withProfile (js "myserver.base")) Demo.emptyWorld)
      as (_ & P & _).
    apply (proj2 (P eq_refl) Demo.emptyWorld Sample.base).
    apply sample_reachesProfile. vm_compute. reflexivity.
  - destruct (profile_resolution (R := Sample.rt)
                (Sample.withProfile (js " !! ")) Demo.emptyWorld)
      as (_ & _ & P & _).
    apply (proj2 (P eq_refl) Demo.emptyWorld Sample.base).
    apply sample_reachesProfile. vm_compute. reflexivity.
  - destruct (profile_resolution (R := Sample.rt)
                (Sample.withProfile (js "My Server!")) Demo.emptyWorld)
      as (_ & _ & _ & _ & _ & _ & P).
    exact (proj2 (P eq_refl)).
  - evaluated E.
    destruct (profile_resolution (R := Sample.rt)
                (Sample.withProfile (js "default")) Demo.emptyWorld)
      as (_ & _ & _ & P & _).
    assert (Hne : stripProfile (GetConvar (Sample.withProfile (js "default"))
                                  (js "serverProfile") (js "default")) <> [])
      by (vm_compute; discriminate).
    destruct (proj2 (P eq_refl Hne) _ _ E) as [H1 H2].
    split; [exact H1 |]. rewrite H2.
    apply globalData_done_txEnv in E. destruct E as (b & w1 & Eb & _ & -> & _).
    assert (Eb' : resolveBase (R := Sample.rt) (Sample.withProfile (js "default"))
                    Demo.emptyWorld
                  = (Done Sample.base, Demo.emptyWorld))
      by (vm_compute; reflexivity).
    rewrite Eb' in Eb. injection Eb as <- _. vm_compute. reflexivity.
Defined.

Lemma zap_file_with_marker_is_pterodactyl :
  zapFilePresent (R := Sample.rt) (Demo.zapWorld Demo.zapDescriptor) Sample.txData = true /\
  pteroMarker Sample.pteroHost false = true /\
  match (globalData (R := Sample.rt) Sample.pteroHost
           (Demo.zapWorld Demo.zapDescriptor)).1 with
  | Done s =>
      isWindows (txEnv s) = false /\ dataPath (txEnv s) = Sample.txData /\
      isZapHosting (convars s) = false /\ isPterodactyl (convars s) = true
  | _ => False
  end.
Proof. vm_compute. repeat split. Qed.

Lemma hosting_mode_flags_witness :
  match globalData (R := Sample.rt) Sample.pteroHost
          (Demo.zapWorld Demo.zapDescriptor) with
  | (Done s, _) =>
      isZapHosting (convars s) && isPterodactyl (convars s) = false /\
      isPterodactyl (convars s) = true /\ isZapHosting (convars s) = false
  | _ => False
  end /\
  match hostTypeCheck (R := Sample.rt) Sample.pteroHost false Sample.txData
          Demo.devOff (Demo.zapWorld Demo.zapDescriptor) with
  | (Done cv, _) =>
      isPterodactyl cv = true /\ isZapHosting cv = false /\
      forceInterface cv = VStr (js "10.0.0.5")
  | _ => False
  end.
Proof.
  split.
  - evaluated E.
    destruct (hosting_mode_flags (R := Sample.rt) Sample.pteroHost
                (Demo.zapWorld Demo.zapDescriptor)) as [_ P].
    destruct (P _ _ E) as (H1 & H2 & H3).
    split; [exact H1 |].
    apply globalData_done_txEnv in E. destruct E as (b & w1 & Eb & _ & Ed & _ & Ew).
    assert (Eb' : resolveBase (R := Sample.rt) Sample.pteroHost
                    (Demo.zapWorld Demo.zapDescriptor)
                  = (Done Sample.base, Demo.zapWorld Demo.zapDescriptor))
      by (vm_compute; reflexivity).
    rewrite Eb' in Eb. injection Eb as <- _.
    rewrite H3, H2, Ed, Ew. split; vm_compute; reflexivity.
  - evaluated E.
    destruct (hosting_mode_flags (R := Sample.rt) Sample.pteroHost
                (Demo.zapWorld Demo.zapDescriptor)) as [P _].
    destruct (P _ _ _ _ _ E) as (_ & _ & _ & H4).
    destruct (H4 eq_refl eq_refl) as (H5 & H6 & text & d & Ef & Ep & Ez).
    split; [exact H5 |]. split; [exact H6 |].
    vm_compute in Ef. injection Ef as <-.
    vm_compute in Ep. injection Ep as <-.
    vm_compute in Ez. injection Ez as <-. reflexivity.
Defined.

Lemma passing_customer_without_defaults :
  getProp Sample4.customerOnlyDescriptor (js "customer")
    = inr (VObj [(js "name", VStr (js "zapadmin"));
                 (js "password_hash", VStr (js "$2y$10$abcdefghijklmnopqrstuv"))]) /\
  validAccount (VObj [(js "name", VStr (js "zapadmin"));
                      (js "password_hash", VStr (js "$2y$10$abcdefghijklmnopqrstuv"))])
    = Some (js "zapadmin", js "$2y$10$abcdefghijklmnopqrstuv") /\
  JSON_parse (Runtime := Sample4.rt) (Demo.stringify Sample4.customerOnlyDescriptor)
    = inr Sample4.customerOnlyDescriptor /\
  hostTypeCheck (R := Sample4.rt) Sample.plainHost false Sample.txData Demo.devOff
    (Demo.zapWorld Sample4.customerOnlyDescriptor)
  = zapRejected (Demo.zapWorld Sample4.customerOnlyDescriptor)
      (js "Cannot read properties of undefined (reading 'license')") /\
  (globalData (R := Sample4.rt) Sample.plainHost
     (Demo.zapWorld Sample4.customerOnlyDescriptor)).1 = Exit 109.
Proof. vm_compute. repeat split. Qed.

Lemma zap_customer_validation_witness :
  hostTypeCheck (R := Sample.rt) Sample.plainHost false Sample.txData Demo.devOff
    (Demo.zapWorld Sample.plainHashDescriptor)
  = zapRejected (Demo.zapWorld Sample.plainHashDescriptor)
      (js "customer.password_hash is not a bcrypt hash.") /\
  globalData (R := Sample.rt) Sample.plainHost (Demo.zapWorld Sample.plainHashDescriptor)
  = (Exit 109,
     logged (Demo.zapWorld Sample.plainHashDescriptor)
       [zapLoadingLine;
        zapFailureLine (js "customer.password_hash is not a bcrypt hash.")]) /\
  hostTypeCheck (R := Sample.rt) Sample.plainHost false Sample.txData Demo.devOff
    (Sample4.lockedZapWorld Demo.zapDescriptor)
  = zapRejected (Sample4.lockedZapWorld Demo.zapDescriptor) Sample4.unlinkError /\
  exists s w',
    globalData (R := Sample.rt) Sample.plainHost (Demo.zapWorld Demo.zapDescriptor)
      = (Done s, w') /\
    defaultMasterAccount (convars s)
      = Some (js "zapadmin", js "$2y$10$abcdefghijklmnopqrstuv").
Proof.
  assert (Hr : forall d,
            reachesHostCheck (R := Sample.rt) Sample.plainHost (Demo.zapWorld d)
              Sample.base (js "default") Demo.devOff (Demo.zapWorld d)).
  { intros d. exists (Demo.zapWorld d). split; [| reflexivity].
    exists (Demo.zapWorld d). split; [| reflexivity].
    exists (Demo.zapWorld d). split; reflexivity. }
  assert (F1 : forall d,
            files (Demo.zapWorld d) !! zapCfgFileOf (R := Sample.rt) Sample.txData
            = Some (File (Demo.stringify d))).
  { intros d. unfold Demo.zapWorld, Demo.worldWith. simpl.
    change (zapCfgFileOf (R := Sample.rt) Sample.txData) with Demo.zapFile.
    apply lookup_insert_eq. }
  assert (E1 : JSON_parse (Runtime := Sample.rt) (Demo.stringify Sample.plainHashDescriptor)
               = inr Sample.plainHashDescriptor) by (vm_compute; reflexivity).
  assert (E2 : JSON_parse (Runtime := Sample.rt) (Demo.stringify Demo.zapDescriptor)
               = inr Demo.zapDescriptor) by (vm_compute; reflexivity).
  assert (D1 : hasDefaults Sample.plainHashDescriptor)
    by (eexists; split; [reflexivity | by split]).
  assert (D2 : hasDefaults Demo.zapDescriptor)
    by (eexists; split; [reflexivity | by split]).
  pose proof (zap_customer_validation (R := Sample.rt) Sample.plainHost false
                Sample.txData Demo.devOff (Demo.zapWorld Sample.plainHashDescriptor)
                (Demo.stringify Sample.plainHashDescriptor) Sample.plainHashDescriptor
                (VObj [(js "name", VStr (js "zapadmin"));
                       (js "password_hash", VStr (js "hunter2"))])
                (VStr (js "zapadmin")) (VStr (js "hunter2"))
                (F1 _) E1 eq_refl eq_refl eq_refl eq_refl) as Pbad.
  pose proof (zap_customer_validation (R := Sample.rt) Sample.plainHost false
                Sample.txData Demo.devOff (Demo.zapWorld Demo.zapDescriptor)
                (Demo.stringify Demo.zapDescriptor) Demo.zapDescriptor
                (VObj [(js "name", VStr (js "zapadmin"));
                       (js "password_hash", VStr (js "$2y$10$abcdefghijklmnopqrstuv"))])
                (VStr (js "zapadmin")) (VStr (js "$2y$10$abcdefghijklmnopqrstuv"))
                (F1 _) E2 eq_refl eq_refl eq_refl eq_refl) as Pok.
  pose proof (zap_customer_validation (R := Sample.rt) Sample.plainHost false
                Sample.txData Demo.devOff (Sample4.lockedZapWorld Demo.zapDescriptor)
                (Demo.stringify Demo.zapDescriptor) Demo.zapDescriptor
                (VObj [(js "name", VStr (js "zapadmin"));
                       (js "password_hash", VStr (js "$2y$10$abcdefghijklmnopqrstuv"))])
                (VStr (js "zapadmin")) (VStr (js "$2y$10$abcdefghijklmnopqrstuv"))
                (F1 _) E2 eq_refl eq_refl eq_refl eq_refl) as Plocked.
  cbv zeta in Pbad, Pok, Plocked.
  destruct Pbad as (B & _ & _ & Bm).
  destruct (B eq_refl) as (_ & Bd).
  destruct (Bd D1) as (_ & _ & _ & B4).
  assert (L8 : (3 <= length (js "zapadmin"))%nat) by (vm_compute; lia).
  pose proof (B4 _ _ eq_refl L8 eq_refl eq_refl) as Eb.
  split; [exact Eb |].
  split; [exact (proj1 (Bm _ _ _ (Hr _) eq_refl eq_refl) _ _ Eb) |].
  split.
  - destruct Plocked as (_ & L & _).
    destruct (L _ _ eq_refl) as (_ & _ & _ & Ll).
    exact (Ll D2 Sample4.unlinkError eq_refl eq_refl).
  - destruct Pok as (_ & G & _ & Gm).
    destruct (G _ _ eq_refl) as (_ & _ & Gd & _).
    destruct (Gd D2 (or_intror eq_refl)) as (cv & w1 & Ec & Ea).
    destruct (proj2 (Gm _ _ _ (Hr _) eq_refl eq_refl) _ _ Ec) as (s & w2 & Eg & Es).
    exists s, w2. split; [exact Eg |]. by rewrite Es.
Defined.

Lemma locked_zap_file_stays :
  JSON_parse (Runtime := Sample.rt) (Demo.stringify Demo.zapDescriptor)
    = inr Demo.zapDescriptor /\
  (exists cv, readZapConfig Demo.zapDescriptor false true = inr cv) /\
  ENABLED Demo.devOff = false /\
  match hostTypeCheck (R := Sample.rt) Sample.plainHost false Sample.txData
          Demo.devOff (Sample4.lockedZapWorld Demo.zapDescriptor) with
  | (Exit code, w') =>
      code = 109 /\
      files w' !! Demo.zapFile = Some (File (Demo.stringify Demo.zapDescriptor))
  | _ => False
  end /\
  match hostTypeCheck (R := Sample.rt) Sample.plainHost false Sample.txData
          Demo.devOn (Sample4.lockedZapWorld Demo.zapDescriptor) with
  | (Done _, w') =>
      files w' !! Demo.zapFile = Some (File (Demo.stringify Demo.zapDescriptor))
  | _ => False
  end /\
  (globalData (R := Sample.rt) Sample.plainHost
     (Sample4.lockedZapWorld Demo.zapDescriptor)).1 = Exit 109 /\
  match (globalData (R := Sample.rt) (Sample.withDev Demo.devOn)
           (Sample4.lockedZapWorld Demo.zapDescriptor)).1 with
  | Done _ => True
  | _ => False
  end.
Proof.
  vm_compute. repeat split. eexists. reflexivity.
Qed.

Lemma zap_file_deletion_witness :
  zapFilePresent (R := Sample.rt) (Demo.zapWorld Demo.zapDescriptor) Sample.txData = true /\
  match globalData (R := Sample.rt) Sample.plainHost
          (Demo.zapWorld Demo.zapDescriptor) with
  | (Done s, w') => ENABLED (txDevEnv s) = false /\ files w' = ∅
  | _ => False
  end /\
  match globalData (R := Sample.rt) (Sample.withDev Demo.devOn)
          (Demo.zapWorld Demo.zapDescriptor) with
  | (Done s, w') =>
      ENABLED (txDevEnv s) = true /\
      files w' = files (Demo.zapWorld Demo.zapDescriptor)
  | _ => False
  end /\
  (exists cv w' w'',
    hostTypeCheck (R := Sample.rt) Sample.plainHost false Sample.txData
      Demo.devOff (Demo.zapWorld Demo.zapDescriptor) = (Done cv, w') /\
    files w' !! zapCfgFileOf (R := Sample.rt) Sample.txData = None /\
    hostTypeCheck (R := Sample.rt) Sample.plainHost false Sample.txData
      Demo.devOn (Demo.zapWorld Demo.zapDescriptor) = (Done cv, w'') /\
    console w'' = console w') /\
  hostTypeCheck (R := Sample.rt) Sample.plainHost false Sample.txData
    Demo.devOff (Sample4.lockedZapWorld Demo.zapDescriptor)
  = zapRejected (Sample4.lockedZapWorld Demo.zapDescriptor) Sample4.unlinkError.
Proof.
  assert (Hf : zapFilePresent (R := Sample.rt)
                 (Demo.zapWorld Demo.zapDescriptor) Sample.txData = true)
    by (vm_compute; reflexivity).
  split; [exact Hf |]. split; [| split; [| split]].
  - evaluated E.
    destruct (zap_file_deletion (R := Sample.rt) Sample.plainHost
                (Demo.zapWorld Demo.zapDescriptor)) as (_ & _ & P).
    pose proof (P _ _ E) as Q.
    pose proof E as E'. apply globalData_done_inv in E'.
    destruct E' as (b & profile & dev & w4 & cv & w5 & Hr & _ & Hp).
    destruct (publish_done (R := Sample.rt) b profile dev cv w5) as (w6 & Hp' & _).
    rewrite Hp' in Hp. injection Hp as <- _.
    destruct Hr as (w3 & (w2 & (w1 & Eb & _) & _) & Ed).
    assert (Eb' : resolveBase (R := Sample.rt) Sample.plainHost
                    (Demo.zapWorld Demo.zapDescriptor)
                  = (Done Sample.base, Demo.zapWorld Demo.zapDescriptor))
      by (vm_compute; reflexivity).
    rewrite Eb' in Eb. injection Eb as <- _.
    change (getTxDevEnv Sample.plainHost w3) with (Done Demo.devOff, w3) in Ed.
    injection Ed as <- _. simpl in Q. split; [reflexivity |].
    rewrite (Q Hf). vm_compute. reflexivity.
  - evaluated E.
    destruct (zap_file_deletion (R := Sample.rt) (Sample.withDev Demo.devOn)
                (Demo.zapWorld Demo.zapDescriptor)) as (_ & _ & P).
    pose proof (P _ _ E) as Q.
    pose proof E as E'. apply globalData_done_inv in E'.
    destruct E' as (b & profile & dev & w4 & cv & w5 & Hr & _ & Hp).
    destruct (publish_done (R := Sample.rt) b profile dev cv w5) as (w6 & Hp' & _).
    rewrite Hp' in Hp. injection Hp as <- _.
    destruct Hr as (w3 & (w2 & (w1 & Eb & _) & _) & Ed).
    assert (Eb' : resolveBase (R := Sample.rt) (Sample.withDev Demo.devOn)
                    (Demo.zapWorld Demo.zapDescriptor)
                  = (Done Sample.base, Demo.zapWorld Demo.zapDescriptor))
      by (vm_compute; reflexivity).
    rewrite Eb' in Eb. injection Eb as <- _.
    change (getTxDevEnv (Sample.withDev Demo.devOn) w3)
      with (Done Demo.devOn, logged w3 [LogLog (js "Starting txAdmin in DEV mode.")]) in Ed.
    injection Ed as <- _. simpl in Q. split; [reflexivity |].
    exact (Q Hf).
  - assert (Hrun : exists cv w',
              hostTypeCheck (R := Sample.rt) Sample.plainHost false Sample.txData
                Demo.devOff (Demo.zapWorld Demo.zapDescriptor) = (Done cv, w')).
    { destruct (hostTypeCheck (R := Sample.rt) Sample.plainHost false Sample.txData
                  Demo.devOff (Demo.zapWorld Demo.zapDescriptor))
        as [[cv| | |] w'] eqn:E;
        [eexists _, _; reflexivity | exfalso; vm_compute in E; discriminate ..]. }
    destruct Hrun as (cv & w' & E).
    destruct (zap_file_deletion (R := Sample.rt) Sample.plainHost
                (Demo.zapWorld Demo.zapDescriptor)) as (_ & P & _).
    destruct (P _ _ _ _ _ Hf E) as (_ & H2 & _ & _ & H4).
    destruct (H4 Demo.devOn (or_introl eq_refl)) as (w'' & E2 & Hc & _).
    exists cv, w', w''.
    split; [exact E |]. split; [exact (proj2 H2 eq_refl) |].
    split; [exact E2 | exact Hc].
  - assert (Ep : JSON_parse (Runtime := Sample.rt) (Demo.stringify Demo.zapDescriptor)
                 = inr Demo.zapDescriptor) by (vm_compute; reflexivity).
    assert (Ez : exists cv,
              readZapConfig Demo.zapDescriptor
                (pteroMarker Sample.plainHost false)
                (negb (pteroMarker Sample.plainHost false)) = inr cv)
      by (vm_compute; eexists; reflexivity).
    destruct Ez as (cv & Ez).
    destruct (zap_file_deletion (R := Sample.rt) Sample.plainHost
                (Sample4.lockedZapWorld Demo.zapDescriptor)) as (P & _ & _).
    destruct (P false Sample.txData Demo.devOff _ _ cv eq_refl Ep Ez) as (_ & _ & P3).
    destruct (P3 Sample4.unlinkError eq_refl eq_refl) as [E _].
    exact E.
Defined.

Lemma reconfigure_changes_canonical :
  (Translator.constructor (R := SampleTranslator.rt) Sample.txData (js "en")
     SampleTranslator.brokenWorld).1 = Done SampleTranslator.english /\
  (Translator.getLanguagePhrases (R := SampleTranslator.rt) SampleTranslator.english
     (js "custom") SampleTranslator.brokenWorld).1 = Throw SampleTranslator.loadError /\
  match (Translator.setupTranslator (R := SampleTranslator.rt) (js "custom") false
           SampleTranslator.english SampleTranslator.brokenWorld).1 with
  | Done this' =>
      Translator.canonical SampleTranslator.english = js "en" /\
      Translator.canonical this' = js "custom" /\
      this' <> SampleTranslator.english
  | _ => False
  end.
Proof.
  split; [vm_compute; reflexivity |]. split; [vm_compute; reflexivity |].
  change (Translator.setupTranslator (R := SampleTranslator.rt) (js "custom") false
            SampleTranslator.english SampleTranslator.brokenWorld).1
    with (Done (A := Translator.Translator)
            (TranslatorSpec.recanonized (R := SampleTranslator.rt) (js "custom")
               SampleTranslator.english)).
  split; [reflexivity |]. split; [vm_compute; reflexivity |].
  intros E. apply (f_equal Translator.canonical) in E. vm_compute in E. discriminate.
Qed.

Lemma reconfigure_keeps_catalog_witness :
  (Translator.getLanguagePhrases (R := SampleTranslator.rt) SampleTranslator.english
     (js "custom") SampleTranslator.brokenWorld).1 = Throw SampleTranslator.loadError /\
  Translator.setupTranslator (R := SampleTranslator.rt) (js "custom") false
    SampleTranslator.english SampleTranslator.brokenWorld
  = (Done (TranslatorSpec.recanonized (R := SampleTranslator.rt) (js "custom")
             SampleTranslator.english),
     logged SampleTranslator.brokenWorld [LogDirError SampleTranslator.loadError]) /\
  Translator.polyglot (TranslatorSpec.recanonized (R := SampleTranslator.rt) (js "custom")
                         SampleTranslator.english)
  = Translator.polyglot SampleTranslator.english.
Proof.
  assert (E : (Translator.getLanguagePhrases (R := SampleTranslator.rt)
                 SampleTranslator.english (js "custom") SampleTranslator.brokenWorld).1
              = Throw SampleTranslator.loadError) by (vm_compute; reflexivity).
  split; [exact E |].
  destruct (reconfigure_keeps_catalog (R := SampleTranslator.rt) (js "custom")
              SampleTranslator.english SampleTranslator.brokenWorld
              SampleTranslator.loadError E) as (H1 & H2 & _).
  split; [exact H1 | exact H2].
Defined.

Lemma missing_key_raises_before_load :
  Translator.polyglot (TranslatorSpec.initial (R := SampleTranslator.rt) Sample.txData)
    = None /\
  Translator.t (R := SampleTranslator.rt)
    (TranslatorSpec.initial (R := SampleTranslator.rt) Sample.txData)
    (js "missing.key") (VObj []) Demo.emptyWorld
  = (Throw (js "polyglot not yet loaded"), Demo.emptyWorld) /\
  polyglot_extend (Runtime := SampleTranslator.rt) Demo.english !! js "missing.key" = None /\
  Translator.t (R := SampleTranslator.rt) SampleTranslator.english (js "missing.key")
    (VObj [(js "_", VStr (js "no such phrase"))]) Demo.emptyWorld
  = (Done (js "no such phrase"), Demo.emptyWorld).
Proof.
  split; [reflexivity |]. split; [reflexivity |].
  split; vm_compute; reflexivity.
Qed.

Lemma missing_key_fallback_witness :
  TranslatorSpec.loaded (R := SampleTranslator.rt) SampleTranslator.english Demo.english /\
  polyglot_extend (Runtime := SampleTranslator.rt) Demo.english !! js "missing.key" = None /\
  Translator.t (R := SampleTranslator.rt) SampleTranslator.english (js "missing.key")
    (VObj []) Demo.emptyWorld
  = (Done (js "missing.key"),
     logged Demo.emptyWorld [TranslatorSpec.missingKeyLine (js "missing.key")]).
Proof.
  assert (Hl : TranslatorSpec.loaded (R := SampleTranslator.rt)
                 SampleTranslator.english Demo.english) by reflexivity.
  assert (Hk : polyglot_extend (Runtime := SampleTranslator.rt) Demo.english
                 !! js "missing.key" = None) by (vm_compute; reflexivity).
  split; [exact Hl |]. split; [exact Hk |].
  apply (missing_key_fallback (R := SampleTranslator.rt) SampleTranslator.english
           Demo.english (js "missing.key") (VObj []) Demo.emptyWorld Hl Hk).
  intros s. simpl. discriminate.
Defined.

Lemma t_raises_iff_never_loaded_witness :
  TranslatorSpec.everLoaded (R := SampleTranslator.rt)
    [(js "custom", false); (js "en", false)]
    (TranslatorSpec.initial (R := SampleTranslator.rt) Sample.txData)
    SampleTranslator.brokenWorld = true /\
  match Translator.runSetups (R := SampleTranslator.rt)
          [(js "custom", false); (js "en", false)]
          (TranslatorSpec.initial (R := SampleTranslator.rt) Sample.txData)
          SampleTranslator.brokenWorld with
  | (Done this, _) =>
      exists s w3,
        Translator.t (R := SampleTranslator.rt) this (js "missing.key") (VObj [])
          Demo.emptyWorld = (Done s, w3)
  | _ => False
  end /\
  match Translator.runSetups (R := SampleTranslator.rt)
          [(js "custom", false)]
          (TranslatorSpec.initial (R := SampleTranslator.rt) Sample.txData)
          SampleTranslator.brokenWorld with
  | (Done this, _) =>
      Translator.t (R := SampleTranslator.rt) this (js "missing.key") (VObj [])
        Demo.emptyWorld
      = (Throw (js "polyglot not yet loaded"), Demo.emptyWorld)
  | _ => False
  end /\
  (TranslatorSpec.loads (R := SampleTranslator.rt)
     (TranslatorSpec.initial (R := SampleTranslator.rt) Sample.txData) (js "en")
     SampleTranslator.brokenWorld = true /\
   match Translator.setupTranslator (R := SampleTranslator.rt) (js "en") true
           (TranslatorSpec.initial (R := SampleTranslator.rt) Sample.txData)
           SampleTranslator.brokenWorld with
   | (Done this, _) =>
       exists s w3,
         Translator.t (R := SampleTranslator.rt) this
           (js "kick_messages.everyone") VUndefined Demo.emptyWorld = (Done s, w3)
   | _ => False
   end).
Proof.
  assert (E1 : TranslatorSpec.everLoaded (R := SampleTranslator.rt)
                 [(js "custom", false); (js "en", false)]
                 (TranslatorSpec.initial (R := SampleTranslator.rt) Sample.txData)
                 SampleTranslator.brokenWorld = true) by (vm_compute; reflexivity).
  assert (E2 : TranslatorSpec.everLoaded (R := SampleTranslator.rt)
                 [(js "custom", false)]
                 (TranslatorSpec.initial (R := SampleTranslator.rt) Sample.txData)
                 SampleTranslator.brokenWorld = false) by (vm_compute; reflexivity).
  split; [exact E1 |].
  destruct (t_raises_iff_never_loaded (R := SampleTranslator.rt)) as (_ & _ & S & P).
  split; [| split].
  - evaluated E. destruct (P _ _ _ _ _ E) as [_ Q].
    specialize (Q (js "missing.key") (VObj []) Demo.emptyWorld).
    rewrite E1 in Q. exact Q.
  - evaluated E. destruct (P _ _ _ _ _ E) as [_ Q].
    specialize (Q (js "missing.key") (VObj []) Demo.emptyWorld).
    rewrite E2 in Q. exact Q.
  - assert (Hl : TranslatorSpec.loads (R := SampleTranslator.rt)
                   (TranslatorSpec.initial (R := SampleTranslator.rt) Sample.txData)
                   (js "en") SampleTranslator.brokenWorld = true)
      by (vm_compute; reflexivity).
    split; [exact Hl |].
    evaluated E.
    exact (S _ _ _ _ _ _ E Hl
             (js "kick_messages.everyone") VUndefined Demo.emptyWorld).
Defined.

(** * Further properties of the environment module *)

(** ** How the module can end *)

Section Outcomes.
Context `{R : Runtime}.

Lemma extendsLog_diagnosed w1 w2 w3 :
  extendsLog w1 w2 -> diagnosed w2 w3 -> diagnosed w1 w3.
Proof.
  intros (F1 & I1 & C1 & l1 & L1) (F2 & I2 & C2 & l2 & L2 & He).
  repeat split; try congruence.
  exists (l1 ++ l2). split; [by rewrite L2, L1, app_assoc |].
  rewrite existsb_app, He. apply orb_true_r.
Qed.

Lemma failsAfterError_ret {A} P (a : A) : failsAfterError P (mret a).
Proof. intros w. apply extendsLog_refl. Qed.

Lemma failsAfterError_exit {A} (P : Z -> Prop) c : P c -> failsAfterError P (@process_exit A c).
Proof. intros Hc w. split; [done | apply extendsLog_refl]. Qed.

Lemma failsAfterError_emit {A} P l (m : Proc A) :
  failsAfterError P m -> failsAfterError P (emit l;; m).
Proof.
  intros Hm w. unfold mbind, proc_bind. rewrite emit_logged.
  specialize (Hm (logged w [l])).
  assert (Hl : extendsLog w (logged w [l])) by (repeat split; by exists [l]).
  destruct (m (logged w [l])) as [[a|c| |] w']; try done.
  - eapply extendsLog_trans; eauto.
  - destruct Hm as [Hc Hm]. split; [done |]. eapply extendsLog_trans; eauto.
Qed.

Lemma failsLoudly_ret {A} P (a : A) : failsLoudly P (mret a).
Proof. intros w. apply extendsLog_refl. Qed.

Lemma failsLoudly_error {A} P text (m : Proc A) :
  failsAfterError P m -> failsLoudly P (console_error text;; m).
Proof.
  intros Hm w. unfold console_error, mbind, proc_bind. rewrite emit_logged.
  specialize (Hm (logged w [LogError [text]])).
  assert (Hl : extendsLog w (logged w [LogError [text]]))
    by (repeat split; by eexists [_]).
  destruct (m (logged w [LogError [text]])) as [[a|c| |] w']; try done.
  - eapply extendsLog_trans; eauto.
  - destruct Hm as [Hc (F & I & C & l & L)]. split; [done |].
    repeat split; simpl in *; try congruence.
    exists (LogError [text] :: l). split; [| done].
    rewrite L. simpl. by rewrite <- app_assoc.
Qed.

Lemma failsLoudly_quiet {A} P l (m : Proc A) :
  failsLoudly P m -> failsLoudly P (emit l;; m).
Proof.
  intros Hm w. unfold mbind, proc_bind. rewrite emit_logged.
  specialize (Hm (logged w [l])).
  assert (Hl : extendsLog w (logged w [l])) by (repeat split; by exists [l]).
  destruct (m (logged w [l])) as [[a|c| |] w']; try done.
  - eapply extendsLog_trans; eauto.
  - destruct Hm as [Hc Hm]. split; [done |]. eapply extendsLog_diagnosed; eauto.
Qed.

Lemma failsLoudly_bind {A B} P (m : Proc A) (f : A -> Proc B) :
  failsLoudly P m -> (forall a, failsLoudly P (f a)) -> failsLoudly P (m ≫= f).
Proof.
  intros Hm Hf w. specialize (Hm w). unfold mbind, proc_bind.
  destruct (m w) as [[a|c| |] w1]; try done.
  specialize (Hf a w1). destruct (f a w1) as [[b|c| |] w2]; try done.
  - eapply extendsLog_trans; eauto.
  - destruct Hf as [Hc Hd]. split; [done |]. eapply extendsLog_diagnosed; eauto.
Qed.

Lemma failsLoudly_weaken {A} (P Q : Z -> Prop) (m : Proc A) :
  (forall c, P c -> Q c) -> failsLoudly P m -> failsLoudly Q m.
Proof.
  intros HPQ Hm w. specialize (Hm w).
  destruct (m w) as [[a|c| |] w']; try done.
  destruct Hm as [Hc Hd]. split; [by apply HPQ | done].
Qed.

End Outcomes.

Ltac fails_loudly :=
  repeat match goal with
    | |- failsLoudly _ (mret _) => apply failsLoudly_ret
    | |- failsLoudly _ (console_error _;; _) => apply failsLoudly_error
    | |- failsLoudly _ (console_warn _;; _) => apply failsLoudly_quiet
    | |- failsLoudly _ (console_log _;; _) => apply failsLoudly_quiet
    | |- failsAfterError _ (mret _) => apply failsAfterError_ret
    | |- failsAfterError _ (process_exit _) => apply failsAfterError_exit; reflexivity
    | |- failsAfterError _ (console_error _;; _) => apply failsAfterError_emit
    | |- failsAfterError _ (console_log _;; _) => apply failsAfterError_emit
    | |- failsLoudly _ _ => case_match
    | |- failsAfterError _ _ => case_match
    end.

Section StageOutcomes.
Context `{R : Runtime}.

Lemma getOsType_fails h : failsLoudly (fun c => c = 100) (getOsType h).
Proof. unfold getOsType. fails_loudly. Qed.

Lemma getFxServerVersion_fails h : failsLoudly (fun c => c = 102) (getFxServerVersion h).
Proof. unfold getFxServerVersion. fails_loudly. Qed.

Lemma getTxAdminVersion_fails h : failsLoudly (fun c => c = 103) (getTxAdminVersion h).
Proof. unfold getTxAdminVersion. fails_loudly. Qed.

Lemma getTxAdminResourcePath_fails h :
  failsLoudly (fun c => c = 104) (getTxAdminResourcePath h).
Proof. unfold getTxAdminResourcePath. fails_loudly. Qed.

Lemma getFxServerPath_fails h : failsLoudly (fun c => c = 105) (getFxServerPath h).
Proof. unfold getFxServerPath. fails_loudly. Qed.

Lemma winRarGuard_fails b p : failsLoudly (fun c => c = 112) (winRarGuard b p).
Proof. unfold winRarGuard. fails_loudly. Qed.

Lemma checkNonASCII_fails v p d : failsLoudly (fun c => c = 107) (checkNonASCII v p d).
Proof. unfold checkNonASCII. fails_loudly. Qed.

Lemma getProfile_fails h : failsLoudly (fun c => c = 113 \/ c = 114) (getProfile h).
Proof.
  unfold getProfile. case_match.
  - apply failsLoudly_error, failsAfterError_exit. by left.
  - case_match; [| apply failsLoudly_ret].
    apply failsLoudly_error, failsAfterError_exit. by right.
Qed.

Lemma getTxDevEnv_fails h : failsLoudly (fun c => c = 108) (getTxDevEnv h).
Proof. unfold getTxDevEnv. fails_loudly. Qed.

End StageOutcomes.


Ltac in_codes :=
  unfold moduleExitCodes;
  repeat match goal with
    | H : _ \/ _ |- _ => destruct H as [H | H]
    | H : _ ∈ _ :: _ |- _ => apply elem_of_cons in H
    | H : _ ∈ [] |- _ => by apply elem_of_nil in H
    | H : ?c = _ |- _ ∈ _ => subst c
    end;
  rewrite !elem_of_cons; auto 20.

Section ModuleOutcomes.
Context `{R : Runtime}.

Lemma resolveBase_fails h :
  failsLoudly (fun c => c ∈ [100; 102; 103; 104; 105; 112]) (resolveBase h).
Proof.
  unfold resolveBase.
  apply failsLoudly_bind; [| intros [osType isWindows]].
  { eapply failsLoudly_weaken; [| apply getOsType_fails]. intros c Hc. in_codes. }
  apply failsLoudly_bind; [| intros v].
  { eapply failsLoudly_weaken; [| apply getFxServerVersion_fails]. intros c Hc. in_codes. }
  apply failsLoudly_bind; [| intros tv].
  { eapply failsLoudly_weaken; [| apply getTxAdminVersion_fails]. intros c Hc. in_codes. }
  apply failsLoudly_bind; [| intros rp].
  { eapply failsLoudly_weaken; [| apply getTxAdminResourcePath_fails]. intros c Hc. in_codes. }
  apply failsLoudly_bind; [| intros fp].
  { eapply failsLoudly_weaken; [| apply getFxServerPath_fails]. intros c Hc. in_codes. }
  apply failsLoudly_bind; [| intros _; apply failsLoudly_ret].
  eapply failsLoudly_weaken; [| apply winRarGuard_fails]. intros c Hc. in_codes.
Qed.

Lemma loadConvarConfig_fails h p :
  failsLoudly (fun c => c = 110 \/ c = 111) (loadConvarConfig h p).
Proof.
  unfold loadConvarConfig. case_match.
  - apply failsLoudly_error, failsAfterError_exit. by left.
  - apply failsLoudly_bind; [| intros ?; apply failsLoudly_ret].
    repeat case_match; try apply failsLoudly_ret.
    apply failsLoudly_error, failsAfterError_exit. by right.
Qed.

Lemma diagnosed_logged w l :
  existsb isErrorLine l = true -> diagnosed w (logged w l).
Proof. intros He. repeat split. by exists l. Qed.

(** With a directory in place of the ZAP configuration file. *)
Lemma hostTypeCheck_directory_world h isw dp dev w :
  files w !! zapCfgFileOf dp = Some Directory ->
  hostTypeCheck h isw dp dev w =
    (Exit 109,
     logged w [zapLoadingLine;
               LogError [js "Failed to load with ZAP-Hosting configuration error: "
                           ++ js "EISDIR: illegal operation on a directory, read"]]).
Proof.
  intros Ef. unfold hostTypeCheck, existsSync, mbind at 1, proc_bind at 1.
  rewrite Ef. rewrite bool_decide_eq_true_2 by (by eexists).
  unfold console_log, mbind at 1, proc_bind at 1. rewrite emit_logged.
  unfold tryCatch, loadZapConfig, readFileSync, mbind at 1, proc_bind at 1.
  assert (Ef1 : files (logged w [LogLog (js "Loading ZAP-Hosting configuration file.")])
                  !! zapCfgFileOf dp = Some Directory) by exact Ef.
  rewrite Ef1. unfold console_error, mbind, proc_bind. rewrite emit_logged.
  unfold process_exit. by rewrite logged_logged.
Qed.

Lemma hostTypeCheck_outcome h isw dp dev w :
  match hostTypeCheck h isw dp dev w with
  | (Done _, _) => True
  | (Exit c, w') => (c = 109 \/ c = 110 \/ c = 111) /\ diagnosed w w'
  | _ => False
  end.
Proof.
  destruct (files w !! zapCfgFileOf dp) as [[text|]|] eqn:Ef.
  - rewrite (hostTypeCheck_file_outcome _ _ _ _ _ _ Ef).
    assert (Hd : forall e, diagnosed w (zapRejected w e).2)
      by (intros e; by apply diagnosed_logged).
    destruct (_ ≫= _) as [e | cv]; [split; [by left | apply Hd] |].
    destruct (ENABLED dev); [done |].
    destruct (locked w !! zapCfgFileOf dp) as [e |]; [| done].
    split; [by left | apply Hd].
  - rewrite (hostTypeCheck_directory_world _ _ _ _ _ Ef).
    split; [by left |]. by apply diagnosed_logged.
  - rewrite (hostTypeCheck_nofile _ _ _ _ _ Ef).
    pose proof (loadConvarConfig_fails h (pteroMarker h isw) w) as Hl.
    destruct (loadConvarConfig h (pteroMarker h isw) w) as [[cv|c| |] w']; try done.
    destruct Hl as [[-> | ->] Hd]; split; auto.
Qed.

Lemma globalData_outcome h w :
  match globalData h w with
  | (Done _, _) => True
  | (Exit c, w') => c ∈ moduleExitCodes /\ diagnosed w w'
  | _ => False
  end.
Proof.
  unfold globalData.
  pose proof (resolveBase_fails h w) as Hb.
  unfold mbind at 1, proc_bind at 1.
  destruct (resolveBase h w) as [[b|c| |] w1]; try done.
  2:{ destruct Hb as [Hc Hd]. split; [| done]. in_codes. }
  pose proof (checkNonASCII_fails (b_fxServerVersion b) (b_fxServerPath b) (b_dataPath b) w1) as Ha.
  unfold mbind at 1, proc_bind at 1.
  destruct (checkNonASCII _ _ _ w1) as [[u|c| |] w2]; try done.
  2:{ destruct Ha as [Hc Hd]. split; [in_codes |].
      eapply extendsLog_diagnosed; eauto. }
  pose proof (getProfile_fails h w2) as Hp.
  unfold mbind at 1, proc_bind at 1.
  destruct (getProfile h w2) as [[profile|c| |] w3]; try done.
  2:{ destruct Hp as [Hc Hd]. split; [in_codes |].
      eapply extendsLog_diagnosed; [| exact Hd]. eapply extendsLog_trans; eauto. }
  pose proof (getTxDevEnv_fails h w3) as Hv.
  unfold mbind at 1, proc_bind at 1.
  destruct (getTxDevEnv h w3) as [[dev|c| |] w4]; try done.
  2:{ destruct Hv as [Hc Hd]. split; [in_codes |].
      eapply extendsLog_diagnosed; [| exact Hd].
      eapply extendsLog_trans; [| exact Hp]. eapply extendsLog_trans; eauto. }
  assert (H04 : extendsLog w w4).
  { eapply extendsLog_trans; [| exact Hv]. eapply extendsLog_trans; [| exact Hp].
    eapply extendsLog_trans; eauto. }
  pose proof (hostTypeCheck_outcome h (b_isWindows b) (b_dataPath b) dev w4) as Hh.
  unfold mbind at 1, proc_bind at 1.
  destruct (hostTypeCheck h _ _ dev w4) as [[cv|c| |] w5]; try done.
  2:{ destruct Hh as [Hc Hd]. split; [in_codes |].
      eapply extendsLog_diagnosed; eauto. }
  destruct (publish_done b profile dev cv w5) as (w6 & -> & _). done.
Qed.

(** X1. The module ends in one of two ways only: it publishes its
    snapshot, or the process exits with one of the thirteen codes of the
    module; no exception escapes it.  When it exits, the file system, the
    local address list and the console data are as they were, and at least
    one error line was written to the console. *)
Theorem module_ends_loudly (h : host) (w : world) :
  match globalData h w with
  | (Done _, _) => True
  | (Exit c, w') =>
      c ∈ moduleExitCodes /\
      files w' = files w /\ localIps w' = localIps w /\
      consoleEnvData w' = consoleEnvData w /\
      exists l, console w' = console w ++ l /\ existsb isErrorLine l = true
  | (Throw _, _) | (Fatal _ _, _) => False
  end.
Proof.
  pose proof (globalData_outcome h w) as Ho.
  destruct (globalData h w) as [[s|c| |] w']; [exact I | | exact Ho | exact Ho].
  destruct Ho as [Hc (F & I & C & l & L & He)].
  split; [exact Hc |]. split; [exact F |]. split; [exact I |].
  split; [exact C |]. by exists l.
Qed.

End ModuleOutcomes.

(** ** Convars *)

Section Convars.
Context `{R : Runtime}.

Lemma trimStart_spec s :
  exists pre, s = pre ++ trimStart s /\ blank pre /\
    forall c r, trimStart s = c :: r -> isWhiteSpace c = false.
Proof.
  induction s as [| c s (pre & E & Hb & Hh)].
  - exists []. repeat split; [constructor | discriminate].
  - simpl. destruct (isWhiteSpace c) eqn:Ec.
    + exists (c :: pre). split; [simpl; by rewrite <- E |].
      split; [by constructor | exact Hh].
    + exists []. split; [done |]. split; [constructor |].
      intros c' r' E'. by injection E' as <- _.
Qed.

Lemma trim_spec s :
  exists pre post, s = pre ++ trim s ++ post /\ blank pre /\ blank post /\
    edgesClean (trim s).
Proof.
  unfold trim.
  destruct (trimStart_spec s) as (pre & E1 & Hpre & Hh1).
  set (u := trimStart s) in *.
  destruct (trimStart_spec (reverse u)) as (tail & E2 & Htail & Hh2).
  set (v := trimStart (reverse u)) in *.
  assert (Eu : u = reverse v ++ reverse tail).
  { rewrite <- (reverse_involutive u), E2. apply reverse_app. }
  exists pre, (reverse tail). split; [by rewrite E1 at 1; rewrite Eu |].
  split; [exact Hpre |]. split; [by apply Forall_reverse |].
  split.
  - intros c r Er. apply (Hh1 c (r ++ reverse tail)).
    by rewrite Eu, Er.
  - intros c r Er. apply (Hh2 c (reverse r)).
    rewrite <- (reverse_involutive v), Er, reverse_app. reflexivity.
Qed.

Lemma getFxServerPath_spec h w :
  match getConvarString h (js "citizen_root") with
  | VStr (c :: rest) => getFxServerPath h w = (Done (cleanPath (c :: rest)), w)
  | _ =>
      getFxServerPath h w =
        (Exit 105, logged w [LogError [js "citizen_root convar not set"]])
  end.
Proof.
  unfold getFxServerPath.
  destruct (getConvarString h (js "citizen_root")) as [| | | |[|c rest]| |];
    reflexivity.
Qed.

(** X2. [getConvarString] answers [false] exactly when the convar,
    trimmed, reads [false], which is the case of a convar that is not set;
    otherwise it answers the trimmed value.  A string answer never reads
    [false], has no white space at either end, and is the raw value less
    white space at its two ends. *)
Theorem getConvarString_trimmed (h : host) (convarName : jsstring) :
  let raw := GetConvar h convarName (js "false") in
  (convarStore h !! convarName = None -> getConvarString h convarName = VBool false) /\
  (getConvarString h convarName = VBool false <-> trim raw = js "false") /\
  (forall s, getConvarString h convarName = VStr s ->
     s = trim raw /\ s <> js "false" /\ edgesClean s /\
     exists pre post, raw = pre ++ s ++ post /\ blank pre /\ blank post).
Proof.
  intros raw. unfold getConvarString. fold raw. unfold strEq.
  split; [| split].
  - intros En. unfold raw, GetConvar. rewrite En. reflexivity.
  - case_bool_decide as Ht; [done |]. split; [discriminate | done].
  - intros s. case_bool_decide as Ht; [discriminate |].
    intros E. injection E as <-. split; [done |]. split; [done |].
    destruct (trim_spec raw) as (pre & post & E & Hpre & Hpost & Hc).
    split; [exact Hc |]. by exists pre, post.
Qed.

End Convars.

Lemma getConvarString_trimmed_witness :
  getConvarString (Sample.withVersion "  FXServer-master SERVER v1.0.0.7290 linux ")
    (js "version")
  = VStr (js "FXServer-master SERVER v1.0.0.7290 linux") /\
  getConvarString Sample.newHost (js "txAdminInterface") = VBool false.
Proof.
  split.
  - assert (E : getConvarString
                  (Sample.withVersion "  FXServer-master SERVER v1.0.0.7290 linux ")
                  (js "version")
                = VStr (js "FXServer-master SERVER v1.0.0.7290 linux"))
      by (vm_compute; reflexivity).
    destruct (getConvarString_trimmed
                (Sample.withVersion "  FXServer-master SERVER v1.0.0.7290 linux ")
                (js "version")) as (_ & _ & P).
    destruct (P _ E) as (-> & _). exact E.
  - destruct (getConvarString_trimmed Sample.newHost (js "txAdminInterface")) as (P & _).
    apply P. vm_compute. reflexivity.
Defined.

(** ** The first stages, on the whole module *)

Section FirstStages.
Context `{R : Runtime}.

Lemma resolveBase_done_inv h w b w1 :
  resolveBase h w = (Done b, w1) ->
  exists wa wb wc wd we,
    getOsType h w = (Done (b_osType b, b_isWindows b), wa) /\
    getFxServerVersion h wa = (Done (b_fxServerVersion b), wb) /\
    getTxAdminVersion h wb = (Done (b_txAdminVersion b), wc) /\
    getTxAdminResourcePath h wc = (Done (b_txAdminResourcePath b), wd) /\
    getFxServerPath h wd = (Done (b_fxServerPath b), we) /\
    winRarGuard (b_isWindows b) (b_fxServerPath b) we = (Done tt, w1) /\
    b_dataPath b = getDataPath h (b_isWindows b) (b_fxServerPath b).
Proof.
  intros E. unfold resolveBase in E.
  inv_bind E r wa Ea. destruct r as [osType isWindows].
  inv_bind E v wb Eb. inv_bind E tv wc Ec. inv_bind E rp wd Ed.
  inv_bind E fp we Ee. inv_bind E u wf Ef. destruct u.
  injection E as <- <-. simpl. by exists wa, wb, wc, wd, we.
Qed.

(** What a published snapshot was made of. *)
Lemma globalData_done_parts h w s w' :
  globalData h w = (Done s, w') ->
  exists b profile dev cv w1 w2 w3 w4 w5,
    resolveBase h w = (Done b, w1) /\
    checkNonASCII (b_fxServerVersion b) (b_fxServerPath b) (b_dataPath b) w1
      = (Done tt, w2) /\
    getProfile h w2 = (Done profile, w3) /\
    getTxDevEnv h w3 = (Done dev, w4) /\
    hostTypeCheck h (b_isWindows b) (b_dataPath b) dev w4 = (Done cv, w5) /\
    publish b profile dev cv w5 = (Done s, w') /\
    s = {| txDevEnv := dev;
           txEnv := {| osType := b_osType b; isWindows := b_isWindows b;
                       fxServerVersion := b_fxServerVersion b;
                       txAdminVersion := b_txAdminVersion b;
                       txAdminResourcePath := b_txAdminResourcePath b;
                       fxServerPath := b_fxServerPath b;
                       dataPath := b_dataPath b;
                       profile := profile;
                       profilePath := cleanPath (path_join [b_dataPath b; profile]) |};
           convars := cv |}.
Proof.
  intros E. apply globalData_done_inv in E.
  destruct E as (b & profile & dev & w4 & cv & w5 & Hr & Eh & Hp).
  destruct Hr as (w3 & (w2 & (w1 & Eb & Ea) & Ep) & Ed).
  exists b, profile, dev, cv, w1, w2, w3, w4, w5.
  repeat (split; [done |]).
  destruct (publish_done b profile dev cv w5) as (w6 & Hp' & _).
  rewrite Hp' in Hp. by injection Hp as <- _.
Qed.

Lemma getOsType_spec h w :
  getOsType h w =
    if bool_decide (os_type h = js "Windows_NT") then (Done (js "windows", true), w)
    else if bool_decide (os_type h = js "Linux") then (Done (js "linux", false), w)
    else (Exit 100, logged w [LogError [js "OS type not supported: " ++ os_type h]]).
Proof. unfold getOsType, strEq. by repeat case_bool_decide. Qed.

Lemma os_type_check_parts h w s w' :
  globalData h w = (Done s, w') ->
  (os_type h = js "Windows_NT" /\ osType (txEnv s) = js "windows" /\
   isWindows (txEnv s) = true) \/
  (os_type h = js "Linux" /\ osType (txEnv s) = js "linux" /\
   isWindows (txEnv s) = false).
Proof.
  intros E. apply globalData_done_parts in E.
  destruct E as (b & profile & dev & cv & w1 & w2 & w3 & w4 & w5 & Eb & _ & _ & _ & _ & _ & ->).
  apply resolveBase_done_inv in Eb.
  destruct Eb as (wa & _ & _ & _ & _ & Eo & _). rewrite getOsType_spec in Eo. simpl.
  case_bool_decide as H1; [injection Eo as <- <- _; by left |].
  case_bool_decide as H2; [injection Eo as <- <- _; by right | discriminate].
Qed.

(** X3. An OS type other than [Windows_NT] and [Linux] ends the process
    with exit code 100 before anything else is looked at, with one error
    line that names it.  In a published snapshot [osType] and [isWindows]
    agree with each other and with the OS type. *)
Theorem os_type_check (h : host) (w : world) :
  (~ supportedOs h ->
   globalData h w =
     (Exit 100, logged w [LogError [js "OS type not supported: " ++ os_type h]])) /\
  (forall s w', globalData h w = (Done s, w') ->
     (os_type h = js "Windows_NT" /\ osType (txEnv s) = js "windows" /\
      isWindows (txEnv s) = true) \/
     (os_type h = js "Linux" /\ osType (txEnv s) = js "linux" /\
      isWindows (txEnv s) = false)).
Proof.
  pose proof (getOsType_spec h) as Hos. split.
  - intros Hn. unfold globalData, resolveBase.
    apply bind_exit, bind_exit. rewrite Hos.
    rewrite !bool_decide_eq_false_2; [done | |]; intros E; apply Hn; [by right | by left].
  - intros s w' E. exact (os_type_check_parts h w s w' E).
Qed.

Lemma getFxServerVersion_spec h w :
  getFxServerVersion h w =
    match parseFxserverVersion (getConvarString h (js "version")) with
    | FxsInvalid =>
        (Done 99999,
         logged w
           [LogError [js "It looks like you are running a custom build of fxserver."];
            LogError [js "And because of that, there is no guarantee that txAdmin will work properly."]])
    | FxsValid build branch =>
        if build <? minFXServerVersion then
          (Exit 102,
           logged w [LogError [js "This version of FXServer is too outdated and NOT compatible with txAdmin, please update to artifact/build "
                                 ++ ofZ minFXServerVersion ++ js " or newer!"]])
        else if bool_decide (branch = js "master") then (Done build, w)
        else (Done build,
              logged w [LogWarn (js "You are running a custom branch of FXServer: " ++ branch)])
    end.
Proof.
  unfold getFxServerVersion, strEq.
  destruct (parseFxserverVersion _) as [build branch |].
  - destruct (build <? minFXServerVersion); [reflexivity |].
    by case_bool_decide.
  - unfold console_error, mbind, proc_bind. rewrite !emit_logged.
    by rewrite logged_logged.
Qed.

(** X4. A build at or above the minimum on a branch other than [master]
    passes with exactly one warning line that names the branch, and on
    [master] with nothing written.  Every published snapshot has an
    [fxServerVersion] of at least 5894. *)
Theorem branch_warning_and_version_bound (h : host) (w : world) :
  (forall build branch,
     parseFxserverVersion (getConvarString h (js "version")) = FxsValid build branch ->
     5894 <= build ->
     (branch <> js "master" ->
      getFxServerVersion h w =
        (Done build,
         logged w [LogWarn (js "You are running a custom branch of FXServer: " ++ branch)])) /\
     (branch = js "master" -> getFxServerVersion h w = (Done build, w))) /\
  (forall s w', globalData h w = (Done s, w') -> 5894 <= fxServerVersion (txEnv s)).
Proof.
  split.
  - intros build branch Ep Hb. rewrite getFxServerVersion_spec, Ep.
    unfold minFXServerVersion.
    rewrite (proj2 (Z.ltb_ge build 5894) Hb).
    split; intros Hbr; by case_bool_decide.
  - intros s w' E. rewrite (globalData_version h w s w' E).
    apply globalData_done_parts in E.
    destruct E as (b & profile & dev & cv & w1 & w2 & w3 & w4 & w5 & Eb & _).
    apply resolveBase_done_inv in Eb.
    destruct Eb as (wa & wb & _ & _ & _ & _ & Ev & _).
    rewrite getFxServerVersion_spec in Ev. unfold fxServerVersionOf.
    destruct (parseFxserverVersion _) as [build branch |]; [| lia].
    unfold minFXServerVersion in Ev.
    destruct (Z.ltb_spec build 5894); [discriminate | lia].
Qed.

End FirstStages.

Lemma os_type_check_witness :
  ~ supportedOs Sample2.macHost /\
  (globalData (R := Sample.rt) Sample2.macHost Demo.emptyWorld).1 = Exit 100 /\
  match globalData (R := Sample.rt) Sample2.windowsHost Demo.emptyWorld with
  | (Done s, _) => osType (txEnv s) = js "windows" /\ isWindows (txEnv s) = true
  | _ => False
  end.
Proof.
  assert (Hn : ~ supportedOs Sample2.macHost).
  { intros [E | E]; vm_compute in E; discriminate. }
  split; [exact Hn |]. split.
  - destruct (os_type_check (R := Sample.rt) Sample2.macHost Demo.emptyWorld) as [P _].
    by rewrite (P Hn).
  - evaluated E.
    destruct (os_type_check (R := Sample.rt) Sample2.windowsHost Demo.emptyWorld) as [_ P].
    destruct (P _ _ E) as [(_ & H1 & H2) | (H0 & _)]; [by split |].
    vm_compute in H0. discriminate.
Defined.

Lemma branch_warning_and_version_bound_witness :
  getFxServerVersion (R := Sample.rt) Sample2.windowsHost Demo.emptyWorld =
    (Done 7290,
     logged Demo.emptyWorld
       [LogWarn (js "You are running a custom branch of FXServer: " ++ js "feature/x")]) /\
  match globalData (R := Sample.rt) Sample2.windowsHost Demo.emptyWorld with
  | (Done s, _) => 5894 <= fxServerVersion (txEnv s)
  | _ => False
  end.
Proof.
  split.
  - destruct (branch_warning_and_version_bound (R := Sample.rt) Sample2.windowsHost
                Demo.emptyWorld) as [P _].
    assert (Ep : parseFxserverVersion (Runtime := Sample.rt)
                   (getConvarString Sample2.windowsHost (js "version"))
                 = FxsValid 7290 (js "feature/x")) by (vm_compute; reflexivity).
    assert (Hb : 5894 <= 7290) by lia.
    apply (proj1 (P _ _ Ep Hb)). vm_compute. discriminate.
  - evaluated E.
    destruct (branch_warning_and_version_bound (R := Sample.rt) Sample2.windowsHost
                Demo.emptyWorld) as [_ P].
    exact (P _ _ E).
Defined.

(** ** The patterns *)

Section Patterns.

Lemma testAnywhere_spec f s :
  testAnywhere f s = true <-> exists pre suf, s = pre ++ suf /\ f suf = true.
Proof.
  induction s as [| c s IH]; simpl.
  - rewrite orb_false_r. split.
    + intros E. by exists [], [].
    + intros (pre & suf & E & Hf). symmetry in E.
      apply app_eq_nil in E as [_ ->]. exact Hf.
  - rewrite orb_true_iff, IH. split.
    + intros [Hf | (pre & suf & -> & Hf)].
      * by exists [], (c :: s).
      * by exists (c :: pre), suf.
    + intros (pre & suf & E & Hf). destruct pre as [| c' pre]; simpl in E.
      * left. by rewrite E.
      * right. injection E as -> ->. by exists pre, suf.
Qed.

Lemma matchCI_spec pat s r :
  matchCI pat s = Some r <-> exists t, s = t ++ r /\ sameLetters t pat.
Proof.
  revert s. induction pat as [| p pat IH]; intros s; simpl.
  - split.
    + intros E. injection E as <-. exists []. split; [done | constructor].
    + intros (t & -> & Ht). by inversion Ht.
  - destruct s as [| c s].
    + split; [discriminate |]. intros (t & E & Ht). inversion Ht; subst. discriminate.
    + destruct (ciChar p c) eqn:Ec.
      * rewrite IH. split.
        -- intros (t & -> & Ht). exists (c :: t). split; [done | by constructor].
        -- intros (t & E & Ht). inversion Ht as [| c' p' t' pat' Hc Ht']; subst.
           injection E as -> ->. by exists t'.
      * split; [discriminate |].
        intros (t & E & Ht). inversion Ht as [| c' p' t' pat' Hc Ht']; subst.
        injection E as -> _. congruence.
Qed.

Lemma skipWhile_app f a r :
  Forall (fun c => f c = true) a ->
  (forall c r', r = c :: r' -> f c = false) ->
  skipWhile f (a ++ r) = r.
Proof.
  intros Ha Hr. induction Ha as [| c a Hc _ IH]; simpl.
  - destruct r as [| c r']; [done |]. simpl. by rewrite (Hr c r' eq_refl).
  - by rewrite Hc.
Qed.

Lemma skipWhile_spec f s :
  exists a, s = a ++ skipWhile f s /\ Forall (fun c => f c = true) a.
Proof.
  induction s as [| c s (a & E & Ha)]; simpl.
  - by exists [].
  - destruct (f c) eqn:Ec.
    + exists (c :: a). split; [simpl; by rewrite <- E | by constructor].
    + by exists [].
Qed.

Lemma winRarTemp_at_spec s :
  winRarTemp_at s = true <->
  exists t seps r post,
    s = t ++ seps ++ r ++ [36%N] ++ post /\
    sameLetters t (js "temp") /\ slashes seps /\ sameLetters r (js "rar").
Proof.
  unfold winRarTemp_at. split.
  - destruct (matchCI (js "temp") s) as [[| c rest] |] eqn:Et; try discriminate.
    apply matchCI_spec in Et as (t & -> & Ht).
    intros E. apply andb_true_iff in E as [Hc E].
    destruct (matchCI (js "rar") (skipWhile isSlash rest)) as [[| d post] |] eqn:Er;
      try discriminate.
    apply N.eqb_eq in E as ->.
    apply matchCI_spec in Er as (r & Er & Hr).
    destruct (skipWhile_spec isSlash rest) as (a & Ea & Ha).
    exists t, (c :: a), r, post. split; [| split; [done | split; [| done]]].
    + rewrite Ea at 1. rewrite Er. reflexivity.
    + split; [discriminate | by constructor].
  - intros (t & seps & r & post & -> & Ht & [Hne Hs] & Hr).
    rewrite (proj2 (matchCI_spec (js "temp") _ (seps ++ r ++ [36%N] ++ post)))
      by (by exists t).
    destruct Hs as [| c seps Hc Hs]; [done |]. cbn [app]. rewrite Hc. cbn [andb].
    rewrite skipWhile_app; [| exact Hs |].
    + rewrite (proj2 (matchCI_spec (js "rar") _ ([36%N] ++ post))) by (by exists r).
      reflexivity.
    + intros c' r' E. inversion Hr as [| x l xs ls Hx Hxs]; subst.
      cbn [app] in E. injection E as <- _.
      unfold ciChar in Hx. unfold isSlash.
      apply orb_true_iff in Hx as [Hx | Hx]; apply N.eqb_eq in Hx; subst; reflexivity.
Qed.

Lemma winRarTempRegex_test_spec path :
  winRarTempRegex_test path = true <-> insideWinRarTemp path.
Proof.
  unfold winRarTempRegex_test, insideWinRarTemp. rewrite testAnywhere_spec. split.
  - intros (pre & suf & -> & Hs). apply winRarTemp_at_spec in Hs.
    destruct Hs as (t & seps & r & post & -> & H). by exists pre, t, seps, r, post.
  - intros (pre & t & seps & r & post & -> & H).
    exists pre, (t ++ seps ++ r ++ [36%N] ++ post). split; [done |].
    apply winRarTemp_at_spec. by exists t, seps, r, post.
Qed.

End Patterns.

Section PathStages.
Context `{R : Runtime}.

Lemma winRarGuard_spec isWindows path w :
  winRarGuard isWindows path w =
    if isWindows && winRarTempRegex_test path then
      (Exit 112,
       logged w
         [LogError [js "It looks like you ran FXServer inside WinRAR without extracting it first."];
          LogError [js "Please extract the server files to a proper folder before running it."]])
    else (Done tt, w).
Proof.
  unfold winRarGuard. destruct (isWindows && _); [| reflexivity].
  unfold console_error, mbind, proc_bind. rewrite !emit_logged.
  by rewrite logged_logged.
Qed.

(** X5. The WinRAR pattern matches exactly the paths that hold [Temp],
    one or more slashes or backslashes, and [Rar$], in any letter case.  On
    Windows such a server path ends the process with exit code 112 and any
    other passes with nothing written; on Linux the guard never fires.  No
    snapshot published on Windows has such a server path. *)
Theorem winrar_guard (w : world) :
  (forall path, winRarTempRegex_test path = true <-> insideWinRarTemp path) /\
  (forall path, insideWinRarTemp path -> (winRarGuard true path w).1 = Exit 112) /\
  (forall path, ~ insideWinRarTemp path -> winRarGuard true path w = (Done tt, w)) /\
  (forall path, winRarGuard false path w = (Done tt, w)) /\
  (forall h s w', globalData h w = (Done s, w') ->
     isWindows (txEnv s) = true -> ~ insideWinRarTemp (fxServerPath (txEnv s))).
Proof.
  split; [exact winRarTempRegex_test_spec |]. split; [| split; [| split]].
  - intros path Hp. apply winRarTempRegex_test_spec in Hp.
    by rewrite winRarGuard_spec, Hp.
  - intros path Hp. rewrite winRarGuard_spec.
    destruct (winRarTempRegex_test path) eqn:Et; [| done].
    by apply winRarTempRegex_test_spec in Et.
  - intros path. by rewrite winRarGuard_spec.
  - intros h s w' E Hw Hp. apply globalData_done_parts in E.
    destruct E as (b & profile & dev & cv & w1 & w2 & w3 & w4 & w5 & Eb & _ & _ & _ & _ & _ & ->).
    apply resolveBase_done_inv in Eb.
    destruct Eb as (wa & wb & wc & wd & we & _ & _ & _ & _ & _ & Eg & _).
    simpl in Hw, Hp. apply winRarTempRegex_test_spec in Hp.
    rewrite winRarGuard_spec, Hw, Hp in Eg. discriminate.
Qed.

Lemma getTxAdminVersion_spec h w :
  getTxAdminVersion h w =
    match resourceVersion h with
    | VStr v =>
        if bool_decide (v = js "null")
        then (Exit 103, logged w [LogError [js "txAdmin version not set or in the wrong format"]])
        else (Done v, w)
    | _ => (Exit 103, logged w [LogError [js "txAdmin version not set or in the wrong format"]])
    end.
Proof.
  unfold getTxAdminVersion, strEq.
  destruct (resourceVersion h); try reflexivity. by case_bool_decide.
Qed.

Lemma getTxAdminResourcePath_spec h w :
  getTxAdminResourcePath h w =
    match resourcePath h with
    | VStr p =>
        if bool_decide (p = js "null")
        then (Exit 104, logged w [LogError [js "Could not resolve txAdmin resource path"]])
        else (Done (cleanPath p), w)
    | _ => (Exit 104, logged w [LogError [js "Could not resolve txAdmin resource path"]])
    end.
Proof.
  unfold getTxAdminResourcePath, strEq.
  destruct (resourcePath h); try reflexivity. by case_bool_decide.
Qed.

(** X6. A resource version that is not a string, or is the string
    [null], ends the process with exit code 103, and a resource path of that
    kind with exit code 104.  In a published snapshot [txAdminVersion] is
    the resource version as it was given, and [txAdminResourcePath] the
    cleaned resource path; neither source reads [null]. *)
Theorem resource_version_and_path (h : host) (w : world) :
  ((forall v, resourceVersion h = VStr v -> v = js "null") ->
   (getTxAdminVersion h w).1 = Exit 103) /\
  ((forall p, resourcePath h = VStr p -> p = js "null") ->
   (getTxAdminResourcePath h w).1 = Exit 104) /\
  (forall s w', globalData h w = (Done s, w') ->
     resourceVersion h = VStr (txAdminVersion (txEnv s)) /\
     txAdminVersion (txEnv s) <> js "null" /\
     exists p, resourcePath h = VStr p /\ p <> js "null" /\
               txAdminResourcePath (txEnv s) = cleanPath p).
Proof.
  split; [| split].
  - intros Hv. rewrite getTxAdminVersion_spec.
    destruct (resourceVersion h) as [| | | |v| |]; try reflexivity.
    by rewrite bool_decide_eq_true_2 by (by apply Hv).
  - intros Hp. rewrite getTxAdminResourcePath_spec.
    destruct (resourcePath h) as [| | | |p| |]; try reflexivity.
    by rewrite bool_decide_eq_true_2 by (by apply Hp).
  - intros s w' E. apply globalData_done_parts in E.
    destruct E as (b & profile & dev & cv & w1 & w2 & w3 & w4 & w5 & Eb & _ & _ & _ & _ & _ & ->).
    apply resolveBase_done_inv in Eb.
    destruct Eb as (wa & wb & wc & wd & we & _ & _ & Ev & Ep & _).
    rewrite getTxAdminVersion_spec in Ev. rewrite getTxAdminResourcePath_spec in Ep.
    simpl.
    destruct (resourceVersion h) as [| | | |v| |]; try discriminate.
    case_bool_decide as Hv; [discriminate |]. injection Ev as <- _.
    destruct (resourcePath h) as [| | | |p| |]; try discriminate.
    case_bool_decide as Hp; [discriminate |]. injection Ep as <- _.
    split; [done |]. split; [done |]. by exists p.
Qed.

(** X7. A [citizen_root] convar that is not set, reads [false] or is
    blank ends the process with exit code 105.  In a published snapshot the
    server path is the cleaned, trimmed convar, which is neither empty nor
    [false]. *)
Theorem citizen_root_required (h : host) (w : world) :
  let raw := GetConvar h (js "citizen_root") (js "false") in
  (trim raw = js "false" \/ trim raw = [] ->
   getFxServerPath h w = (Exit 105, logged w [LogError [js "citizen_root convar not set"]])) /\
  (convarStore h !! js "citizen_root" = None -> (getFxServerPath h w).1 = Exit 105) /\
  (forall s w', globalData h w = (Done s, w') ->
     fxServerPath (txEnv s) = cleanPath (trim raw) /\
     trim raw <> [] /\ trim raw <> js "false").
Proof.
  intros raw.
  pose proof (getFxServerPath_spec h) as Hs.
  unfold getConvarString, strEq in Hs. fold raw in Hs.
  split; [| split].
  - intros [Ht | Ht]; rewrite Ht in Hs; apply Hs.
  - intros En. specialize (Hs w). unfold raw, GetConvar in Hs. rewrite En in Hs.
    simpl in Hs. by rewrite Hs.
  - intros s w' E. apply globalData_done_parts in E.
    destruct E as (b & profile & dev & cv & w1 & w2 & w3 & w4 & w5 & Eb & _ & _ & _ & _ & _ & ->).
    apply resolveBase_done_inv in Eb.
    destruct Eb as (wa & wb & wc & wd & we & _ & _ & _ & _ & Ef & _).
    specialize (Hs wd). rewrite Ef in Hs. simpl.
    case_bool_decide as Ht; [discriminate |].
    destruct (trim raw) as [| c rest]; [discriminate |].
    injection Hs as -> _. by split.
Qed.

(** X8. The data path of a published snapshot is the cleaned [txDataPath]
    convar when that is set to something other than [false] or blanks;
    otherwise it is [txData] next to the server path: one level up on
    Windows, three levels up on Linux. *)
Theorem data_path_resolution (h : host) (w : world) (s : snapshot) (w' : world) :
  globalData h w = (Done s, w') ->
  let raw := GetConvar h (js "txDataPath") (js "false") in
  (trim raw <> [] -> trim raw <> js "false" ->
   dataPath (txEnv s) = cleanPath (trim raw)) /\
  (trim raw = [] \/ trim raw = js "false" ->
   dataPath (txEnv s) =
     cleanPath (path_join [fxServerPath (txEnv s);
                           (if isWindows (txEnv s) then js ".." else js "../../../");
                           js "txData"])).
Proof.
  intros E raw. apply globalData_done_parts in E.
  destruct E as (b & profile & dev & cv & w1 & w2 & w3 & w4 & w5 & Eb & _ & _ & _ & _ & _ & ->).
  apply resolveBase_done_inv in Eb.
  destruct Eb as (wa & wb & wc & wd & we & _ & _ & _ & _ & _ & _ & Ed).
  simpl. rewrite Ed. unfold getDataPath, getConvarString, strEq. fold raw.
  split.
  - intros H1 H2. rewrite bool_decide_eq_false_2 by done.
    by destruct (trim raw).
  - intros [Ht | Ht]; rewrite Ht; reflexivity.
Qed.

(** X9. In a published snapshot no code unit of the server path or of
    the data path is above U+0080. *)
Theorem published_paths_charset (h : host) (w : world) (s : snapshot) (w' : world) :
  globalData h w = (Done s, w') ->
  forall c, c ∈ fxServerPath (txEnv s) ++ dataPath (txEnv s) -> (c <= 128)%N.
Proof.
  intros E c Hc. apply globalData_done_parts in E.
  destruct E as (b & profile & dev & cv & w1 & w2 & w3 & w4 & w5 & _ & Ea & _ & _ & _ & _ & ->).
  simpl in Hc.
  pose proof (checkNonASCII_spec (b_fxServerVersion b) (b_fxServerPath b) (b_dataPath b) w1) as Hs.
  rewrite Ea in Hs. simpl in Hs.
  destruct (existsb above80 _) eqn:Ex; [discriminate |].
  apply N.ltb_ge. apply not_true_iff_false. intros Hgt.
  apply not_true_iff_false in Ex. apply Ex. apply existsb_exists.
  exists c. split; [by apply list_elem_of_In | exact Hgt].
Qed.

End PathStages.

Tactic Notation "evaluated" ident(E) "as" ident(s) ident(w) :=
  match goal with
  | |- match ?m with _ => _ end =>
      let H := fresh in
      assert (H : exists a w0, m = (Done a, w0))
        by (vm_compute; eexists _, _; reflexivity);
      destruct H as (s & w & E); rewrite E
  end.

Lemma winrar_guard_witness :
  insideWinRarTemp (js "C:/Users/me/AppData/Local/Temp/Rar$EXa12/fx/citizen/") /\
  (winRarGuard true (js "C:/Users/me/AppData/Local/Temp/Rar$EXa12/fx/citizen/")
     Demo.emptyWorld).1 = Exit 112 /\
  ~ insideWinRarTemp (js "C:/fx/citizen/") /\
  winRarGuard true (js "C:/fx/citizen/") Demo.emptyWorld = (Done tt, Demo.emptyWorld) /\
  match globalData (R := Sample.rt) Sample2.windowsHost Demo.emptyWorld with
  | (Done s, _) =>
      isWindows (txEnv s) = true /\ ~ insideWinRarTemp (fxServerPath (txEnv s))
  | _ => False
  end.
Proof.
  destruct (winrar_guard (R := Sample.rt) Demo.emptyWorld) as (P1 & P2 & P3 & P4 & P5).
  assert (Hin : insideWinRarTemp (js "C:/Users/me/AppData/Local/Temp/Rar$EXa12/fx/citizen/"))
    by (apply P1; reflexivity).
  assert (Hout : ~ insideWinRarTemp (js "C:/fx/citizen/")).
  { intros Hp. apply P1 in Hp. discriminate. }
  split; [exact Hin |]. split; [exact (P2 _ Hin) |].
  split; [exact Hout |]. split; [exact (P3 _ Hout) |].
  evaluated E as s w'.
  assert (Hw : isWindows (txEnv s) = true).
  { destruct (os_type_check_parts (R := Sample.rt) Sample2.windowsHost Demo.emptyWorld s w' E)
      as [(_ & _ & Hw) | (H0 & _)]; [exact Hw |].
    vm_compute in H0. discriminate. }
  split; [exact Hw |]. exact (P5 _ _ _ E Hw).
Defined.

Lemma resource_version_and_path_witness :
  (getTxAdminVersion Sample2.nullVersionHost Demo.emptyWorld).1 = Exit 103 /\
  (getTxAdminResourcePath (R := Sample.rt) Sample2.noPathHost Demo.emptyWorld).1 = Exit 104 /\
  match globalData (R := Sample.rt) Sample.newHost Demo.emptyWorld with
  | (Done s, _) =>
      txAdminVersion (txEnv s) = js "7.3.2" /\ txAdminVersion (txEnv s) <> js "null"
  | _ => False
  end.
Proof.
  split; [| split].
  - destruct (resource_version_and_path (R := Sample.rt) Sample2.nullVersionHost
                Demo.emptyWorld) as (P & _).
    apply P. intros v E. by injection E as <-.
  - destruct (resource_version_and_path (R := Sample.rt) Sample2.noPathHost
                Demo.emptyWorld) as (_ & P & _).
    apply P. intros p E. discriminate.
  - evaluated E as s w'.
    destruct (resource_version_and_path (R := Sample.rt) Sample.newHost
                Demo.emptyWorld) as (_ & _ & P).
    destruct (P _ _ E) as (Hv & Hn & _). split; [| exact Hn].
    change (resourceVersion Sample.newHost) with (VStr (js "7.3.2")) in Hv.
    by injection Hv as <-.
Defined.

Lemma citizen_root_required_witness :
  trim (GetConvar Sample2.noRootHost (js "citizen_root") (js "false")) = [] /\
  (getFxServerPath (R := Sample.rt) Sample2.noRootHost Demo.emptyWorld).1 = Exit 105 /\
  match globalData (R := Sample.rt) Sample.newHost Demo.emptyWorld with
  | (Done s, _) => fxServerPath (txEnv s) = js "/opt/fx/alpine/opt/cfx-server/citizen/"
  | _ => False
  end.
Proof.
  assert (Ht : trim (GetConvar Sample2.noRootHost (js "citizen_root") (js "false")) = [])
    by (vm_compute; reflexivity).
  split; [exact Ht |]. split.
  - destruct (citizen_root_required (R := Sample.rt) Sample2.noRootHost Demo.emptyWorld)
      as (P & _).
    by rewrite (P (or_intror Ht)).
  - evaluated E as s w'.
    destruct (citizen_root_required (R := Sample.rt) Sample.newHost Demo.emptyWorld)
      as (_ & _ & P).
    destruct (P _ _ E) as (-> & _). vm_compute. reflexivity.
Defined.

Lemma data_path_resolution_witness :
  match globalData (R := Sample.rt) Sample.newHost Demo.emptyWorld with
  | (Done s, _) => dataPath (txEnv s) = js "/opt/fx/txData"
  | _ => False
  end /\
  match globalData (R := Sample.rt) Sample2.windowsHost Demo.emptyWorld with
  | (Done s, _) =>
      dataPath (txEnv s) =
        cleanPath (R := Sample.rt)
          (path_join (Runtime := Sample.rt) [fxServerPath (txEnv s); js ".."; js "txData"])
  | _ => False
  end.
Proof.
  split.
  - evaluated E as s w'.
    destruct (data_path_resolution (R := Sample.rt) _ _ _ _ E) as [P _].
    rewrite P; [vm_compute; reflexivity | vm_compute; discriminate ..].
  - evaluated E as s w'.
    destruct (data_path_resolution (R := Sample.rt) _ _ _ _ E) as [_ P].
    rewrite P by (right; vm_compute; reflexivity).
    destruct (os_type_check_parts (R := Sample.rt) _ _ _ _ E)
      as [(_ & _ & ->) | (H0 & _)]; [reflexivity |].
    vm_compute in H0. discriminate.
Defined.

Lemma published_paths_charset_witness :
  match globalData (R := Sample.rt) Sample.u0080Host Demo.emptyWorld with
  | (Done s, _) =>
      forall c, c ∈ fxServerPath (txEnv s) ++ dataPath (txEnv s) -> (c <= 128)%N
  | _ => False
  end.
Proof.
  evaluated E as s w'.
  exact (published_paths_charset (R := Sample.rt) _ _ _ _ E).
Defined.

(** ** The profile of a snapshot *)

Section PublishedProfile.
Context `{R : Runtime}.

Lemma startsWith_prefix s p : startsWith s p = true <-> exists r, s = p ++ r.
Proof.
  split; [| intros (r & ->); apply startsWith_app].
  revert s. induction p as [| c p IH]; intros s E.
  - by exists s.
  - destruct s as [| d s]; [discriminate |]. simpl in E.
    apply andb_true_iff in E as [Ec E]. apply N.eqb_eq in Ec as ->.
    destruct (IH s E) as (r & ->). by exists r.
Qed.

Lemma endsWith_suffix s p : endsWith s p = true <-> exists x, s = x ++ p.
Proof.
  split; [| intros (x & ->); apply endsWith_app].
  unfold endsWith. intros E. apply startsWith_prefix in E as (r & E).
  exists (reverse r). rewrite <- (reverse_involutive s), E, reverse_app.
  by rewrite reverse_involutive.
Qed.

Lemma stripProfile_clean s :
  Forall (fun c => profileChar c = true) s -> stripProfile s = s.
Proof.
  induction 1 as [| c s Hc _ IH]; [done |].
  unfold stripProfile in *. rewrite filter_cons_True by (by apply Is_true_true).
  by rewrite IH.
Qed.

(** X10. The profile of a published snapshot is the [serverProfile]
    convar ([default] when it is not set) less every character outside
    [a-zA-Z0-9._-]: it is not empty, holds only such characters and does not
    end in [.base]; a convar made only of such characters is taken as it
    is.  The profile path is the data path joined with it. *)
Theorem published_profile (h : host) (w : world) (s : snapshot) (w' : world) :
  globalData h w = (Done s, w') ->
  let raw := GetConvar h (js "serverProfile") (js "default") in
  let p := profile (txEnv s) in
  p = stripProfile raw /\
  p <> [] /\
  (forall c, c ∈ p -> profileChar c = true) /\
  (forall x, p <> x ++ js ".base") /\
  (Forall (fun c => profileChar c = true) raw -> p = raw) /\
  (convarStore h !! js "serverProfile" = None -> p = js "default") /\
  profilePath (txEnv s) = cleanPath (path_join [dataPath (txEnv s); p]).
Proof.
  intros E raw p. apply globalData_done_parts in E.
  destruct E as (b & pr & dev & cv & w1 & w2 & w3 & w4 & w5 & _ & _ & Ep & _ & _ & _ & ->).
  subst p. simpl.
  pose proof (getProfile_spec h w2) as Hs. simpl in Hs. fold raw in Hs.
  destruct (endsWith (stripProfile raw) (js ".base")) eqn:Ee; [by rewrite Ep in Hs |].
  destruct (stripProfile raw) as [| c0 rest] eqn:En; [by rewrite Ep in Hs |].
  rewrite Ep in Hs. injection Hs as ->.
  split; [done |]. split; [done |]. split; [| split; [| split; [| split; [| done]]]].
  - intros c Hc. rewrite <- En in Hc. apply list_elem_of_filter in Hc as [Hc _].
    by apply Is_true_true.
  - intros x Hx. apply not_true_iff_false in Ee. apply Ee.
    apply endsWith_suffix. by exists x.
  - intros Hclean. rewrite <- En. by apply stripProfile_clean.
  - intros Hn. rewrite <- En. unfold raw, GetConvar. rewrite Hn. reflexivity.
Qed.

End PublishedProfile.

Lemma published_profile_witness :
  match globalData (R := Sample.rt) (Sample.withProfile (js "Server_01!")) Demo.emptyWorld with
  | (Done s, _) =>
      profile (txEnv s) = js "Server_01" /\
      profilePath (txEnv s) = js "/opt/fx/txData/Server_01"
  | _ => False
  end.
Proof.
  evaluated E as s w'.
  destruct (published_profile (R := Sample.rt) _ _ _ _ E) as (Hp & _ & _ & _ & _ & _ & Hpath).
  split; [rewrite Hp; vm_compute; reflexivity |].
  rewrite Hpath, Hp.
  apply globalData_done_txEnv in E. destruct E as (b & w1 & Eb & _ & -> & _).
  assert (Eb' : resolveBase (R := Sample.rt) (Sample.withProfile (js "Server_01!"))
                  Demo.emptyWorld
                = (Done Sample.base, Demo.emptyWorld)) by (vm_compute; reflexivity).
  rewrite Eb' in Eb. injection Eb as <- _. vm_compute. reflexivity.
Defined.

(** ** The dotted-quad pattern *)

Section DottedQuad.

Lemma skipDigits_spec n s :
  exists a, s = a ++ skipDigits n s /\ (length a <= n)%nat /\
            Forall (fun c => isDigit c = true) a.
Proof.
  revert s. induction n as [| n IH]; intros s.
  - exists []. simpl. repeat split; [lia | constructor].
  - destruct s as [| c s]; simpl.
    + exists []. simpl. repeat split; [lia | constructor].
    + destruct (isDigit c) eqn:Ec.
      * destruct (IH s) as (a & E & Hl & Ha). exists (c :: a).
        split; [simpl; by rewrite <- E |]. split; [simpl; lia | by constructor].
      * exists []. simpl. repeat split; [lia | constructor].
Qed.

Lemma skipDigits_app n a r :
  Forall (fun c => isDigit c = true) a -> (length a <= n)%nat ->
  (forall c r', r = c :: r' -> isDigit c = false) ->
  skipDigits n (a ++ r) = r.
Proof.
  intros Ha. revert n. induction Ha as [| c a Hc _ IH]; intros n Hl Hr; simpl.
  - destruct n; [done |]. destruct r as [| c r']; [done |].
    simpl. by rewrite (Hr c r' eq_refl).
  - simpl in Hl. destruct n as [| n]; [lia |]. simpl. rewrite Hc.
    apply IH; [lia | done].
Qed.

Lemma octet_spec s r :
  octet s = Some r -> exists a, digits13 a /\ s = a ++ r.
Proof.
  unfold octet. destruct s as [| c s]; [discriminate |].
  destruct (isDigit c) eqn:Ec; [| discriminate].
  intros E. injection E as <-.
  destruct (skipDigits_spec 2 s) as (a & E & Hl & Ha).
  exists (c :: a). split; [| cbn [app]; f_equal; exact E].
  split; [simpl; lia | by constructor].
Qed.

Lemma octet_app a r :
  digits13 a -> (forall c r', r = c :: r' -> isDigit c = false) ->
  octet (a ++ r) = Some r.
Proof.
  intros [Hl Ha] Hr. destruct Ha as [| c a Hc Ha]; [simpl in Hl; lia |].
  unfold octet. cbn [app]. rewrite Hc. f_equal.
  apply skipDigits_app; [done | simpl in Hl; lia | done].
Qed.

Lemma dot_spec s r : dot s = Some r <-> s = 46%N :: r.
Proof.
  unfold dot. destruct s as [| c s]; [split; discriminate |].
  destruct (N.eqb_spec c 46) as [-> | Hn].
  - split; intros E; by injection E as ->.
  - split; [discriminate |]. intros E. by injection E as -> _.
Qed.

Lemma ipv4Regex_test_spec s : ipv4Regex_test s = true <-> dottedQuad s.
Proof.
  unfold ipv4Regex_test, dottedQuad. split.
  - destruct (octet s) as [s1|] eqn:E1; simpl; [| discriminate].
    destruct (dot s1) as [s2|] eqn:E2; simpl; [| discriminate].
    destruct (octet s2) as [s3|] eqn:E3; simpl; [| discriminate].
    destruct (dot s3) as [s4|] eqn:E4; simpl; [| discriminate].
    destruct (octet s4) as [s5|] eqn:E5; simpl; [| discriminate].
    destruct (dot s5) as [s6|] eqn:E6; simpl; [| discriminate].
    destruct (octet s6) as [[| x s7]|] eqn:E7; simpl; try discriminate.
    intros _.
    apply octet_spec in E1 as (a & Ha & ->). apply dot_spec in E2 as ->.
    apply octet_spec in E3 as (b & Hb & ->). apply dot_spec in E4 as ->.
    apply octet_spec in E5 as (c & Hc & ->). apply dot_spec in E6 as ->.
    apply octet_spec in E7 as (d & Hd & ->).
    exists a, b, c, d. rewrite app_nil_r.
    split; [reflexivity | repeat (split; [assumption |]); assumption].
  - intros (a & b & c & d & -> & Ha & Hb & Hc & Hd).
    assert (Hdot : forall r c0 r', 46%N :: r = c0 :: r' -> isDigit c0 = false).
    { intros r c0 r' E. by injection E as <- _. }
    cbn [app].
    rewrite (octet_app a (46%N :: _) Ha (Hdot _)). simpl.
    rewrite (octet_app b (46%N :: _) Hb (Hdot _)). simpl.
    rewrite (octet_app c (46%N :: _) Hc (Hdot _)). simpl.
    rewrite <- (app_nil_r d).
    rewrite (octet_app d [] Hd); [done |]. discriminate.
Qed.

Lemma decimalValue_nonneg s :
  Forall (fun c => isDigit c = true) s -> 0 <= decimalValue s.
Proof.
  unfold decimalValue. intros Hs.
  assert (Hg : forall acc, 0 <= acc ->
            0 <= fold_left (fun acc c => 10 * acc + (Z.of_N c - 48)) s acc).
  { induction Hs as [| c s Hc _ IH]; intros acc Ha; simpl; [done |].
    apply IH. unfold isDigit in Hc. apply andb_true_iff in Hc as [H1 H2].
    apply N.leb_le in H1. lia. }
  apply Hg. lia.
Qed.

End DottedQuad.

(** ** The Number of an integer *)

(** Up to 2^53 every integer is a double. *)
Lemma roundToDouble_exact n :
  0 <= n <= 2 ^ 53 -> roundToDouble n = Finite (inject_Z n).
Proof.
  intros [H0 Hn]. unfold roundToDouble.
  destruct (Z.eq_dec n (2 ^ 53)) as [-> | Hne]; [reflexivity |].
  assert (He : Z.log2 n - 52 <= 0).
  { destruct (Z.eq_dec n 0) as [-> | Hz]; [done |].
    assert (Z.log2 n < 53) by (apply Z.log2_lt_pow2; lia). lia. }
  by rewrite (proj2 (Z.leb_le _ _) He).
Qed.

(** From 2^1024 on there is none. *)
Lemma roundToDouble_overflow n :
  2 ^ 1024 <= n -> roundToDouble n = PosInfinity.
Proof.
  intros Hn. unfold roundToDouble.
  assert (Hpos : 0 < n) by (pose proof (Z.pow_pos_nonneg 2 1024); lia).
  assert (Hl : 1024 <= Z.log2 n) by (apply Z.log2_le_pow2; lia).
  set (e := Z.log2 n - 52).
  rewrite (proj2 (Z.leb_gt e 0)) by lia.
  set (q := Z.shiftr n e).
  set (m := if _ : bool then q + 1 else q).
  assert (Hq : 2 ^ 52 <= q).
  { unfold q. rewrite Z.shiftr_div_pow2 by lia.
    apply Z.div_le_lower_bound; [apply Z.pow_pos_nonneg; lia |].
    rewrite <- Z.pow_add_r by lia. replace (e + 52) with (Z.log2 n) by lia.
    apply Z.log2_spec. lia. }
  assert (Hm : q <= m) by (unfold m; destruct (_ : bool); lia).
  rewrite Z.shiftl_mul_pow2 by lia.
  assert (Hp : 2 ^ 1024 <= 2 ^ 52 * 2 ^ e).
  { rewrite <- Z.pow_add_r by lia. apply Z.pow_le_mono_r; lia. }
  assert (He : 0 < 2 ^ e) by (apply Z.pow_pos_nonneg; lia).
  rewrite (proj2 (Z.leb_le _ _)); [done |]. nia.
Qed.

(** In between, the nearest number with a significand of 53 bits is
    taken, the even one of two that are equally near. *)
Lemma roundToDouble_nearest n :
  2 ^ 53 < n ->
  let e := Z.log2 n - 52 in
  exists m,
    2 ^ 52 <= m <= 2 ^ 53 /\
    2 * Z.abs (m * 2 ^ e - n) <= 2 ^ e /\
    (2 * Z.abs (m * 2 ^ e - n) = 2 ^ e -> Z.even m = true) /\
    roundToDouble n = if 2 ^ 1024 <=? m * 2 ^ e then PosInfinity
                      else Finite (inject_Z (m * 2 ^ e)).
Proof.
  intros Hn e.
  assert (Hpos : 0 < n) by (pose proof (Z.pow_pos_nonneg 2 53); lia).
  assert (Hl : 53 <= Z.log2 n) by (apply Z.log2_le_pow2; lia).
  assert (He : 0 < e) by (unfold e; lia).
  destruct (Z.log2_spec n Hpos) as [Hlo Hhi].
  replace (Z.log2 n) with (e + 52) in Hlo by (unfold e; lia).
  replace (Z.succ (Z.log2 n)) with (e + 53) in Hhi by (unfold e; lia).
  rewrite Z.pow_add_r in Hlo, Hhi by lia.
  unfold roundToDouble. fold e. rewrite (proj2 (Z.leb_gt e 0)) by lia.
  rewrite Z.shiftr_div_pow2, Z.land_ones by lia.
  rewrite (Z.shiftl_mul_pow2 1) by lia. rewrite Z.mul_1_l.
  assert (Hp : 2 ^ e = 2 * 2 ^ (e - 1)).
  { rewrite <- (Z.pow_succ_r 2 (e - 1)) by lia. f_equal. lia. }
  assert (Hh : 0 < 2 ^ (e - 1)) by (apply Z.pow_pos_nonneg; lia).
  pose proof (Z.div_mod n (2 ^ e) ltac:(lia)) as Hdm.
  pose proof (Z.mod_pos_bound n (2 ^ e) ltac:(lia)) as Hr.
  set (q := n / 2 ^ e) in *. set (r := n mod 2 ^ e) in *.
  set (P := 2 ^ e) in *. set (H := 2 ^ (e - 1)) in *.
  assert (Hq : 2 ^ 52 <= q < 2 ^ 53) by (split; nia).
  set (m := if (H <? r) || ((r =? H) && Z.odd q) then q + 1 else q).
  exists m. rewrite (Z.shiftl_mul_pow2 m) by lia. fold P.
  split; [| split; [| split; [| reflexivity]]].
  - unfold m. destruct (_ || _); lia.
  - unfold m. destruct (Z.ltb_spec H r); cbn [orb andb]; [lia |].
    destruct (Z.eqb_spec r H); cbn [orb andb]; [| lia].
    destruct (Z.odd q); lia.
  - unfold m. destruct (Z.ltb_spec H r); cbn [orb andb]; [lia |].
    destruct (Z.eqb_spec r H); cbn [orb andb]; [| lia].
    destruct (Z.odd q) eqn:Ho; intros _.
    + replace (q + 1) with (Z.succ q) by lia. by rewrite Z.even_succ.
    + by rewrite <- Z.negb_odd, Ho.
Qed.

(** ** Without a ZAP configuration file *)

Section StandardHost.
Context `{R : Runtime}.

Lemma digitsRegex_test_spec s :
  digitsRegex_test s = true <-> s <> [] /\ Forall (fun c => isDigit c = true) s.
Proof.
  destruct s as [| c s]; [split; [discriminate | by intros [? _]] |].
  unfold digitsRegex_test.
  assert (Hf : forall l, forallb isDigit l = true <-> Forall (fun c => isDigit c = true) l).
  { induction l as [| x l IH]; simpl; [split; [constructor | done] |].
    rewrite andb_true_iff, IH. split.
    - intros [Hx Hl]. by constructor.
    - intros Hl. by inversion Hl. }
  rewrite Hf. split; [by split | by intros [_ ?]].
Qed.

Lemma loadConvarConfig_spec h p w :
  let port := trim (GetConvar h (js "txAdminPort") (js "40120")) in
  loadConvarConfig h p w =
    if negb (digitsRegex_test port) then
      (Exit 110, logged w [LogError [js "txAdminPort is not valid."]])
    else
      match getConvarString h (js "txAdminInterface") with
      | VStr (c :: rest) =>
          if negb (ipv4Regex_test (c :: rest)) then
            (Exit 111, logged w [LogError [js "txAdminInterface is not valid."]])
          else (Done (standardConvars p port (VStr (c :: rest))), w)
      | _ => (Done (standardConvars p port (VBool false)), w)
      end.
Proof.
  intros port. unfold loadConvarConfig. fold port.
  destruct (negb (digitsRegex_test port)); [reflexivity |].
  destruct (getConvarString h (js "txAdminInterface")) as [| | | |[|c rest]| |];
    try reflexivity.
  unfold mbind, proc_bind. by destruct (negb (ipv4Regex_test (c :: rest))).
Qed.

(** X11. Without a ZAP configuration file: the [txAdminPort] convar
    ([40120] when it is not set), trimmed, must be a non-empty string of
    digits, else the process ends with exit code 110; a [txAdminInterface]
    that is set must be four groups of one to three digits separated by
    dots (the pattern accepts exactly those, with no bound on a group), else
    exit code 111.  On success nothing is written, the port is the Number
    that [parseInt] gives for the convar: its decimal value up to 2^53;
    above that the nearest number with a significand of 53 bits, the even
    one of two that are equally near, which need not be the decimal value;
    infinity from 2^1024 on.  The interface is [false] or the convar, and
    every other forced value is [false]. *)
Theorem standard_host_config (h : host) (isw : bool) (dp : jsstring)
    (dev : TxDevEnvType) (w : world) :
  files w !! zapCfgFileOf dp = None ->
  let port := trim (GetConvar h (js "txAdminPort") (js "40120")) in
  let iface := getConvarString h (js "txAdminInterface") in
  (forall s, ipv4Regex_test s = true <-> dottedQuad s) /\
  (convarStore h !! js "txAdminPort" = None -> port = js "40120") /\
  (port = [] \/ (exists c, c ∈ port /\ isDigit c = false) ->
   hostTypeCheck h isw dp dev w =
     (Exit 110, logged w [LogError [js "txAdminPort is not valid."]])) /\
  (port <> [] -> Forall (fun c => isDigit c = true) port ->
   forall ip, iface = VStr ip -> ip <> [] -> ~ dottedQuad ip ->
   hostTypeCheck h isw dp dev w =
     (Exit 111, logged w [LogError [js "txAdminInterface is not valid."]])) /\
  (forall cv w',
     hostTypeCheck h isw dp dev w = (Done cv, w') ->
     w' = w /\
     port <> [] /\ Forall (fun c => isDigit c = true) port /\
     txAdminPort cv = VNum (parseInt port) /\
     (0 <= decimalValue port /\
      (decimalValue port <= 2 ^ 53 ->
       txAdminPort cv = VNum (Finite (inject_Z (decimalValue port)))) /\
      (2 ^ 53 < decimalValue port ->
       let n := decimalValue port in
       let e := Z.log2 n - 52 in
       exists m,
         2 ^ 52 <= m <= 2 ^ 53 /\
         2 * Z.abs (m * 2 ^ e - n) <= 2 ^ e /\
         (2 * Z.abs (m * 2 ^ e - n) = 2 ^ e -> Z.even m = true) /\
         txAdminPort cv = VNum (if 2 ^ 1024 <=? m * 2 ^ e then PosInfinity
                                else Finite (inject_Z (m * 2 ^ e)))) /\
      (2 ^ 1024 <= decimalValue port -> txAdminPort cv = VNum PosInfinity)) /\
     forceFXServerPort cv = VBool false /\ loginPageLogo cv = VBool false /\
     deployerDefaults cv = VBool false /\ defaultMasterAccount cv = None /\
     isZapHosting cv = false /\
     ((truthy iface = false /\ forceInterface cv = VBool false) \/
      (exists ip, iface = VStr ip /\ dottedQuad ip /\ forceInterface cv = VStr ip))).
Proof.
  intros Ef port iface.
  pose proof (hostTypeCheck_nofile h isw dp dev w Ef) as Hh.
  pose proof (loadConvarConfig_spec h (pteroMarker h isw) w) as Hl.
  simpl in Hl. fold port iface in Hl. rewrite <- Hh in Hl. clear Hh.
  split; [exact ipv4Regex_test_spec |]. split; [| split; [| split]].
  - intros En. unfold port, GetConvar. rewrite En. reflexivity.
  - intros Hbad.
    assert (Hd : digitsRegex_test port = false).
    { apply not_true_iff_false. intros Hd. apply digitsRegex_test_spec in Hd as [Hne Hall].
      destruct Hbad as [-> | (c & Hc & Hn)]; [done |].
      rewrite Forall_forall in Hall. specialize (Hall c Hc). congruence. }
    by rewrite Hd in Hl.
  - intros Hne Hall ip Ei Hip Hq.
    rewrite (proj2 (digitsRegex_test_spec port)) in Hl by done.
    rewrite Ei in Hl. destruct ip as [| c rest]; [done |].
    assert (Hi : ipv4Regex_test (c :: rest) = false).
    { apply not_true_iff_false. intros Hi. by apply ipv4Regex_test_spec in Hi. }
    by rewrite Hi in Hl.
  - intros cv w' E. rewrite Hl in E. clear Hl.
    destruct (digitsRegex_test port) eqn:Hd; [| discriminate]. simpl in E.
    apply digitsRegex_test_spec in Hd as [Hne Hall].
    assert (Hfields : forall f,
              (Done (standardConvars (pteroMarker h isw) port f), w) = (Done cv, w') ->
              w' = w /\ port <> [] /\ Forall (fun c => isDigit c = true) port /\
              txAdminPort cv = VNum (parseInt port) /\
              (0 <= decimalValue port /\
               (decimalValue port <= 2 ^ 53 ->
                txAdminPort cv = VNum (Finite (inject_Z (decimalValue port)))) /\
               (2 ^ 53 < decimalValue port ->
                let n := decimalValue port in
                let e := Z.log2 n - 52 in
                exists m,
                  2 ^ 52 <= m <= 2 ^ 53 /\
                  2 * Z.abs (m * 2 ^ e - n) <= 2 ^ e /\
                  (2 * Z.abs (m * 2 ^ e - n) = 2 ^ e -> Z.even m = true) /\
                  txAdminPort cv = VNum (if 2 ^ 1024 <=? m * 2 ^ e then PosInfinity
                                         else Finite (inject_Z (m * 2 ^ e)))) /\
               (2 ^ 1024 <= decimalValue port -> txAdminPort cv = VNum PosInfinity)) /\
              forceFXServerPort cv = VBool false /\ loginPageLogo cv = VBool false /\
              deployerDefaults cv = VBool false /\ defaultMasterAccount cv = None /\
              isZapHosting cv = false /\ forceInterface cv = f).
    { intros f Ec. injection Ec as <- <-. simpl.
      pose proof (decimalValue_nonneg port Hall) as Hp.
      repeat (split; [done |]). split; [| done].
      split; [done |]. unfold parseInt. split; [| split].
      - intros Hb. by rewrite roundToDouble_exact.
      - intros Hb.
        pose proof (roundToDouble_nearest _ Hb) as Hnear. cbv zeta in Hnear.
        destruct Hnear as (m & Hm & Hn & Ht & Er).
        exists m. split; [exact Hm |]. split; [exact Hn |]. split; [exact Ht |].
        exact (f_equal VNum Er).
      - intros Hb. by rewrite roundToDouble_overflow. }
    destruct iface as [| | b | q | [| c rest] | l | fs] eqn:Ei;
      try (destruct (Hfields _ E) as (H1 & H2 & H3 & H4 & H5 & H6 & H7 & H8 & H9 & H10 & H11);
           repeat (split; [assumption |]); left; split; [| assumption]).
    + reflexivity.
    + reflexivity.
    + unfold iface, getConvarString in Ei. by destruct (strEq _ _); [injection Ei as <- |].
    + unfold iface, getConvarString in Ei. by destruct (strEq _ _).
    + reflexivity.
    + destruct (ipv4Regex_test (c :: rest)) eqn:Hi; [| discriminate]. simpl in E.
      destruct (Hfields _ E) as (H1 & H2 & H3 & H4 & H5 & H6 & H7 & H8 & H9 & H10 & H11).
      repeat (split; [assumption |]). right. exists (c :: rest).
      split; [reflexivity |]. split; [by apply ipv4Regex_test_spec | assumption].
    + unfold iface, getConvarString in Ei. by destruct (strEq _ _).
    + unfold iface, getConvarString in Ei. by destruct (strEq _ _).
Qed.

End StandardHost.

Lemma standard_host_config_witness :
  hostTypeCheck (R := Sample.rt) (Sample3.withPort "40 120") false Sample.txData
    Demo.devOff Demo.emptyWorld
  = (Exit 110, logged Demo.emptyWorld [LogError [js "txAdminPort is not valid."]]) /\
  hostTypeCheck (R := Sample.rt) (Sample3.withInterface "10.0.0") false Sample.txData
    Demo.devOff Demo.emptyWorld
  = (Exit 111, logged Demo.emptyWorld [LogError [js "txAdminInterface is not valid."]]) /\
  dottedQuad (js "999.0.0.1") /\
  (exists cv,
     hostTypeCheck (R := Sample.rt) (Sample3.withInterface "999.0.0.1") false Sample.txData
       Demo.devOff Demo.emptyWorld = (Done cv, Demo.emptyWorld) /\
     txAdminPort cv = VNum (Finite 40120) /\ forceInterface cv = VStr (js "999.0.0.1")) /\
  exists cv,
    hostTypeCheck (R := Sample.rt) (Sample3.withPort "9007199254740993") false Sample.txData
      Demo.devOff Demo.emptyWorld = (Done cv, Demo.emptyWorld) /\
    txAdminPort cv = VNum (Finite 9007199254740992).
Proof.
  assert (Ef : files Demo.emptyWorld !! zapCfgFileOf (R := Sample.rt) Sample.txData = None)
    by reflexivity.
  split; [| split; [| split; [| split]]].
  - destruct (standard_host_config (R := Sample.rt) (Sample3.withPort "40 120") false
                Sample.txData Demo.devOff Demo.emptyWorld Ef) as (_ & _ & P & _).
    apply P. right. exists 32%N. split; [| reflexivity].
    vm_compute. apply list_elem_of_further, list_elem_of_further, list_elem_of_here.
  - destruct (standard_host_config (R := Sample.rt) (Sample3.withInterface "10.0.0") false
                Sample.txData Demo.devOff Demo.emptyWorld Ef) as (Q & _ & _ & P & _).
    apply (P ltac:(vm_compute; discriminate)
             ltac:(vm_compute; repeat constructor) (js "10.0.0"));
      [vm_compute; reflexivity | discriminate |].
    intros Hq. apply Q in Hq. discriminate.
  - destruct (standard_host_config (R := Sample.rt) (Sample3.withPort "40 120") false
                Sample.txData Demo.devOff Demo.emptyWorld Ef) as (Q & _).
    apply Q. reflexivity.
  - assert (Hrun : exists cv w',
              hostTypeCheck (R := Sample.rt) (Sample3.withInterface "999.0.0.1") false
                Sample.txData Demo.devOff Demo.emptyWorld = (Done cv, w'))
      by (vm_compute; eexists _, _; reflexivity).
    destruct Hrun as (cv & w' & E).
    destruct (standard_host_config (R := Sample.rt) (Sample3.withInterface "999.0.0.1") false
                Sample.txData Demo.devOff Demo.emptyWorld Ef) as (_ & Hdef & _ & _ & P).
    destruct (P _ _ E) as (-> & _ & _ & Hport & _ & _ & _ & _ & _ & _ & Hi).
    exists cv. split; [exact E |]. split.
    + rewrite Hport, Hdef by reflexivity. reflexivity.
    + destruct Hi as [[Ht _] | (ip & Ei & _ & ->)]; [vm_compute in Ht; discriminate |].
      rewrite <- Ei. vm_compute. reflexivity.
  - assert (Hrun : exists cv w',
              hostTypeCheck (R := Sample.rt) (Sample3.withPort "9007199254740993") false
                Sample.txData Demo.devOff Demo.emptyWorld = (Done cv, w'))
      by (vm_compute; eexists _, _; reflexivity).
    destruct Hrun as (cv & w' & E).
    destruct (standard_host_config (R := Sample.rt) (Sample3.withPort "9007199254740993")
                false Sample.txData Demo.devOff Demo.emptyWorld Ef) as (_ & _ & _ & _ & P).
    destruct (P _ _ E) as (-> & _ & _ & Hport & _).
    exists cv. split; [exact E |]. rewrite Hport. vm_compute. reflexivity.
Defined.

(** ** A ZAP configuration file that is rejected, and what one gives *)

Section ZapFile.
Context `{R : Runtime}.

Lemma readZapConfig_no_defaults d p z :
  getProp d (js "defaults") = inr VUndefined ->
  readZapConfig d p z =
    inl (js "Cannot read properties of undefined (reading 'license')").
Proof.
  intros Ed. unfold readZapConfig, mbind, except_bind.
  destruct d; try discriminate; simpl in *; try reflexivity.
  injection Ed as ->. reflexivity.
Qed.

Lemma readZapConfig_null p z :
  readZapConfig VNull p z =
    inl (js "Cannot read properties of null (reading 'interface')").
Proof. reflexivity. Qed.

(** X12. A ZAP configuration file that cannot be used ends the process
    with exit code 109 and one error line that carries the reason: a
    directory in its place, text that is not JSON, the JSON value [null], a
    value without a [defaults] block.  Whenever the host type check exits
    with the file present, the code is 109 and the file is still there,
    developer environment or not. *)
Theorem zap_file_rejected (h : host) (isw : bool) (dp : jsstring)
    (dev : TxDevEnvType) (w : world) :
  (files w !! zapCfgFileOf dp = Some Directory ->
   hostTypeCheck h isw dp dev w =
     (Exit 109,
      logged w [zapLoadingLine;
                zapFailureLine (js "EISDIR: illegal operation on a directory, read")])) /\
  (forall text e,
     files w !! zapCfgFileOf dp = Some (File text) -> JSON_parse text = inl e ->
     hostTypeCheck h isw dp dev w =
       (Exit 109, logged w [zapLoadingLine; zapFailureLine e])) /\
  (forall text,
     files w !! zapCfgFileOf dp = Some (File text) -> JSON_parse text = inr VNull ->
     hostTypeCheck h isw dp dev w =
       (Exit 109,
        logged w [zapLoadingLine;
                  zapFailureLine (js "Cannot read properties of null (reading 'interface')")])) /\
  (forall text d,
     files w !! zapCfgFileOf dp = Some (File text) -> JSON_parse text = inr d ->
     getProp d (js "defaults") = inr VUndefined ->
     hostTypeCheck h isw dp dev w =
       (Exit 109,
        logged w [zapLoadingLine;
                  zapFailureLine (js "Cannot read properties of undefined (reading 'license')")])) /\
  (forall c w',
     zapFilePresent w dp = true ->
     hostTypeCheck h isw dp dev w = (Exit c, w') ->
     c = 109 /\ files w' = files w).
Proof.
  split; [| split; [| split; [| split]]].
  - intros Ef. by rewrite (hostTypeCheck_directory_world _ _ _ _ _ Ef).
  - intros text e Ef Ep. rewrite (hostTypeCheck_file_outcome _ _ _ _ _ _ Ef).
    unfold mbind at 1, except_bind at 1. by rewrite Ep.
  - intros text Ef Ep. rewrite (hostTypeCheck_file_outcome _ _ _ _ _ _ Ef).
    unfold mbind at 1, except_bind at 1. by rewrite Ep.
  - intros text d Ef Ep Ed. rewrite (hostTypeCheck_file_outcome _ _ _ _ _ _ Ef).
    unfold mbind at 1, except_bind at 1.
    by rewrite Ep, (readZapConfig_no_defaults _ _ _ Ed).
  - intros c w' Hf E. unfold zapFilePresent in Hf.
    destruct (files w !! zapCfgFileOf dp) as [[text|]|] eqn:Ef.
    + rewrite (hostTypeCheck_file_outcome _ _ _ _ _ _ Ef) in E.
      unfold zapRejected in E.
      destruct (_ ≫= _); [by injection E as <- <- |].
      destruct (ENABLED dev); [discriminate |].
      destruct (locked w !! zapCfgFileOf dp); [by injection E as <- <- | discriminate].
    + rewrite (hostTypeCheck_directory_world _ _ _ _ _ Ef) in E.
      by injection E as <- <-.
    + rewrite bool_decide_eq_false_2 in Hf; [done |]. by intros [x Hx].
Qed.

Lemma readZapConfig_fields fields p z cv :
  readZapConfig (VObj fields) p z = inr cv ->
  exists defaults,
    getProp (lookupField (js "defaults") fields) (js "license")
      = inr (lookupField (js "license") defaults) /\
    lookupField (js "defaults") fields <> VUndefined /\
    lookupField (js "defaults") fields <> VNull /\
    (forall k, getProp (lookupField (js "defaults") fields) k = inr (lookupField k defaults)) /\
    readCustomer (lookupField (js "customer") fields) = inr (defaultMasterAccount cv) /\
    cv = {| isPterodactyl := p; isZapHosting := z;
            forceInterface := lookupField (js "interface") fields;
            forceFXServerPort := lookupField (js "fxServerPort") fields;
            txAdminPort := lookupField (js "txAdminPort") fields;
            loginPageLogo := lookupField (js "loginPageLogo") fields;
            defaultMasterAccount := defaultMasterAccount cv;
            deployerDefaults := deployerDefaultsOf defaults |}.
Proof.
  unfold readZapConfig, mbind, except_bind. simpl.
  destruct (lookupField (js "defaults") fields) as [| | b | q | str | items | defaults];
    simpl; try discriminate.
  - destruct (readCustomer _) as [e | acct]; [discriminate |].
    intros E. injection E as <-. exists []. by repeat split.
  - destruct (readCustomer _) as [e | acct]; [discriminate |].
    intros E. injection E as <-. exists []. by repeat split.
  - destruct (readCustomer _) as [e | acct]; [discriminate |].
    intros E. injection E as <-. exists []. by repeat split.
  - destruct (readCustomer _) as [e | acct]; [discriminate |].
    intros E. injection E as <-. exists []. by repeat split.
  - destruct (readCustomer _) as [e | acct]; [discriminate |].
    intros E. injection E as <-. exists defaults. by repeat split.
Qed.

(** X13. When the host type check succeeds with a ZAP configuration file,
    the file held a JSON object with a [defaults] block, and the forced
    interface, ports and logo are its properties as they are, with no check
    of their type or format ([undefined] when missing); [deployerDefaults]
    has exactly the seven keys, read from [defaults].  Without a truthy
    [customer] there is no default master account. *)
Theorem zap_values_verbatim (h : host) (isw : bool) (dp : jsstring)
    (dev : TxDevEnvType) (w : world) (cv : convarsT) (w' : world) :
  zapFilePresent w dp = true ->
  hostTypeCheck h isw dp dev w = (Done cv, w') ->
  exists text fields defaults,
    files w !! zapCfgFileOf dp = Some (File text) /\
    JSON_parse text = inr (VObj fields) /\
    (forall k, getProp (lookupField (js "defaults") fields) k = inr (lookupField k defaults)) /\
    forceInterface cv = lookupField (js "interface") fields /\
    forceFXServerPort cv = lookupField (js "fxServerPort") fields /\
    txAdminPort cv = lookupField (js "txAdminPort") fields /\
    loginPageLogo cv = lookupField (js "loginPageLogo") fields /\
    deployerDefaults cv = deployerDefaultsOf defaults /\
    (truthy (lookupField (js "customer") fields) = false ->
     defaultMasterAccount cv = None).
Proof.
  intros Hf E.
  destruct (hostTypeCheck_present _ _ _ _ _ _ _ Hf E) as (text & d & Ef & Ep & Ez & _).
  assert (Hobj : exists fields, d = VObj fields).
  { destruct d as [| | b | q | str | items | fields]; [| | | | | | by exists fields];
      exfalso; unfold readZapConfig, mbind, except_bind in Ez; simpl in Ez;
      discriminate. }
  destruct Hobj as (fields & ->).
  destruct (readZapConfig_fields _ _ _ _ Ez) as (defaults & _ & _ & _ & Hd & Hc & Hcv).
  exists text, fields, defaults.
  split; [done |]. split; [done |]. split; [done |].
  rewrite Hcv. simpl. repeat (split; [reflexivity |]).
  intros Ht. unfold readCustomer in Hc. rewrite Ht in Hc.
  by injection Hc as <-.
Qed.

End ZapFile.

Lemma zap_file_rejected_witness :
  hostTypeCheck (R := Sample3.rt) Sample.plainHost false Sample.txData Demo.devOff
    (Demo.worldWith [(Demo.zapFile, Directory)])
  = (Exit 109,
     logged (Demo.worldWith [(Demo.zapFile, Directory)])
       [zapLoadingLine;
        zapFailureLine (js "EISDIR: illegal operation on a directory, read")]) /\
  hostTypeCheck (R := Sample3.rt) Sample.plainHost false Sample.txData Demo.devOff
    (Demo.worldWith [(Demo.zapFile, File (js "{ not json"))])
  = (Exit 109,
     logged (Demo.worldWith [(Demo.zapFile, File (js "{ not json"))])
       [zapLoadingLine; zapFailureLine (js "Unexpected token in JSON")]) /\
  (exists w',
     hostTypeCheck (R := Sample3.rt) Sample.plainHost false Sample.txData Demo.devOff
       (Demo.zapWorld Sample3.noDefaultsDescriptor) = (Exit 109, w') /\
     files w' = files (Demo.zapWorld Sample3.noDefaultsDescriptor)).
Proof.
  assert (F : forall n,
            files (Demo.worldWith [(Demo.zapFile, n)])
              !! zapCfgFileOf (R := Sample3.rt) Sample.txData = Some n).
  { intros n. unfold Demo.worldWith. simpl.
    change (zapCfgFileOf (R := Sample3.rt) Sample.txData) with Demo.zapFile.
    apply lookup_insert_eq. }
  split; [| split].
  - destruct (zap_file_rejected (R := Sample3.rt) Sample.plainHost false Sample.txData
                Demo.devOff (Demo.worldWith [(Demo.zapFile, Directory)])) as (P & _).
    exact (P (F _)).
  - destruct (zap_file_rejected (R := Sample3.rt) Sample.plainHost false Sample.txData
                Demo.devOff (Demo.worldWith [(Demo.zapFile, File (js "{ not json"))]))
      as (_ & P & _).
    apply (P (js "{ not json") (js "Unexpected token in JSON") (F _)).
    vm_compute. reflexivity.
  - destruct (zap_file_rejected (R := Sample3.rt) Sample.plainHost false Sample.txData
                Demo.devOff (Demo.zapWorld Sample3.noDefaultsDescriptor))
      as (_ & _ & _ & P & Q).
    assert (Ep : JSON_parse (Runtime := Sample3.rt)
                   (Demo.stringify Sample3.noDefaultsDescriptor)
                 = inr Sample3.noDefaultsDescriptor) by (vm_compute; reflexivity).
    pose proof (P _ _ (F _) Ep eq_refl) as E.
    eexists. split; [exact E |].
    apply (Q 109 _ ltac:(vm_compute; reflexivity) E).
Defined.

Lemma zap_values_verbatim_witness :
  zapFilePresent (R := Sample3.rt) (Demo.zapWorld Sample3.noCustomerDescriptor)
    Sample.txData = true /\
  exists cv w',
    hostTypeCheck (R := Sample3.rt) Sample.plainHost false Sample.txData Demo.devOff
      (Demo.zapWorld Sample3.noCustomerDescriptor) = (Done cv, w') /\
    txAdminPort cv = VStr (js "forty") /\ forceInterface cv = VUndefined /\
    defaultMasterAccount cv = None.
Proof.
  assert (Hf : zapFilePresent (R := Sample3.rt)
                 (Demo.zapWorld Sample3.noCustomerDescriptor) Sample.txData = true)
    by (vm_compute; reflexivity).
  split; [exact Hf |].
  assert (Hrun : exists cv w',
            hostTypeCheck (R := Sample3.rt) Sample.plainHost false Sample.txData
              Demo.devOff (Demo.zapWorld Sample3.noCustomerDescriptor) = (Done cv, w'))
    by (vm_compute; eexists _, _; reflexivity).
  destruct Hrun as (cv & w' & E). exists cv, w'. split; [exact E |].
  destruct (zap_values_verbatim (R := Sample3.rt) _ _ _ _ _ _ _ Hf E)
    as (text & fields & defaults & Ef & Ep & _ & Hi & _ & Hp & _ & _ & Hc).
  assert (Ef' : files (Demo.zapWorld Sample3.noCustomerDescriptor)
                  !! zapCfgFileOf (R := Sample3.rt) Sample.txData
                = Some (File (Demo.stringify Sample3.noCustomerDescriptor))).
  { unfold Demo.zapWorld, Demo.worldWith. simpl.
    change (zapCfgFileOf (R := Sample3.rt) Sample.txData) with Demo.zapFile.
    apply lookup_insert_eq. }
  rewrite Ef' in Ef.
  pose proof (f_equal (fun o => match o with Some (File t) => t | _ => [] end) Ef) as Et.
  cbv beta iota in Et. rewrite <- Et in Ep.
  assert (Ep' : JSON_parse (Runtime := Sample3.rt)
                  (Demo.stringify Sample3.noCustomerDescriptor)
                = inr Sample3.noCustomerDescriptor) by (vm_compute; reflexivity).
  rewrite Ep' in Ep.
  pose proof (f_equal (fun r : jsstring + value =>
                         match r with inr (VObj f) => f | _ => [] end) Ep) as Efields.
  cbv beta iota delta [Sample3.noCustomerDescriptor] in Efields.
  rewrite <- Efields in Hp, Hi, Hc.
  split; [exact Hp |]. split; [exact Hi |]. apply Hc. reflexivity.
Defined.

(** ** The end of the module *)

Section Publishing.
Context `{R : Runtime}.

Lemma hostTypeCheck_done_world h isw dp dev w cv w' :
  hostTypeCheck h isw dp dev w = (Done cv, w') ->
  localIps w' = localIps w /\ consoleEnvData w' = consoleEnvData w /\
  exists l, console w' = console w ++ l.
Proof.
  intros E.
  destruct (hostTypeCheck_done_cases _ _ _ _ _ _ _ E)
    as [[Ef El] | (text & d & Ef & Ep & Ez & _ & ->)].
  - pose proof (loadConvarConfig_fails h (pteroMarker h isw) w) as Hl.
    rewrite El in Hl. destruct Hl as (_ & I & C & l & L). by eauto.
  - destruct (ENABLED dev); simpl; repeat split; by eexists.
Qed.

Lemma publish_world b profile dev cv w s w' :
  publish b profile dev cv w = (Done s, w') ->
  files w' = files w /\
  localIps w' = localIps w ++
    (if truthy (forceInterface cv) then [forceInterface cv] else []) /\
  consoleEnvData w' =
    Some (VStr (b_txAdminVersion b), b_txAdminResourcePath b, ENABLED dev, VERBOSE dev) /\
  console w' = console w ++ (if VERBOSE dev then [verboseDump cv] else []).
Proof.
  unfold publish, verboseDump, boolObj.
  destruct (truthy (forceInterface cv)), (VERBOSE dev); intros E;
    injection E as _ <-; simpl; rewrite ?app_nil_r; by repeat split.
Qed.

(** X14. A run that publishes a snapshot registers the forced interface
    as a local address exactly when it is truthy, hands the console the
    version, the resource path and the two developer flags, and, when the
    developer environment is verbose, ends its console output with one dump
    of seven resolved values, the default master account not among them. *)
Theorem publish_effects (h : host) (w : world) (s : snapshot) (w' : world) :
  globalData h w = (Done s, w') ->
  localIps w' = localIps w ++
    (if truthy (forceInterface (convars s)) then [forceInterface (convars s)] else []) /\
  consoleEnvData w' =
    Some (VStr (txAdminVersion (txEnv s)), txAdminResourcePath (txEnv s),
          ENABLED (txDevEnv s), VERBOSE (txDevEnv s)) /\
  exists l,
    console w' = console w ++ l ++
      (if VERBOSE (txDevEnv s) then [verboseDump (convars s)] else []).
Proof.
  intros E. apply globalData_done_parts in E.
  destruct E as (b & profile & dev & cv & w1 & w2 & w3 & w4 & w5
                 & Eb & Ea & Ep & Ed & Eh & Epub & ->). simpl.
  assert (H04 : extendsLog w w4).
  { eapply extendsLog_trans; [eapply logOnly_run; [apply resolveBase_logOnly | exact Eb] |].
    eapply extendsLog_trans; [eapply logOnly_run; [apply checkNonASCII_logOnly | exact Ea] |].
    eapply extendsLog_trans; [eapply logOnly_run; [apply getProfile_logOnly | exact Ep] |].
    eapply logOnly_run; [apply getTxDevEnv_logOnly | exact Ed]. }
  destruct H04 as (_ & I4 & _ & l4 & L4).
  destruct (hostTypeCheck_done_world _ _ _ _ _ _ _ Eh) as (I5 & _ & l5 & L5).
  destruct (publish_world _ _ _ _ _ _ _ Epub) as (_ & I6 & C6 & L6).
  split; [by rewrite I6, I5, I4 |]. split; [exact C6 |].
  exists (l4 ++ l5). by rewrite L6, L5, L4, !app_assoc.
Qed.

End Publishing.

Lemma publish_effects_witness :
  match globalData (R := Sample.rt) (Sample.withDev Sample3.verboseDev)
          (Demo.zapWorld Demo.zapDescriptor) with
  | (Done s, w') =>
      localIps w' =
        localIps (Demo.zapWorld Demo.zapDescriptor) ++
        (if truthy (forceInterface (convars s)) then [forceInterface (convars s)] else []) /\
      consoleEnvData w' =
        Some (VStr (txAdminVersion (txEnv s)), txAdminResourcePath (txEnv s),
              ENABLED (txDevEnv s), VERBOSE (txDevEnv s)) /\
      exists l,
        console w' = console (Demo.zapWorld Demo.zapDescriptor) ++ l ++
          (if VERBOSE (txDevEnv s) then [verboseDump (convars s)] else [])
  | _ => False
  end.
Proof.
  evaluated E as s w'.
  exact (publish_effects (R := Sample.rt) _ _ _ _ E).
Defined.

(** * Further properties of the Translator *)

Section TranslatorMore.
Import Translator TranslatorSpec TranslatorSpec2.
Context `{R : Runtime}.

Lemma getLanguagePhrases_spec this language w :
  getLanguagePhrases this language w =
    if isObjectType (localeMap language) then (Done (localeMap language), w)
    else if bool_decide (language = js "custom") then
      match files w !! customLocalePath this with
      | Some (File text) =>
          match JSON_parse text with
          | inr tree => (Done tree, w)
          | inl e => (Throw (customLoadError this e), w)
          end
      | Some Directory =>
          (Throw (customLoadError this (js "EISDIR: illegal operation on a directory, read")), w)
      | None =>
          (Throw (customLoadError this
                    (js "ENOENT: no such file or directory, open '"
                       ++ customLocalePath this ++ js "'")), w)
      end
    else (Throw (js "Language '" ++ language ++ js "' not found."), w).
Proof.
  unfold getLanguagePhrases, strEq.
  destruct (isObjectType (localeMap language)); [reflexivity |].
  case_bool_decide; [| reflexivity].
  unfold tryCatch, readFileSync, mbind, proc_bind.
  destruct (files w !! customLocalePath this) as [[text|]|]; try reflexivity.
  by destruct (JSON_parse text).
Qed.

(** [setupTranslator] in full. *)
Lemma setupTranslator_spec language isFirstTime this w :
  setupTranslator language isFirstTime this w =
    match (getLanguagePhrases this language w).1 with
    | Done tree => (Done (reloaded language this tree), w)
    | Throw e =>
        if isFirstTime then
          (Fatal 0 (js "Failed to load initial language file" ++ js ": " ++ e), w)
        else (Done (recanonized language this), logged w [LogDirError e])
    | Exit c => (Exit c, w)
    | Fatal c e => (Fatal c e, w)
    end.
Proof.
  destruct (getLanguagePhrases_cases this language w) as [(tree & E) | (e & E)];
    rewrite E.
  - by apply setupTranslator_loaded.
  - destruct (setupTranslator_failed language this w e E) as [E1 E2].
    by destruct isFirstTime.
Qed.

(** X15. [new Translator()] either ends in the fatal-error handler, with
    code 0 and the reason of the failed load, or returns a Translator with
    an engine; it never returns one without an engine and never raises.  A
    built-in language is loaded whatever is on disk; the language [custom]
    is read from [locale.json] under the data path, and a missing file or
    text that is not JSON is fatal; any other language is fatal as not
    found.  The world is left as it was. *)
Theorem constructor_loads_or_dies (dataPath language : jsstring) (w : world) :
  let this0 := initial dataPath in
  (isObjectType (localeMap language) = true ->
   constructor dataPath language w
     = (Done (reloaded language this0 (localeMap language)), w)) /\
  (isObjectType (localeMap language) = false -> language <> js "custom" ->
   constructor dataPath language w
     = (Fatal 0 (js "Failed to load initial language file: "
                   ++ js "Language '" ++ language ++ js "' not found."), w)) /\
  (isObjectType (localeMap language) = false -> language = js "custom" ->
   (forall text tree,
      files w !! customLocalePath this0 = Some (File text) ->
      JSON_parse text = inr tree ->
      constructor dataPath language w = (Done (reloaded language this0 tree), w)) /\
   (forall text e,
      files w !! customLocalePath this0 = Some (File text) ->
      JSON_parse text = inl e ->
      constructor dataPath language w
        = (Fatal 0 (js "Failed to load initial language file: "
                      ++ customLoadError this0 e), w)) /\
   (files w !! customLocalePath this0 = None ->
    exists e, constructor dataPath language w = (Fatal 0 e, w))) /\
  match constructor dataPath language w with
  | (Done this, w') =>
      w' = w /\ (exists tree, loaded this tree) /\
      canonical this = canonicalOf language /\
      customLocalePath this = path_join [dataPath; js "locale.json"]
  | (Fatal code _, w') => code = 0 /\ w' = w
  | _ => False
  end.
Proof.
  intros this0.
  assert (Hc : constructor dataPath language w
               = setupTranslator language true this0 w) by reflexivity.
  rewrite Hc, setupTranslator_spec.
  pose proof (getLanguagePhrases_spec this0 language w) as Hg.
  split; [| split; [| split]].
  - intros Ho. by rewrite Hg, Ho.
  - intros Ho Hn. rewrite Hg, Ho. by rewrite bool_decide_eq_false_2 by done.
  - intros Ho ->. rewrite Ho in Hg. rewrite bool_decide_eq_true_2 in Hg by done.
    split; [| split].
    + intros text tree Ef Ep. by rewrite Hg, Ef, Ep.
    + intros text e Ef Ep. by rewrite Hg, Ef, Ep.
    + intros Ef. rewrite Hg, Ef. by eexists.
  - destruct (getLanguagePhrases_cases this0 language w) as [(tree & E) | (e & E)];
      rewrite E.
    + split; [done |]. split; [by exists tree |]. by split.
    + by split.
Qed.

Lemma refreshConfig_spec language resetConvars this w :
  refreshConfig language resetConvars this w =
    match setupTranslator language false this w with
    | (Done this', w1) =>
        match resetConvars w1 with
        | (Done _, w2) => (Done this', w2)
        | (Throw e, w2) => (Done this', logged w2 [LogVerboseDirError e])
        | (Exit c, w2) => (Exit c, w2)
        | (Fatal c e, w2) => (Fatal c e, w2)
        end
    | (Exit c, w1) => (Exit c, w1)
    | (Throw e, w1) => (Throw e, w1)
    | (Fatal c e, w1) => (Fatal c e, w1)
    end.
Proof.
  unfold refreshConfig, mbind at 1, proc_bind at 1.
  destruct (setupTranslator language false this w) as [[this'| | |] w1]; try reflexivity.
  unfold mbind, proc_bind, tryCatch.
  destruct (resetConvars w1) as [[u| | |] w2]; reflexivity.
Qed.

Lemma setupTranslator_reconfigure language this w :
  exists this' w',
    setupTranslator language false this w = (Done this', w') /\
    customLocalePath this' = customLocalePath this /\
    canonical this' = canonicalOf language /\
    files w' = files w /\
    ((exists tree, loaded this' tree) \/ polyglot this' = polyglot this).
Proof.
  rewrite setupTranslator_spec.
  destruct (getLanguagePhrases_cases this language w) as [(tree & E) | (e & E)];
    rewrite E; simpl; eexists _, _; split; try reflexivity; repeat split.
  - left. by exists tree.
  - by right.
Qed.

(** X16. [refreshConfig] reloads the phrases and then resets the
    convars; when [resetConvars] raises, the error is logged at verbose
    level and goes no further.  Whether [resetConvars] returns or raises,
    [refreshConfig] returns the Translator that [setupTranslator(false)]
    leaves, with the canonical locale of the new language and the same
    custom catalog path. *)
Theorem refreshConfig_contains_failures (language : jsstring) (resetConvars : Proc unit)
    (this : Translator) (w : world) :
  exists this' w1,
    setupTranslator language false this w = (Done this', w1) /\
    canonical this' = canonicalOf language /\
    customLocalePath this' = customLocalePath this /\
    (forall w2, resetConvars w1 = (Done tt, w2) ->
       refreshConfig language resetConvars this w = (Done this', w2)) /\
    (forall e w2, resetConvars w1 = (Throw e, w2) ->
       refreshConfig language resetConvars this w
         = (Done this', logged w2 [LogVerboseDirError e])).
Proof.
  destruct (setupTranslator_reconfigure language this w)
    as (this' & w1 & E & Hp & Hc & _ & _).
  exists this', w1. split; [exact E |]. split; [exact Hc |]. split; [exact Hp |].
  split.
  - intros w2 Er. by rewrite refreshConfig_spec, E, Er.
  - intros e w2 Er. by rewrite refreshConfig_spec, E, Er.
Qed.

Lemma refreshConfig_engine language resetConvars this w this' w' :
  (exists tree, loaded this tree) ->
  refreshConfig language resetConvars this w = (Done this', w') ->
  (exists tree, loaded this' tree) /\ customLocalePath this' = customLocalePath this.
Proof.
  intros Hl E. rewrite refreshConfig_spec in E.
  destruct (setupTranslator_reconfigure language this w)
    as (this1 & w1 & E1 & Hp & _ & _ & He).
  rewrite E1 in E.
  assert (this' = this1) as ->.
  { destruct (resetConvars w1) as [[u| | |] w2]; try discriminate; by injection E as <- _. }
  split; [| exact Hp].
  destruct He as [He | He]; [exact He |].
  destruct Hl as (tree & Hl). exists tree. unfold loaded in *. by rewrite He.
Qed.

Lemma runRefreshes_engine calls : forall this w this' w',
  (exists tree, loaded this tree) ->
  runRefreshes calls this w = (Done this', w') ->
  (exists tree, loaded this' tree) /\ customLocalePath this' = customLocalePath this.
Proof.
  induction calls as [| [language resetConvars] calls IH]; intros this w this' w' Hl E.
  - injection E as <- _. by split.
  - simpl in E. inv_bind E this1 w1 E1.
    destruct (refreshConfig_engine _ _ _ _ _ _ Hl E1) as [Hl1 Hp1].
    destruct (IH _ _ _ _ Hl1 E) as [Hl' Hp']. split; [exact Hl' | congruence].
Qed.

(** X17. A Translator that [new Translator()] returned keeps an engine
    through any history of [refreshConfig] calls that return, whatever
    the languages and whether [resetConvars] returns or raises: [t] then
    answers with a string for every key and options, and never raises
    [polyglot not yet loaded].  The custom catalog path stays the one fixed
    at construction. *)
Theorem constructed_translator_translates (dataPath language : jsstring) (w : world)
    (this : Translator) (w0 : world) (calls : list (jsstring * Proc unit))
    (this' : Translator) (w' : world) :
  constructor dataPath language w = (Done this, w0) ->
  runRefreshes calls this w0 = (Done this', w') ->
  customLocalePath this' = path_join [dataPath; js "locale.json"] /\
  (exists tree, loaded this' tree) /\
  forall key options w2, exists s w3, t this' key options w2 = (Done s, w3).
Proof.
  intros Ec Er.
  assert (Hc : constructor dataPath language w
               = setupTranslator language true (initial dataPath) w) by reflexivity.
  rewrite Hc in Ec.
  destruct (setupTranslator_engine _ _ _ _ _ _ Ec) as [H1 H2].
  assert (Hl : exists tree, loaded this tree).
  { destruct (loads (initial dataPath) language w) eqn:El; [by apply H1 |].
    exfalso. rewrite setupTranslator_spec in Ec. unfold loads in El.
    destruct ((getLanguagePhrases (initial dataPath) language w).1); try discriminate. }
  assert (Hp : customLocalePath this = path_join [dataPath; js "locale.json"]).
  { rewrite setupTranslator_spec in Ec.
    destruct ((getLanguagePhrases (initial dataPath) language w).1); try discriminate.
    by injection Ec as <- _. }
  destruct (runRefreshes_engine _ _ _ _ _ Hl Er) as [(tree & Hl') Hp'].
  split; [congruence |]. split; [by exists tree |].
  intros key options w2. by apply (t_loaded this' tree).
Qed.

(** X18. What [t] does once a catalog is loaded.  A key whose phrase is
    a string is answered with the interpolated phrase and nothing is
    written; a key without one falls back to the default phrase [_] of the
    options, undefined options counting as the empty object.  When the
    interpolation raises, [t] returns the key and writes one error line
    naming it.  In every case [t] ends normally, and the world is either
    left as it was or gets one console line, the answer then being the
    key. *)
Theorem translation_effects (this : Translator) (tree : value)
    (key : jsstring) (options : value) (w : world) :
  loaded this tree ->
  let opts := match options with VUndefined => VObj [] | _ => options end in
  let interpolated phrase :=
    match polyglot_transformPhrase phrase opts with
    | inr s => (Done s, w)
    | inl _ => (Done key, logged w [translationErrorLine key])
    end in
  (forall phrase, polyglot_extend tree !! key = Some (VStr phrase) ->
     t this key options w = interpolated phrase) /\
  (forall phrase, (forall s, polyglot_extend tree !! key <> Some (VStr s)) ->
     Polyglot.defaultPhrase opts = VStr phrase ->
     t this key options w = interpolated phrase) /\
  exists s w',
    t this key options w = (Done s, w') /\
    (w' = w \/
     s = key /\ (w' = logged w [translationErrorLine key] \/
                 w' = logged w [missingKeyLine key])).
Proof.
  intros Hl opts interpolated.
  assert (Hi : forall phrase,
            tryCatch (liftE (polyglot_transformPhrase phrase opts))
              (fun _ => console_error
                          (js "Error performing a translation with key '" ++ key ++ js "'");;
                        mret key) w
            = interpolated phrase).
  { intros phrase. unfold interpolated, tryCatch, liftE.
    destruct (polyglot_transformPhrase phrase opts); reflexivity. }
  assert (Ho : forall phrase, exists s w',
            interpolated phrase = (Done s, w') /\
            (w' = w \/
             s = key /\ (w' = logged w [translationErrorLine key] \/
                         w' = logged w [missingKeyLine key]))).
  { intros phrase. unfold interpolated.
    destruct (polyglot_transformPhrase phrase opts) as [e | s]; eexists _, _;
      (split; [reflexivity |]); [right | left]; auto. }
  assert (Ht : t this key options w
               = tryCatch (Polyglot.t (Polyglot.new tree missingKeyHandler) key opts)
                   (fun _ => console_error
                               (js "Error performing a translation with key '"
                                  ++ key ++ js "'");;
                             mret key) w).
  { unfold t. by rewrite Hl. }
  rewrite Ht. unfold Polyglot.t. simpl Polyglot.phrases. simpl Polyglot.onMissingKey.
  split; [| split].
  - intros phrase Hk. rewrite Hk. apply Hi.
  - intros phrase Hk Hd. rewrite Hd.
    destruct (polyglot_extend tree !! key) as [[| | | |s| |] |] eqn:Ek;
      try apply Hi. by destruct (Hk s).
  - destruct (polyglot_extend tree !! key) as [v |] eqn:Ek.
    + destruct v as [| | | |s| |];
        try (destruct (Polyglot.defaultPhrase opts) as [| | | |d| |];
             [.. | rewrite Hi; apply Ho | |];
             eexists _, _; (split; [reflexivity |]); right; auto).
      rewrite Hi; apply Ho.
    + destruct (Polyglot.defaultPhrase opts) as [| | | |d| |];
        [.. | rewrite Hi; apply Ho | |];
        eexists _, _; (split; [reflexivity |]); right; auto.
Qed.

End TranslatorMore.

Lemma constructor_loads_or_dies_witness :
  isObjectType (localeMap (Runtime := SampleTranslator2.rt) (js "custom")) = false /\
  files SampleTranslator2.customWorld
    !! Translator.customLocalePath
         (TranslatorSpec.initial (R := SampleTranslator2.rt) Sample.txData)
    = Some (File (Demo.stringify SampleTranslator2.customCatalog)) /\
  Translator.constructor (R := SampleTranslator2.rt) Sample.txData (js "custom")
    SampleTranslator2.customWorld
  = (Done (TranslatorSpec2.reloaded (R := SampleTranslator2.rt) (js "custom")
             (TranslatorSpec.initial (R := SampleTranslator2.rt) Sample.txData)
             SampleTranslator2.customCatalog),
     SampleTranslator2.customWorld).
Proof.
  assert (Ho : isObjectType (localeMap (Runtime := SampleTranslator2.rt) (js "custom"))
               = false) by (vm_compute; reflexivity).
  assert (Ef : files SampleTranslator2.customWorld
                 !! Translator.customLocalePath
                      (TranslatorSpec.initial (R := SampleTranslator2.rt) Sample.txData)
               = Some (File (Demo.stringify SampleTranslator2.customCatalog)))
    by (vm_compute; reflexivity).
  assert (Ep : JSON_parse (Runtime := SampleTranslator2.rt)
                 (Demo.stringify SampleTranslator2.customCatalog)
               = inr SampleTranslator2.customCatalog) by (vm_compute; reflexivity).
  split; [exact Ho |]. split; [exact Ef |].
  destruct (constructor_loads_or_dies (R := SampleTranslator2.rt) Sample.txData
              (js "custom") SampleTranslator2.customWorld) as (_ & _ & H & _).
  destruct (H Ho eq_refl) as (Hok & _ & _).
  exact (Hok _ _ Ef Ep).
Defined.

Lemma refreshConfig_contains_failures_witness :
  exists this' w1,
    Translator.setupTranslator (R := SampleTranslator.rt) (js "custom") false
      SampleTranslator.english SampleTranslator.brokenWorld = (Done this', w1) /\
    Translator.refreshConfig (R := SampleTranslator.rt) (js "custom")
      (throw (js "convars are gone")) SampleTranslator.english
      SampleTranslator.brokenWorld
    = (Done this', logged w1 [LogVerboseDirError (js "convars are gone")]).
Proof.
  destruct (refreshConfig_contains_failures (R := SampleTranslator.rt) (js "custom")
              (throw (js "convars are gone")) SampleTranslator.english
              SampleTranslator.brokenWorld)
    as (this' & w1 & E & _ & _ & _ & Ht).
  exists this', w1. split; [exact E |]. exact (Ht _ w1 eq_refl).
Defined.

Lemma constructed_translator_translates_witness :
  match Translator.constructor (R := SampleTranslator.rt) Sample.txData (js "en")
          SampleTranslator.brokenWorld with
  | (Done this, w0) =>
      match TranslatorSpec2.runRefreshes (R := SampleTranslator.rt)
              [(js "custom", throw (js "convars are gone")); (js "xx", mret tt)]
              this w0 with
      | (Done this', _) =>
          Translator.customLocalePath this'
            = path_join (Runtime := SampleTranslator.rt)
                [Sample.txData; js "locale.json"] /\
          exists s w3,
            Translator.t (R := SampleTranslator.rt) this' (js "missing.key")
              VUndefined Demo.emptyWorld = (Done s, w3)
      | _ => False
      end
  | _ => False
  end.
Proof.
  pose (r := Translator.constructor (R := SampleTranslator.rt) Sample.txData (js "en")
               SampleTranslator.brokenWorld).
  pose (this := match r.1 with Done this => this | _ => SampleTranslator.english end).
  assert (E : Translator.constructor (R := SampleTranslator.rt) Sample.txData (js "en")
                SampleTranslator.brokenWorld = (Done this, r.2))
    by (vm_compute; reflexivity).
  rewrite E. evaluated E' as this' w'.
  destruct (constructed_translator_translates (R := SampleTranslator.rt)
              _ _ _ _ _ _ _ _ E E') as (Hp & _ & Ht).
  split; [exact Hp |]. exact (Ht (js "missing.key") VUndefined Demo.emptyWorld).
Defined.

Lemma translation_effects_witness :
  TranslatorSpec.loaded (R := SampleTranslator2.rt)
    (TranslatorSpec2.reloaded (R := SampleTranslator2.rt) (js "custom")
       (TranslatorSpec.initial (R := SampleTranslator2.rt) Sample.txData)
       SampleTranslator2.customCatalog)
    SampleTranslator2.customCatalog /\
  polyglot_extend (Runtime := SampleTranslator2.rt) SampleTranslator2.customCatalog
    !! js "broken" = Some (VStr (js "%{")) /\
  Translator.t (R := SampleTranslator2.rt)
    (TranslatorSpec2.reloaded (R := SampleTranslator2.rt) (js "custom")
       (TranslatorSpec.initial (R := SampleTranslator2.rt) Sample.txData)
       SampleTranslator2.customCatalog)
    (js "broken") VUndefined Demo.emptyWorld
  = (Done (js "broken"),
     logged Demo.emptyWorld
       [TranslatorSpec2.translationErrorLine (js "broken")]).
Proof.
  assert (Hk : polyglot_extend (Runtime := SampleTranslator2.rt)
                 SampleTranslator2.customCatalog !! js "broken"
               = Some (VStr (js "%{"))) by (vm_compute; reflexivity).
  split; [reflexivity |]. split; [exact Hk |].
  destruct (translation_effects (R := SampleTranslator2.rt)
              (TranslatorSpec2.reloaded (R := SampleTranslator2.rt) (js "custom")
                 (TranslatorSpec.initial (R := SampleTranslator2.rt) Sample.txData)
                 SampleTranslator2.customCatalog)
              SampleTranslator2.customCatalog (js "broken") VUndefined
              Demo.emptyWorld eq_refl) as (H & _ & _).
  exact (H _ Hk).
Defined.
